(** * Crew status tracker: the compliance computation engine

    A shallow embedding of the flight/duty-time and rest-period
    computations of the crew status tracker
    (utils/calculations.ts, components/TechlogEntryForm.tsx,
    components/CrewStatusDashboard.tsx) together with the theorems that
    relate them to the written specification.

    Modelling conventions.
    - A JavaScript [number] is [NaN], an infinity or an exact rational
      ([Q]).  Every quantity the theorems speak about is an integer count
      of milliseconds (exact in binary64) or such a count divided by
      3 600 000, so rounding never changes a comparison made below;
      signed zeros are not distinguished.
    - A [Date] is its time value: [Some t] with [t] in milliseconds since
      the epoch, or [None] for the Invalid Date (time value NaN).  Time
      values stay far inside the +-8.64e15 ms range of ECMAScript dates, so
      TimeClip is not modelled.
    - [Date.parse] follows the ECMAScript date-time string format
      (ECMA-262, 21.4.1.32) with four-digit years.  Strings outside that
      format are left by the standard to implementation-specific
      fall-backs; the model gives them the Invalid Date.
    - The host's local time zone is a parameter [tz] (milliseconds east of
      UTC), constant over the period considered (no daylight-saving
      change).
    - The wall clock ([new Date()]) and the stored record set
      ([loadFromLocalStorage()]) are explicit parameters [now] and
      [entries].
    - A plain object used as a map is the list of its own properties in
      creation order; [Object.entries] lists array-index keys first, and a
      key that names a member of [Object.prototype] makes the grouping
      raise a TypeError ([None]). *)

From Stdlib Require Import ZArith QArith Qminmax Qround Lia Lqa List Bool.
From Stdlib Require Import Ascii String Permutation Sorted.
Import ListNotations.

Local Open Scope string_scope.
Local Open Scope Z_scope.

(* ================================================================= *)
(** ** JavaScript numbers *)

Inductive number : Type :=
| NaN
| PosInf
| NegInf
| Num (q : Q).

Definition Qlt_bool (x y : Q) : bool := negb (Qle_bool y x).

(** [a + b] *)
Definition nadd (a b : number) : number :=
  match a, b with
  | NaN, _ | _, NaN => NaN
  | PosInf, NegInf | NegInf, PosInf => NaN
  | PosInf, _ | _, PosInf => PosInf
  | NegInf, _ | _, NegInf => NegInf
  | Num x, Num y => Num (x + y)
  end.

Definition nneg (a : number) : number :=
  match a with
  | NaN => NaN
  | PosInf => NegInf
  | NegInf => PosInf
  | Num x => Num (- x)
  end.

(** [a - b] *)
Definition nsub (a b : number) : number := nadd a (nneg b).

(** [a < b] *)
Definition nlt (a b : number) : bool :=
  match a, b with
  | NaN, _ | _, NaN => false
  | PosInf, _ => false
  | _, NegInf => false
  | NegInf, _ => true
  | _, PosInf => true
  | Num x, Num y => Qlt_bool x y
  end.

(** [a <= b] *)
Definition nle (a b : number) : bool :=
  match a, b with
  | NaN, _ | _, NaN => false
  | NegInf, _ => true
  | _, PosInf => true
  | PosInf, _ => false
  | _, NegInf => false
  | Num x, Num y => Qle_bool x y
  end.

(** [a > b] and [a >= b] *)
Definition ngt (a b : number) : bool := nlt b a.
Definition nge (a b : number) : bool := nle b a.

(** [Math.max(a, b)] and [Math.min(a, b)] *)
Definition Math_max2 (a b : number) : number :=
  match a, b with
  | NaN, _ | _, NaN => NaN
  | _, _ => if nlt a b then b else a
  end.

Definition Math_min2 (a b : number) : number :=
  match a, b with
  | NaN, _ | _, NaN => NaN
  | _, _ => if nlt b a then b else a
  end.

(** [Math.max(...xs)] and [Math.min(...xs)]: the variadic forms start from
    -Infinity and +Infinity. *)
Definition Math_max (xs : list number) : number := fold_left Math_max2 xs NegInf.
Definition Math_min (xs : list number) : number := fold_left Math_min2 xs PosInf.

(** [x / (1000 * 60 * 60)] *)
Definition msPerHour : Q := 3600000%Q.

Definition ndivHour (x : number) : number :=
  match x with
  | Num q => Num (q / msPerHour)
  | other => other
  end.

(** The values two numbers denote are the same (rationals up to [==]). *)
Definition num_eq (a b : number) : Prop :=
  match a, b with
  | NaN, NaN | PosInf, PosInf | NegInf, NegInf => True
  | Num x, Num y => (x == y)%Q
  | _, _ => False
  end.

Infix "=n=" := num_eq (at level 70, no associativity).

(** A total is strictly above a limit; a number is a non-negative
    quantity; one finite number is at most another. *)
Definition numExceeds (total : number) (limit : Q) : Prop :=
  match total with
  | Num q => (limit < q)%Q
  | PosInf => True
  | _ => False
  end.

Definition nonNegative (x : number) : Prop :=
  match x with
  | Num q => (0 <= q)%Q
  | _ => False
  end.

Definition numLe (a b : number) : Prop :=
  match a, b with
  | Num x, Num y => (x <= y)%Q
  | _, _ => False
  end.

(** A number that is not an infinity. *)
Definition finiteOrNaN (x : number) : Prop :=
  match x with
  | NaN | Num _ => True
  | _ => False
  end.

(** A number that is never a negative quantity: NaN or a non-negative
    rational. *)
Definition nonNegativeOrNaN (x : number) : Prop :=
  match x with
  | NaN => True
  | Num q => (0 <= q)%Q
  | _ => False
  end.

(* ================================================================= *)
(** ** Dates *)

Definition Date : Type := option Z.

Definition msPerDay : Z := 86400000.

(** Midnight UTC of the reference day 2000-01-01. *)
Definition referenceDay : Z := 10957 * msPerDay.

(** A span of milliseconds in fractional hours. *)
Definition hoursOfMs (ms : Z) : Q := inject_Z ms / msPerHour.

(** [d.getTime()] *)
Definition getTime (d : Date) : number :=
  match d with
  | Some t => Num (inject_Z t)
  | None => NaN
  end.

(** [new Date(d.getTime() + k)] for an integer [k] *)
Definition DatePlusMs (d : Date) (k : Z) : Date := option_map (fun t => t + k) d.

(** [a < b], [a >= b], [a <= b] on Date objects (compared by time value) *)
Definition Date_lt (a b : Date) : bool :=
  match a, b with
  | Some x, Some y => x <? y
  | _, _ => false
  end.

Definition Date_le (a b : Date) : bool :=
  match a, b with
  | Some x, Some y => x <=? y
  | _, _ => false
  end.

Definition Date_ge (a b : Date) : bool := Date_le b a.

(** [d.setDate(d.getDate() + n)]: the same local wall-clock time [n]
    calendar days later; with a constant zone offset that is [n] days of
    milliseconds. *)
Definition setDatePlus (d : Date) (n : Z) : Date := DatePlusMs d (n * msPerDay).

(** *** Parsing *)

Definition digitVal (c : ascii) : option Z :=
  let n := nat_of_ascii c in
  if ((48 <=? n) && (n <=? 57))%nat then Some (Z.of_nat (n - 48)) else None.

(** Read exactly [n] decimal digits. *)
Fixpoint digits (n : nat) (acc : Z) (s : string) : option (Z * string) :=
  match n with
  | O => Some (acc, s)
  | S n' =>
      match s with
      | String c r =>
          match digitVal c with
          | Some d => digits n' (10 * acc + d) r
          | None => None
          end
      | EmptyString => None
      end
  end.

(** Consume the character [c]. *)
Definition eat (c : ascii) (s : string) : option string :=
  match s with
  | String c' r => if Ascii.eqb c c' then Some r else None
  | EmptyString => None
  end.

Definition isLeapYear (y : Z) : bool :=
  (y mod 4 =? 0) && (negb (y mod 100 =? 0) || (y mod 400 =? 0)).

Definition daysInMonth (y m : Z) : Z :=
  if m =? 2 then (if isLeapYear y then 29 else 28)
  else if (m =? 4) || (m =? 6) || (m =? 9) || (m =? 11) then 30
  else 31.

(** Day number (days since 1970-01-01) of a proleptic Gregorian date. *)
Definition dayNumber (y m d : Z) : Z :=
  let y' := if m <=? 2 then y - 1 else y in
  let era := y' / 400 in
  let yoe := y' - era * 400 in
  let mp := if m <=? 2 then m + 9 else m - 3 in
  let doy := (153 * mp + 2) / 5 + d - 1 in
  let doe := yoe * 365 + yoe / 4 - yoe / 100 + doy in
  era * 146097 + doe - 719468.

Definition makeDay (y m d : Z) (rest : string) : option (Z * string) :=
  if (1 <=? m) && (m <=? 12) && (1 <=? d) && (d <=? daysInMonth y m)
  then Some (dayNumber y m d, rest)
  else None.

(** The date part: [YYYY], [YYYY-MM] or [YYYY-MM-DD]; returns the day
    number and what follows. *)
Definition parseDatePrefix (s : string) : option (Z * string) :=
  match digits 4 0 s with
  | None => None
  | Some (y, r1) =>
      match eat "-" r1 with
      | None => makeDay y 1 1 r1
      | Some r2 =>
          match digits 2 0 r2 with
          | None => None
          | Some (m, r3) =>
              match eat "-" r3 with
              | None => makeDay y m 1 r3
              | Some r4 =>
                  match digits 2 0 r4 with
                  | None => None
                  | Some (d, r5) => makeDay y m d r5
                  end
              end
          end
      end
  end.

Definition makeTime (h m s ms : Z) (rest : string) : option (Z * string) :=
  if ((h <? 24) && (m <? 60) && (s <? 60))
     || ((h =? 24) && (m =? 0) && (s =? 0) && (ms =? 0))
  then Some (h * 3600000 + m * 60000 + s * 1000 + ms, rest)
  else None.

(** The time part: [HH:mm], [HH:mm:ss] or [HH:mm:ss.sss]; returns the
    milliseconds since midnight and what follows. *)
Definition parseTimePrefix (s : string) : option (Z * string) :=
  match digits 2 0 s with
  | None => None
  | Some (h, r1) =>
      match eat ":" r1 with
      | None => None
      | Some r2 =>
          match digits 2 0 r2 with
          | None => None
          | Some (m, r3) =>
              match eat ":" r3 with
              | None => makeTime h m 0 0 r3
              | Some r4 =>
                  match digits 2 0 r4 with
                  | None => None
                  | Some (sec, r5) =>
                      match eat "." r5 with
                      | None => makeTime h m sec 0 r5
                      | Some r6 =>
                          match digits 3 0 r6 with
                          | None => None
                          | Some (ms, r7) => makeTime h m sec ms r7
                          end
                      end
                  end
              end
          end
      end
  end.

(** The UTC offset designator: absent ([Some None], local time), [Z] or
    [+HH:mm] / [-HH:mm]. *)
Definition parseOffset (s : string) : option (option Z) :=
  match s with
  | EmptyString => Some None
  | String c r =>
      if Ascii.eqb c "Z" then
        (if String.eqb r "" then Some (Some 0) else None)
      else if Ascii.eqb c "+" || Ascii.eqb c "-" then
        match digits 2 0 r with
        | None => None
        | Some (h, r1) =>
            match eat ":" r1 with
            | None => None
            | Some r2 =>
                match digits 2 0 r2 with
                | Some (m, EmptyString) =>
                    if (h <? 24) && (m <? 60)
                    then Some (Some ((if Ascii.eqb c "-" then -1 else 1)
                                     * (h * 3600000 + m * 60000)))
                    else None
                | _ => None
                end
            end
        end
      else None
  end.

(** [new Date(s)] for a string [s].  A date-only form is UTC midnight; a
    date-time form without offset is local time: [tz] is the UTC offset of
    the host (milliseconds east of UTC) in force at that local time.  On a
    host whose offset changes between two dates no single [tz] serves
    both, so what is stated of two different dates is stated of the
    instants their strings parse to. *)
Definition DateParse (tz : Z) (s : string) : Date :=
  match parseDatePrefix s with
  | None => None
  | Some (D, r) =>
      match r with
      | EmptyString => Some (D * msPerDay)
      | String c t =>
          if Ascii.eqb c "T" then
            match parseTimePrefix t with
            | None => None
            | Some (ms, r') =>
                match parseOffset r' with
                | None => None
                | Some None => Some (D * msPerDay + ms - tz)
                | Some (Some off) => Some (D * msPerDay + ms - off)
                end
            end
          else None
      end
  end.

(** A string read as a calendar day, and as a time of day (milliseconds
    since midnight, no offset designator). *)
Definition calendarDay (s : string) : option Z :=
  match parseDatePrefix s with
  | Some (D, EmptyString) => Some D
  | _ => None
  end.

Definition timeOfDayMs (s : string) : option Z :=
  match parseTimePrefix s with
  | Some (ms, EmptyString) => Some ms
  | _ => None
  end.

(** *** The strings the form produces

    An [<input type="time">] yields [HH:mm]; an [<input type="date">] and
    [toISOString().split('T')[0]] yield [YYYY-MM-DD]. *)

Definition digitChar (d : Z) : ascii := ascii_of_nat (48 + Z.to_nat d).

Definition twoDigits (n : Z) : string :=
  String (digitChar (n / 10)) (String (digitChar (n mod 10)) EmptyString).

Definition fourDigits (n : Z) : string :=
  String (digitChar (n / 1000))
    (String (digitChar (n / 100 mod 10)) (twoDigits (n mod 100))).

Definition formatTime (h m : Z) : string := twoDigits h ++ ":" ++ twoDigits m.

Definition formatDate (y m d : Z) : string :=
  fourDigits y ++ "-" ++ twoDigits m ++ "-" ++ twoDigits d.

(* ================================================================= *)
(** ** Arrays *)

(** [l[i]]: [undefined] ([None]) outside the array. *)
Definition arrayAt {A : Type} (l : list A) (i : Z) : option A :=
  if i <? 0 then None else nth_error l (Z.to_nat i).

(** [Array.prototype.sort(compareFn)].  The sort is stable; [a] goes after
    [b] when [compareFn a b > 0], and a NaN result counts as 0.  For a
    comparator that is a consistent ordering every stable sort returns the
    same array; it is computed here by insertion. *)
Section ArraySort.
Context {A : Type} (compareFn : A -> A -> number).

Fixpoint sortInsert (x : A) (l : list A) : list A :=
  match l with
  | [] => [x]
  | y :: l' =>
      if ngt (compareFn x y) (Num 0) then y :: sortInsert x l' else x :: l
  end.

Definition Array_sort (l : list A) : list A := fold_right sortInsert [] l.
End ArraySort.

(** [l.map((x, i) => f i x)] and [l.filter((x, i) => p i x)] *)
Fixpoint mapFrom {A B : Type} (f : nat -> A -> B) (i : nat) (l : list A) : list B :=
  match l with
  | [] => []
  | x :: r => f i x :: mapFrom f (S i) r
  end.

Definition Array_mapi {A B : Type} (f : nat -> A -> B) (l : list A) : list B :=
  mapFrom f 0 l.

Fixpoint filterFrom {A : Type} (p : nat -> A -> bool) (i : nat) (l : list A) : list A :=
  match l with
  | [] => []
  | x :: r => if p i x then x :: filterFrom p (S i) r else filterFrom p (S i) r
  end.

Definition Array_filteri {A : Type} (p : nat -> A -> bool) (l : list A) : list A :=
  filterFrom p 0 l.

(** [l.findIndex(p)]: the first index whose element satisfies [p], or -1. *)
Fixpoint findIndexFrom {A : Type} (p : A -> bool) (i : Z) (l : list A) : Z :=
  match l with
  | [] => -1
  | x :: r => if p x then i else findIndexFrom p (i + 1) r
  end.

Definition Array_findIndex {A : Type} (p : A -> bool) (l : list A) : Z :=
  findIndexFrom p 0 l.

(** [l[i] = v] for an index inside the array or at its end (an index
    further out would leave holes; no caller produces one). *)
Definition arraySet {A : Type} (l : list A) (i : nat) (v : A) : list A :=
  if (i <? List.length l)%nat then (firstn i l ++ v :: skipn (S i) l)%list
  else (l ++ [v])%list.

(** A [Set<string>]: its elements in insertion order. *)
Definition JSSet : Type := list string.

Definition Set_has (x : string) (s : JSSet) : bool := existsb (String.eqb x) s.

Definition Set_add (x : string) (s : JSSet) : JSSet :=
  if Set_has x s then s else (s ++ [x])%list.

(** The comparison [Array.prototype.sort()] uses without a comparator:
    strings by code units. *)
Definition defaultCompare (x y : string) : number :=
  if String.ltb x y then Num (-1)
  else if String.ltb y x then Num 1
  else Num 0.

(** [Math.round(x * 100) / 100].  [Math.round] takes the floor of
    [x + 0.5]. *)
Definition roundHundredths (x : number) : number :=
  match x with
  | Num q => Num (inject_Z (Qfloor (q * 100 + (1 # 2))) / 100)
  | other => other
  end.

(* ================================================================= *)
(** ** Data model (types/index.ts) *)

Record Sector : Type := mkSector {
  sector_id : string;
  departure : string;
  arrival : string;
  takeoffTime : string;
  landingTime : string;
  flightTime : number   (* in hours *)
}.

Record TechlogEntry : Type := mkTechlogEntry {
  entry_id : string;
  techlogNumber : string;
  date : string;
  aircraftRegistration : string;
  pilotName : string;
  coPilotName : option string;
  sectors : list Sector;
  createdAt : Date
}.

Record Exceedances : Type := mkExceedances {
  exceeds_flightTime7Days : bool;
  exceeds_flightTime28Days : bool;
  exceeds_flightTime365Days : bool;
  exceeds_dutyTime7Days : bool;
  exceeds_dutyTime28Days : bool;
  exceeds_dutyTime365Days : bool;
  exceeds_sectors24Hours : bool
}.

Record PilotStats : Type := mkPilotStats {
  stats_pilotName : string;
  flightTime7Days : number;
  flightTime28Days : number;
  flightTime365Days : number;
  dutyTime7Days : number;
  dutyTime28Days : number;
  dutyTime365Days : number;
  sectors7Days : nat;
  sectors28Days : nat;
  sectors365Days : nat;
  exceedances : Exceedances
}.

Record AircraftStats : Type := mkAircraftStats {
  registration : string;
  totalCycles : nat;
  totalFlightHours : number;
  lastUpdated : Date
}.

Record AppData : Type := mkAppData {
  techlogEntries : list TechlogEntry;
  aircraftStats : list AircraftStats
}.

(** [entry.pilotName === pilotName || entry.coPilotName === pilotName];
    an absent co-pilot ([undefined]) equals no name. *)
Definition fliesAs (name : string) (entry : TechlogEntry) : bool :=
  String.eqb (pilotName entry) name
  || match coPilotName entry with
     | Some c => String.eqb c name
     | None => false
     end.

(** The take-off and landing times of day of a sector, in milliseconds
    since midnight, when its two strings are times of day. *)
Definition validTimes (s : Sector) : Prop :=
  timeOfDayMs (takeoffTime s) <> None /\ timeOfDayMs (landingTime s) <> None.

Definition takeoffMs (s : Sector) : Z :=
  match timeOfDayMs (takeoffTime s) with Some t => t | None => 0 end.

Definition landingMs (s : Sector) : Z :=
  match timeOfDayMs (landingTime s) with Some t => t | None => 0 end.

(** [e] is the earliest (resp. latest) of the times [l]. *)
Definition earliest (e : Z) (l : list Z) : Prop := In e l /\ Forall (fun x => e <= x) l.
Definition latest (m : Z) (l : list Z) : Prop := In m l /\ Forall (fun x => x <= m) l.

(* ================================================================= *)
(** ** utils/calculations.ts *)

Module Calculations.

Module FLIGHT_TIME_LIMITS.
Definition MAX_SECTORS_24H : nat := 10.
Definition MAX_HOURS_7D : Q := 34.
Definition MAX_HOURS_28D : Q := 100.
Definition MAX_HOURS_365D : Q := 1000.
End FLIGHT_TIME_LIMITS.

Module DUTY_TIME_LIMITS.
Definition MAX_HOURS_7D : Q := 55.
Definition MAX_HOURS_28D : Q := 190.
Definition MAX_HOURS_365D : Q := 1800.
End DUTY_TIME_LIMITS.

Definition calculateFlightTime (sectors : list Sector) : number :=
  fold_left (fun total sector => nadd total (flightTime sector)) sectors (Num 0).

Definition calculateDutyTime (tz : Z) (sectors : list Sector) : number :=
  if (List.length sectors =? 0)%nat then Num 0 else
  let takeoffTimes :=
    map (fun s => getTime (DateParse tz ("2000-01-01T" ++ takeoffTime s))) sectors in
  let landingTimes :=
    map (fun s => getTime (DateParse tz ("2000-01-01T" ++ landingTime s))) sectors in
  let earliestTakeoff := Math_min takeoffTimes in
  let latestLanding := Math_max landingTimes in
  (* Add 45 minutes to earliest takeoff (duty start) *)
  let dutyStart := nadd earliestTakeoff (Num (45 * 60 * 1000)) in
  (* Add 15 minutes to latest landing (duty end) *)
  let dutyEnd := nadd latestLanding (Num (15 * 60 * 1000)) in
  let dutyTimeMs := nsub dutyEnd dutyStart in
  let dutyTimeHours := ndivHour dutyTimeMs in
  Math_max [Num 0; dutyTimeHours].

Definition getEntriesInDateRange (tz : Z) (entries : list TechlogEntry)
    (startDate endDate : Date) : list TechlogEntry :=
  filter (fun entry =>
            let entryDate := DateParse tz (date entry) in
            Date_ge entryDate startDate && Date_le entryDate endDate)
         entries.

Definition sumFlightTime (es : list TechlogEntry) : number :=
  fold_left (fun total entry => nadd total (calculateFlightTime (sectors entry)))
            es (Num 0).

Definition sumDutyTime (tz : Z) (es : list TechlogEntry) : number :=
  fold_left (fun total entry => nadd total (calculateDutyTime tz (sectors entry)))
            es (Num 0).

Definition sumSectors (es : list TechlogEntry) : nat :=
  fold_left (fun total entry => (total + List.length (sectors entry))%nat) es 0%nat.

(** The four trailing windows of [calculatePilotStats]. *)
Definition windowEntries (tz now : Z) (pilotName : string)
    (entries : list TechlogEntry) (windowMs : Z) : list TechlogEntry :=
  let pilotEntries := filter (fliesAs pilotName) entries in
  getEntriesInDateRange tz pilotEntries (DatePlusMs (Some now) (- windowMs)) (Some now).

Definition calculatePilotStats (tz now : Z) (pilotName : string)
    (entries : list TechlogEntry) : PilotStats :=
  let entries7Days := windowEntries tz now pilotName entries (7 * 24 * 60 * 60 * 1000) in
  let entries28Days := windowEntries tz now pilotName entries (28 * 24 * 60 * 60 * 1000) in
  let entries365Days := windowEntries tz now pilotName entries (365 * 24 * 60 * 60 * 1000) in
  let flightTime7Days := sumFlightTime entries7Days in
  let flightTime28Days := sumFlightTime entries28Days in
  let flightTime365Days := sumFlightTime entries365Days in
  let dutyTime7Days := sumDutyTime tz entries7Days in
  let dutyTime28Days := sumDutyTime tz entries28Days in
  let dutyTime365Days := sumDutyTime tz entries365Days in
  let sectors7Days := sumSectors entries7Days in
  let sectors28Days := sumSectors entries28Days in
  let sectors365Days := sumSectors entries365Days in
  (* Check for 24-hour sector limit (last 24 hours) *)
  let entries24Hours := windowEntries tz now pilotName entries (24 * 60 * 60 * 1000) in
  let sectors24Hours := sumSectors entries24Hours in
  {| stats_pilotName := pilotName;
     flightTime7Days := flightTime7Days;
     flightTime28Days := flightTime28Days;
     flightTime365Days := flightTime365Days;
     dutyTime7Days := dutyTime7Days;
     dutyTime28Days := dutyTime28Days;
     dutyTime365Days := dutyTime365Days;
     sectors7Days := sectors7Days;
     sectors28Days := sectors28Days;
     sectors365Days := sectors365Days;
     exceedances :=
       {| exceeds_flightTime7Days :=
            ngt flightTime7Days (Num FLIGHT_TIME_LIMITS.MAX_HOURS_7D);
          exceeds_flightTime28Days :=
            ngt flightTime28Days (Num FLIGHT_TIME_LIMITS.MAX_HOURS_28D);
          exceeds_flightTime365Days :=
            ngt flightTime365Days (Num FLIGHT_TIME_LIMITS.MAX_HOURS_365D);
          exceeds_dutyTime7Days :=
            ngt dutyTime7Days (Num DUTY_TIME_LIMITS.MAX_HOURS_7D);
          exceeds_dutyTime28Days :=
            ngt dutyTime28Days (Num DUTY_TIME_LIMITS.MAX_HOURS_28D);
          exceeds_dutyTime365Days :=
            ngt dutyTime365Days (Num DUTY_TIME_LIMITS.MAX_HOURS_365D);
          exceeds_sectors24Hours :=
            (FLIGHT_TIME_LIMITS.MAX_SECTORS_24H <? sectors24Hours)%nat |} |}.

Definition calculateAircraftStats (now : Z) (registration : string)
    (entries : list TechlogEntry) : AircraftStats :=
  let aircraftEntries :=
    filter (fun entry => String.eqb (aircraftRegistration entry) registration) entries in
  let totalCycles := sumSectors aircraftEntries in
  let totalFlightHours := sumFlightTime aircraftEntries in
  {| registration := registration;
     totalCycles := totalCycles;
     totalFlightHours := totalFlightHours;
     lastUpdated := Some now |}.

(** The body of the [forEach] of [getAllPilotNames]; an absent or empty
    co-pilot name is falsy and is not added. *)
Definition addPilotNames (pilotNames : JSSet) (entry : TechlogEntry) : JSSet :=
  let pilotNames := Set_add (pilotName entry) pilotNames in
  match coPilotName entry with
  | Some c => if String.eqb c "" then pilotNames else Set_add c pilotNames
  | None => pilotNames
  end.

Definition getAllPilotNames (entries : list TechlogEntry) : list string :=
  let pilotNames := fold_left addPilotNames entries [] in
  Array_sort defaultCompare pilotNames.

Definition getAllAircraftRegistrations (entries : list TechlogEntry) : list string :=
  let registrations :=
    fold_left (fun set entry => Set_add (aircraftRegistration entry) set) entries [] in
  Array_sort defaultCompare registrations.

End Calculations.

(* ================================================================= *)
(** ** utils/storage.ts

    The content of the storage key is the [AppData] last saved ([None]
    when the key is absent); what is written is read back unchanged, which
    is what the JSON round trip with the date conversion of
    [loadFromLocalStorage] gives for records whose numbers are finite. *)

Module Storage.

Definition LocalStorage : Type := option AppData.

Definition emptyData : AppData := {| techlogEntries := []; aircraftStats := [] |}.

Definition saveToLocalStorage (data : AppData) (store : LocalStorage) : LocalStorage :=
  Some data.

Definition loadFromLocalStorage (store : LocalStorage) : AppData :=
  match store with
  | Some data => data
  | None => emptyData
  end.

Definition addTechlogEntry (entry : TechlogEntry) (store : LocalStorage) : LocalStorage :=
  let data := loadFromLocalStorage store in
  saveToLocalStorage
    {| techlogEntries := (techlogEntries data ++ [entry])%list;
       aircraftStats := aircraftStats data |} store.

Definition updateAircraftStats (stats : AircraftStats) (store : LocalStorage)
    : LocalStorage :=
  let data := loadFromLocalStorage store in
  let existingIndex :=
    Array_findIndex (fun s => String.eqb (registration s) (registration stats))
                    (aircraftStats data) in
  saveToLocalStorage
    {| techlogEntries := techlogEntries data;
       aircraftStats :=
         if 0 <=? existingIndex
         then arraySet (aircraftStats data) (Z.to_nat existingIndex) stats
         else (aircraftStats data ++ [stats])%list |} store.

Definition clearAllData (store : LocalStorage) : LocalStorage := None.

End Storage.

(* ================================================================= *)
(** ** components/TechlogEntryForm.tsx *)

Module TechlogEntryForm.

Definition calculateFlightTime (tz : Z) (takeoffTime landingTime : string) : number :=
  if String.eqb takeoffTime "" || String.eqb landingTime "" then Num 0 else
  let takeoff := DateParse tz ("2000-01-01T" ++ takeoffTime) in
  let landing := DateParse tz ("2000-01-01T" ++ landingTime) in
  let landing := if Date_lt landing takeoff then setDatePlus landing 1 else landing in
  let diffMs := nsub (getTime landing) (getTime takeoff) in
  ndivHour diffMs.

Record FormData : Type := mkFormData {
  form_techlogNumber : string;
  form_date : string;
  form_aircraftRegistration : string;
  form_pilotName : string;
  form_coPilotName : string
}.

Inductive FormField : Type :=
| TechlogNumberField | DateField | AircraftRegistrationField
| PilotNameField | CoPilotNameField.

(** [{...prev, [field]: value}] *)
Definition handleInputChange (field : FormField) (value : string) (prev : FormData)
    : FormData :=
  match field with
  | TechlogNumberField =>
      mkFormData value (form_date prev) (form_aircraftRegistration prev)
                 (form_pilotName prev) (form_coPilotName prev)
  | DateField =>
      mkFormData (form_techlogNumber prev) value (form_aircraftRegistration prev)
                 (form_pilotName prev) (form_coPilotName prev)
  | AircraftRegistrationField =>
      mkFormData (form_techlogNumber prev) (form_date prev) value
                 (form_pilotName prev) (form_coPilotName prev)
  | PilotNameField =>
      mkFormData (form_techlogNumber prev) (form_date prev)
                 (form_aircraftRegistration prev) value (form_coPilotName prev)
  | CoPilotNameField =>
      mkFormData (form_techlogNumber prev) (form_date prev)
                 (form_aircraftRegistration prev) (form_pilotName prev) value
  end.

(** The field and value of a [handleSectorChange] call. *)
Inductive SectorUpdate : Type :=
| SetDeparture (value : string)
| SetArrival (value : string)
| SetTakeoffTime (value : string)
| SetLandingTime (value : string)
| SetFlightTime (value : number).

(** [{ ...sector, [field]: value }] *)
Definition applyUpdate (u : SectorUpdate) (sector : Sector) : Sector :=
  match u with
  | SetDeparture v =>
      mkSector (sector_id sector) v (arrival sector) (takeoffTime sector)
               (landingTime sector) (flightTime sector)
  | SetArrival v =>
      mkSector (sector_id sector) (departure sector) v (takeoffTime sector)
               (landingTime sector) (flightTime sector)
  | SetTakeoffTime v =>
      mkSector (sector_id sector) (departure sector) (arrival sector) v
               (landingTime sector) (flightTime sector)
  | SetLandingTime v =>
      mkSector (sector_id sector) (departure sector) (arrival sector)
               (takeoffTime sector) v (flightTime sector)
  | SetFlightTime v =>
      mkSector (sector_id sector) (departure sector) (arrival sector)
               (takeoffTime sector) (landingTime sector) v
  end.

Definition handleSectorChange (index : nat) (u : SectorUpdate) (prev : list Sector)
    : list Sector :=
  Array_mapi (fun i sector => if (i =? index)%nat then applyUpdate u sector else sector)
             prev.

Definition emptySector (id : string) : Sector := mkSector id "" "" "" "" (Num 0).

(** [id] is [Date.now().toString()]. *)
Definition handleAddSector (id : string) (prev : list Sector) : list Sector :=
  (prev ++ [emptySector id])%list.

Definition handleRemoveSector (index : nat) (sectors : list Sector) : list Sector :=
  if (1 <? List.length sectors)%nat
  then Array_filteri (fun i _ => negb (i =? index)%nat) sectors
  else sectors.

Inductive TimeField : Type := TakeoffTimeField | LandingTimeField.

(** A string is truthy when it is not empty. *)
Definition nonEmpty (s : string) : bool := negb (String.eqb s "").

(** [None] is the TypeError of reading a field of [sectors[index]] when
    there is no such sector. *)
Definition handleTimeChange (tz : Z) (index : nat) (field : TimeField) (value : string)
    (sectors : list Sector) : option (list Sector) :=
  let updated :=
    handleSectorChange index
      (match field with
       | TakeoffTimeField => SetTakeoffTime value
       | LandingTimeField => SetLandingTime value
       end) sectors in
  match nth_error sectors index with
  | None => None
  | Some sector =>
      let otherTime :=
        match field with
        | TakeoffTimeField => landingTime sector
        | LandingTimeField => takeoffTime sector
        end in
      if nonEmpty value && nonEmpty otherTime then
        let flightTime :=
          calculateFlightTime tz
            (match field with TakeoffTimeField => value | LandingTimeField => otherTime end)
            (match field with LandingTimeField => value | TakeoffTimeField => otherTime end) in
        Some (handleSectorChange index (SetFlightTime (roundHundredths flightTime)) updated)
      else Some updated
  end.

Definition isValidSector (sector : Sector) : bool :=
  nonEmpty (departure sector) && nonEmpty (arrival sector)
  && nonEmpty (takeoffTime sector) && nonEmpty (landingTime sector).

(** What a submission does: an alert and nothing else, or an entry stored
    with the aircraft rollup refreshed. *)
Inductive SubmitOutcome : Type :=
| Alerted (message : string)
| Stored (entry : TechlogEntry) (store : Storage.LocalStorage).

Section HandleSubmit.
(** [String.prototype.toUpperCase], the clock and the identifier
    [Date.now().toString()] are supplied. *)
Variable toUpperCase : string -> string.

Definition handleSubmit (id : string) (now : Z) (formData : FormData)
    (sectors : list Sector) (store : Storage.LocalStorage) : SubmitOutcome :=
  if negb (nonEmpty (form_techlogNumber formData))
     || negb (nonEmpty (form_aircraftRegistration formData))
     || negb (nonEmpty (form_pilotName formData))
  then Alerted "Please fill in all required fields"
  else
    let validSectors := filter isValidSector sectors in
    if (List.length validSectors =? 0)%nat
    then Alerted "Please add at least one valid sector"
    else
      let entry :=
        {| entry_id := id;
           techlogNumber := form_techlogNumber formData;
           date := form_date formData;
           aircraftRegistration := toUpperCase (form_aircraftRegistration formData);
           pilotName := form_pilotName formData;
           coPilotName :=
             if nonEmpty (form_coPilotName formData)
             then Some (form_coPilotName formData) else None;
           sectors := validSectors;
           createdAt := Some now |} in
      let store := Storage.addTechlogEntry entry store in
      (* Update aircraft stats *)
      let data := Storage.loadFromLocalStorage store in
      let aircraftStats :=
        Calculations.calculateAircraftStats now
          (toUpperCase (form_aircraftRegistration formData)) (techlogEntries data) in
      Stored entry (Storage.updateAircraftStats aircraftStats store).
End HandleSubmit.

Definition initialSectors : list Sector := [emptySector "1"].

Definition initialFormData (today : string) : FormData :=
  mkFormData "" today "" "" "".

End TechlogEntryForm.

(* ================================================================= *)
(** ** Plain objects used as maps *)

(** A plain object [{}] with string keys, as the list of its own
    properties in creation order. *)
Definition JSObject (V : Type) : Type := list (string * V).

(** The names every plain object inherits from [Object.prototype]; each
    of them reads as a truthy value that has no [push] method. *)
Definition objectPrototypeKeys : list string :=
  [ "constructor"; "hasOwnProperty"; "isPrototypeOf"; "propertyIsEnumerable";
    "toLocaleString"; "toString"; "valueOf"; "__proto__";
    "__defineGetter__"; "__defineSetter__"; "__lookupGetter__"; "__lookupSetter__" ].

Definition inherited (k : string) : bool :=
  existsb (String.eqb k) objectPrototypeKeys.

Fixpoint getOwn {V : Type} (k : string) (o : JSObject V) : option V :=
  match o with
  | [] => None
  | (k', v) :: o' => if String.eqb k k' then Some v else getOwn k o'
  end.

(** Assignment to an existing own property keeps its position. *)
Fixpoint setOwn {V : Type} (k : string) (v : V) (o : JSObject V) : JSObject V :=
  match o with
  | [] => [(k, v)]
  | (k', v') :: o' =>
      if String.eqb k k' then (k, v) :: o' else (k', v') :: setOwn k v o'
  end.

Fixpoint decimalValue (s : string) (acc : Z) : option Z :=
  match s with
  | EmptyString => Some acc
  | String c r =>
      match digitVal c with
      | Some d => decimalValue r (10 * acc + d)
      | None => None
      end
  end.

(** A key is an array index when it is the canonical decimal form of an
    integer in [0, 2^32 - 2]. *)
Definition arrayIndex (k : string) : option Z :=
  match k with
  | EmptyString => None
  | String c r =>
      if Ascii.eqb c "0" && negb (String.eqb r "") then None
      else match decimalValue k 0 with
           | Some v => if v <=? 4294967294 then Some v else None
           | None => None
           end
  end.

Definition isArrayIndex {V : Type} (kv : string * V) : bool :=
  match arrayIndex (fst kv) with Some _ => true | None => false end.

Definition indexOfKey {V : Type} (kv : string * V) : Z :=
  match arrayIndex (fst kv) with Some i => i | None => 0 end.

(** [Object.entries(o)]: array-index keys in ascending numeric order, then
    the other keys in creation order. *)
Definition Object_entries {V : Type} (o : JSObject V) : list (string * V) :=
  (Array_sort (fun a b => Num (inject_Z (indexOfKey a - indexOfKey b)))
              (filter isArrayIndex o)
   ++ filter (fun kv => negb (isArrayIndex kv)) o)%list.

(* ================================================================= *)
(** ** components/CrewStatusDashboard.tsx *)

Module CrewStatusDashboard.

Record DailyDetail : Type := mkDailyDetail {
  day_date : string;
  day_entries : list TechlogEntry;
  day_sectors : list Sector;
  totalFlightTime : number;
  isOvernight : option bool   (* [None] is [undefined] *)
}.

Record RestPeriod : Type := mkRestPeriod {
  rest_start : Date;
  rest_end : Date;
  hours : number;
  isCompliant : bool;
  fromDate : string;
  toDate : string
}.

Record RestCompliance : Type := mkRestCompliance {
  totalOvernights : nat;
  totalRestPeriods : nat;
  compliantRestPeriods : nat;
  recentOvernights : nat;
  recentRestPeriods : nat;
  recentCompliantRestPeriods : nat;
  isFullyCompliant : bool;
  recentRestPeriodDetails : list RestPeriod
}.

(** The body of the grouping [reduce]: [None] is the TypeError raised by
    [groups[date].push] when [date] names an inherited property. *)
Definition groupStep (groups : JSObject (list TechlogEntry)) (entry : TechlogEntry)
    : option (JSObject (list TechlogEntry)) :=
  let date := date entry in
  match getOwn date groups with
  | Some es => Some (setOwn date (es ++ [entry])%list groups)
  | None =>
      if inherited date then None
      else Some (setOwn date [entry] groups)
  end.

Fixpoint groupByDate (pilotEntries : list TechlogEntry)
    (groups : JSObject (list TechlogEntry)) : option (JSObject (list TechlogEntry)) :=
  match pilotEntries with
  | [] => Some groups
  | entry :: rest =>
      match groupStep groups entry with
      | Some groups' => groupByDate rest groups'
      | None => None
      end
  end.

Definition HOME_BASE : string := "HTDA".

Definition dailyDetailOf (group : string * list TechlogEntry) : DailyDetail :=
  let '(date, entries) := group in
  (* Get all sectors for this day *)
  let allSectors := flat_map sectors entries in
  (* Determine if overnight based on last sector's arrival *)
  let lastSector := arrayAt allSectors (Z.of_nat (List.length allSectors) - 1) in
  let isOvernight :=
    match lastSector with
    | Some l => Some (negb (String.eqb (arrival l) HOME_BASE))
    | None => None
    end in
  {| day_date := date;
     day_entries := entries;
     day_sectors := allSectors;
     totalFlightTime :=
       fold_left (fun sum sector => nadd sum (flightTime sector)) allSectors (Num 0);
     isOvernight := isOvernight |}.

Definition dateValue (tz : Z) (day : DailyDetail) : number :=
  getTime (DateParse tz (day_date day)).

(** Get pilot's daily flight details, most recent first. *)
Definition getPilotDailyDetails (tz : Z) (pilotName : string)
    (entries : list TechlogEntry) : option (list DailyDetail) :=
  let pilotEntries := filter (fliesAs pilotName) entries in
  (* Group by date *)
  match groupByDate pilotEntries [] with
  | None => None
  | Some dailyGroups =>
      Some (Array_sort (fun a b => nsub (dateValue tz b) (dateValue tz a))
                       (map dailyDetailOf (Object_entries dailyGroups)))
  end.

Definition truthy (b : option bool) : bool :=
  match b with Some true => true | _ => false end.

(** [new Date(day.date) >= sevenDaysAgo] with
    [sevenDaysAgo.setDate(sevenDaysAgo.getDate() - 7)] *)
Definition isRecent (tz now : Z) (dateString : string) : bool :=
  let sevenDaysAgo := setDatePlus (Some now) (-7) in
  Date_ge (DateParse tz dateString) sevenDaysAgo.

Definition getPilotOvernightCount (tz now : Z) (pilotName : string)
    (entries : list TechlogEntry) : option (nat * nat) :=
  match getPilotDailyDetails tz pilotName entries with
  | None => None
  | Some dailyDetails =>
      let totalOvernights :=
        List.length (filter (fun day => truthy (isOvernight day)) dailyDetails) in
      let recentOvernights :=
        List.length (filter (fun day => isRecent tz now (day_date day)
                                        && truthy (isOvernight day)) dailyDetails) in
      Some (totalOvernights, recentOvernights)
  end.

(** The state of a rest-period loop: the two counters and the list the
    loop pushes to. *)
Record RestTally : Type := mkRestTally {
  tallyTotal : nat;
  tallyCompliant : nat;
  tallyDetails : list RestPeriod
}.

Definition emptyTally : RestTally :=
  {| tallyTotal := 0; tallyCompliant := 0; tallyDetails := [] |}.

(** One iteration of the loop, for [currentDay = days[i]] and
    [nextDay = days[i + 1]]. *)
Definition restStep (tz : Z) (currentDay nextDay : DailyDetail) (acc : RestTally)
    : RestTally :=
  (* Get the last sector of current day (when duty ended) *)
  let lastSectorOfCurrentDay :=
    arrayAt (day_sectors currentDay)
            (Z.of_nat (List.length (day_sectors currentDay)) - 1) in
  (* Get the first sector of next day (when duty started) *)
  let firstSectorOfNextDay := arrayAt (day_sectors nextDay) 0 in
  match lastSectorOfCurrentDay, firstSectorOfNextDay with
  | Some lastSector, Some firstSector =>
      let lastLandingTime :=
        DateParse tz (day_date currentDay ++ "T" ++ landingTime lastSector) in
      let firstTakeoffTime :=
        DateParse tz (day_date nextDay ++ "T" ++ takeoffTime firstSector) in
      (* Add 15 minutes to landing time and 45 minutes to takeoff time *)
      let restStart := DatePlusMs lastLandingTime (15 * 60 * 1000) in
      let restEnd := DatePlusMs firstTakeoffTime (45 * 60 * 1000) in
      let restHours := ndivHour (nsub (getTime restEnd) (getTime restStart)) in
      let isCompliant := nge restHours (Num 36) in
      {| tallyTotal := S (tallyTotal acc);
         tallyCompliant :=
           if isCompliant then S (tallyCompliant acc) else tallyCompliant acc;
         tallyDetails :=
           (tallyDetails acc
            ++ [ {| rest_start := restStart;
                    rest_end := restEnd;
                    hours := restHours;
                    isCompliant := isCompliant;
                    fromDate := day_date currentDay;
                    toDate := day_date nextDay |} ])%list |}
  | _, _ => acc
  end.

(** [for (let i = 0; i < days.length - 1; i++)] *)
Fixpoint restLoop (tz : Z) (days : list DailyDetail) (acc : RestTally) : RestTally :=
  match days with
  | [] => acc
  | currentDay :: rest =>
      match rest with
      | [] => acc
      | nextDay :: _ => restLoop tz rest (restStep tz currentDay nextDay acc)
      end
  end.

(** The chronological list the two loops walk. *)
Definition sortedDailyDetails (tz : Z) (dailyDetails : list DailyDetail)
    : list DailyDetail :=
  Array_sort (fun a b => nsub (dateValue tz a) (dateValue tz b)) dailyDetails.

Definition recentDailyDetails (tz now : Z) (sorted : list DailyDetail)
    : list DailyDetail :=
  filter (fun day => isRecent tz now (day_date day)) sorted.

(** Calculate pilot's rest compliance and overnight count. *)
Definition getPilotRestCompliance (tz now : Z) (pilotName : string)
    (entries : list TechlogEntry) : option RestCompliance :=
  match getPilotDailyDetails tz pilotName entries with
  | None => None
  | Some dailyDetails =>
      let sorted := sortedDailyDetails tz dailyDetails in
      (* Calculate rest periods between consecutive duty days *)
      let full := restLoop tz sorted emptyTally in
      (* Check last 7 days *)
      let recent := restLoop tz (recentDailyDetails tz now sorted) emptyTally in
      (* Determine if all rest periods are compliant (binary compliance) *)
      let isFullyCompliant :=
        (tallyTotal recent =? 0)%nat
        || (tallyCompliant recent =? tallyTotal recent)%nat in
      match getPilotOvernightCount tz now pilotName entries with
      | None => None
      | Some (totalOvernights, recentOvernights) =>
          Some {| totalOvernights := totalOvernights;
                  totalRestPeriods := tallyTotal full;
                  compliantRestPeriods := tallyCompliant full;
                  recentOvernights := recentOvernights;
                  recentRestPeriods := tallyTotal recent;
                  recentCompliantRestPeriods := tallyCompliant recent;
                  isFullyCompliant := isFullyCompliant;
                  recentRestPeriodDetails := tallyDetails recent |}
      end
  end.

(** The full-history list ([restPeriodDetails]) the first loop builds;
    the function returns only its two counters. *)
Definition restPeriodDetails (tz : Z) (pilotName : string)
    (entries : list TechlogEntry) : option (list RestPeriod) :=
  match getPilotDailyDetails tz pilotName entries with
  | None => None
  | Some dailyDetails =>
      Some (tallyDetails (restLoop tz (sortedDailyDetails tz dailyDetails) emptyTally))
  end.

End CrewStatusDashboard.

(* ================================================================= *)
(** ** Vocabulary of the statements *)

(** The time value of a date string that parses. *)
Definition dateMs (tz : Z) (dateString : string) : Z :=
  match DateParse tz dateString with Some t => t | None => 0 end.

(** The entries of a list that carry the date string [d], in order. *)
Definition entriesOn (d : string) (es : list TechlogEntry) : list TechlogEntry :=
  filter (fun e => String.eqb (date e) d) es.

Definition nonEmptyList {A : Type} (l : list A) : option (list A) :=
  match l with
  | [] => None
  | _ => Some l
  end.

(** [groups] is the grouping by date of the entries [processed]: its keys
    are distinct and the key [d] holds the entries dated [d], in order. *)
Definition groupsOf (processed : list TechlogEntry)
    (groups : JSObject (list TechlogEntry)) : Prop :=
  NoDup (map fst groups)
  /\ forall d, getOwn d groups = nonEmptyList (entriesOn d processed).

(** Days in descending (resp. ascending) order of their dates' time
    values, all dates being valid. *)
Definition laterOrSame (tz : Z) (a b : CrewStatusDashboard.DailyDetail) : Prop :=
  exists ta tb,
    DateParse tz (CrewStatusDashboard.day_date a) = Some ta
    /\ DateParse tz (CrewStatusDashboard.day_date b) = Some tb
    /\ tb <= ta.

Definition earlierOrSame (tz : Z) (a b : CrewStatusDashboard.DailyDetail) : Prop :=
  laterOrSame tz b a.

(** The record one loop iteration pushes (none when a boundary sector is
    missing), and the records of a whole day list in order. *)
Definition restPeriodOf (tz : Z) (currentDay nextDay : CrewStatusDashboard.DailyDetail)
    : list CrewStatusDashboard.RestPeriod :=
  CrewStatusDashboard.tallyDetails
    (CrewStatusDashboard.restStep tz currentDay nextDay CrewStatusDashboard.emptyTally).

Fixpoint restPairs (tz : Z) (days : list CrewStatusDashboard.DailyDetail)
    : list CrewStatusDashboard.RestPeriod :=
  match days with
  | [] => []
  | currentDay :: rest =>
      match rest with
      | [] => []
      | nextDay :: _ => (restPeriodOf tz currentDay nextDay ++ restPairs tz rest)%list
      end
  end.

(* ================================================================= *)
(** ** components/AircraftStatusDashboard.tsx *)

Module AircraftStatusDashboard.

(** The statistics the dashboard holds: one record per registration. *)
Definition loadAircraftStats (now : Z) (entries : list TechlogEntry) : list AircraftStats :=
  let registrations := Calculations.getAllAircraftRegistrations entries in
  map (fun registration => Calculations.calculateAircraftStats now registration entries)
      registrations.

(** The fleet summary: [aircraftStats.reduce((sum, a) => sum + a.totalCycles, 0)] *)
Definition fleetTotalCycles (aircraftStats : list AircraftStats) : nat :=
  fold_left (fun sum a => (sum + totalCycles a)%nat) aircraftStats 0%nat.

End AircraftStatusDashboard.

(** An entry no trailing window of a pilot can contain: another pilot's,
    one whose date does not parse, one dated after now, or one dated more
    than 365 days before now. *)
Definition outsideEveryWindow (tz now : Z) (pilot : string) (e : TechlogEntry) : Prop :=
  fliesAs pilot e = false
  \/ DateParse tz (date e) = None
  \/ exists t, DateParse tz (date e) = Some t
               /\ (now < t \/ t < now - 365 * 24 * 60 * 60 * 1000).

(* ================================================================= *)
(** ** The entry tab as a transition system

    The state the entry form and the storage hold between two events, and
    the events a user can raise: typing in a field, adding or removing a
    sector, submitting, and clearing all data (App.handleClearData).  A
    control for sector [index] exists only while the form has that
    sector. *)

Record AppState : Type := mkAppState {
  state_formData : TechlogEntryForm.FormData;
  state_sectors : list Sector;
  state_store : Storage.LocalStorage
}.

Inductive Event : Type :=
| InputChanged (field : TechlogEntryForm.FormField) (value : string)
| SectorAdded (id : string)
| SectorRemoved (index : nat)
| DepartureChanged (index : nat) (value : string)
| ArrivalChanged (index : nat) (value : string)
| TimeChanged (index : nat) (field : TechlogEntryForm.TimeField) (value : string)
| SubmitPressed (id : string) (now : Z) (today : string)
| DataCleared.

Section Transitions.
Variable tz : Z.
Variable toUpperCase : string -> string.

Definition step (s : AppState) (e : Event) : option AppState :=
  let inRange (index : nat) := (index <? List.length (state_sectors s))%nat in
  match e with
  | InputChanged field value =>
      Some (mkAppState (TechlogEntryForm.handleInputChange field value (state_formData s))
                       (state_sectors s) (state_store s))
  | SectorAdded id =>
      Some (mkAppState (state_formData s)
                       (TechlogEntryForm.handleAddSector id (state_sectors s))
                       (state_store s))
  | SectorRemoved index =>
      if inRange index
      then Some (mkAppState (state_formData s)
                            (TechlogEntryForm.handleRemoveSector index (state_sectors s))
                            (state_store s))
      else None
  | DepartureChanged index value =>
      if inRange index
      then Some (mkAppState (state_formData s)
                            (TechlogEntryForm.handleSectorChange
                               index (TechlogEntryForm.SetDeparture value) (state_sectors s))
                            (state_store s))
      else None
  | ArrivalChanged index value =>
      if inRange index
      then Some (mkAppState (state_formData s)
                            (TechlogEntryForm.handleSectorChange
                               index (TechlogEntryForm.SetArrival value) (state_sectors s))
                            (state_store s))
      else None
  | TimeChanged index field value =>
      match TechlogEntryForm.handleTimeChange tz index field value (state_sectors s) with
      | Some sectors' => Some (mkAppState (state_formData s) sectors' (state_store s))
      | None => None
      end
  | SubmitPressed id now today =>
      match TechlogEntryForm.handleSubmit toUpperCase id now (state_formData s)
                                          (state_sectors s) (state_store s) with
      | TechlogEntryForm.Alerted _ => Some s
      | TechlogEntryForm.Stored _ store' =>
          (* Reset form *)
          Some (mkAppState (TechlogEntryForm.initialFormData today)
                           TechlogEntryForm.initialSectors store')
      end
  | DataCleared =>
      Some (mkAppState (state_formData s) (state_sectors s)
                       (Storage.clearAllData (state_store s)))
  end.

(** An [<input type="time">] reports the empty string or a time of day. *)
Definition browserEvent (e : Event) : Prop :=
  match e with
  | TimeChanged _ _ value => value = "" \/ timeOfDayMs value <> None
  | _ => True
  end.

(** The states reached from a fresh form over an empty storage: by
    events, and by reloading the page, which resets the form and keeps the
    storage. *)
Inductive reachable : AppState -> Prop :=
| reachable_fresh (today : string) :
    reachable (mkAppState (TechlogEntryForm.initialFormData today)
                          TechlogEntryForm.initialSectors None)
| reachable_reload (s : AppState) (today : string) :
    reachable s ->
    reachable (mkAppState (TechlogEntryForm.initialFormData today)
                          TechlogEntryForm.initialSectors (state_store s))
| reachable_step (s s' : AppState) (e : Event) :
    reachable s -> browserEvent e -> step s e = Some s' -> reachable s'.

(** A sequence of events handled one after the other. *)
Definition runEvents (s : AppState) (events : list Event) : option AppState :=
  fold_left (fun acc e => match acc with Some s' => step s' e | None => None end)
            events (Some s).

(** A sector of the form whose two times are filled in carries the rounded
    flight time computed from them. *)
Definition flightTimeConsistent (sector : Sector) : Prop :=
  TechlogEntryForm.nonEmpty (takeoffTime sector)
  && TechlogEntryForm.nonEmpty (landingTime sector) = true ->
  flightTime sector
  = roundHundredths
      (TechlogEntryForm.calculateFlightTime tz (takeoffTime sector) (landingTime sector)).

Definition timesEntered (sector : Sector) : Prop :=
  (takeoffTime sector = "" \/ timeOfDayMs (takeoffTime sector) <> None)
  /\ (landingTime sector = "" \/ timeOfDayMs (landingTime sector) <> None).

End Transitions.

(** A stored entry as the form builds it. *)
Definition wellFormedEntry (e : TechlogEntry) : Prop :=
  techlogNumber e <> ""
  /\ pilotName e <> ""
  /\ coPilotName e <> Some ""
  /\ sectors e <> []
  /\ Forall (fun s => departure s <> "" /\ arrival s <> ""
                      /\ takeoffTime s <> "" /\ landingTime s <> "") (sectors e).

(** The stored aircraft rollup agrees with a recomputation from the
    stored entries, has one record per registration and covers every
    registration that has an entry. *)
Definition rollupFresh (data : AppData) : Prop :=
  NoDup (map registration (aircraftStats data))
  /\ (forall st, In st (aircraftStats data) ->
        totalCycles st
        = totalCycles (Calculations.calculateAircraftStats 0 (registration st)
                                                           (techlogEntries data))
        /\ totalFlightHours st
           = totalFlightHours (Calculations.calculateAircraftStats 0 (registration st)
                                                                   (techlogEntries data)))
  /\ (forall e, In e (techlogEntries data) ->
        In (aircraftRegistration e) (map registration (aircraftStats data))).

(** What holds of the sectors of the form between two events: there is
    at least one, each time is empty or a time of day, and a sector with
    both times carries the flight time computed from them. *)
Definition formInvariant (tz : Z) (sectors : list Sector) : Prop :=
  sectors <> []
  /\ Forall (fun x => timesEntered x /\ flightTimeConsistent tz x) sectors.

(** A sector as the form stores it: two times of day and the flight time
    computed from them. *)
Definition storedSector (tz : Z) (x : Sector) : Prop :=
  validTimes x
  /\ flightTime x
     = roundHundredths
         (TechlogEntryForm.calculateFlightTime tz (takeoffTime x) (landingTime x)).

Definition storeInvariant (tz : Z) (data : AppData) : Prop :=
  Forall (fun e => wellFormedEntry e /\ Forall (storedSector tz) (sectors e))
         (techlogEntries data)
  /\ rollupFresh data.

(** A day that has sectors and whose final sector arrives away from the
    home base. *)
Definition endsAwayFromBase (day : CrewStatusDashboard.DailyDetail) : bool :=
  match rev (CrewStatusDashboard.day_sectors day) with
  | lastSector :: _ => negb (String.eqb (arrival lastSector) "HTDA")
  | [] => false
  end.

(* ================================================================= *)
(** ** Sample records

    The scenario of the specification: pilot A. Smith flies
    KJFK-KLAX 07:00-10:30 and KLAX-KSEA 11:30-13:45 on 2024-01-01 and
    KSEA-KJFK 06:00-14:00 on 2024-01-03; a further day 2024-01-09 ends at
    the home base. *)

Module Sample.

Definition sector1 : Sector := mkSector "1" "KJFK" "KLAX" "07:00" "10:30" (Num 3.5).
Definition sector2 : Sector := mkSector "2" "KLAX" "KSEA" "11:30" "13:45" (Num 2.25).
Definition sector3 : Sector := mkSector "3" "KSEA" "KJFK" "06:00" "14:00" (Num 8).
Definition sector4 : Sector := mkSector "4" "KJFK" "HTDA" "06:00" "14:00" (Num 8).

Definition entry1 : TechlogEntry :=
  mkTechlogEntry "1" "TL-1" "2024-01-01" "5H-AAA" "A. Smith" None
                 [sector1; sector2] (Some 1704117600000).
Definition entry2 : TechlogEntry :=
  mkTechlogEntry "2" "TL-2" "2024-01-03" "5H-AAA" "A. Smith" None
                 [sector3] (Some 1704290400000).
Definition entry3 : TechlogEntry :=
  mkTechlogEntry "3" "TL-3" "2024-01-09" "5H-AAA" "B. Jones" (Some "A. Smith")
                 [sector4] (Some 1704808800000).

Definition entries : list TechlogEntry := [entry1; entry2; entry3].

(** A second submission for 2024-01-01, logged after the entry of
    2024-01-03. *)
Definition sector5 : Sector := mkSector "5" "KSEA" "KPDX" "15:00" "15:50" (Num (5 # 6)).
Definition entry1b : TechlogEntry :=
  mkTechlogEntry "6" "TL-6" "2024-01-01" "5H-BBB" "C. Brown" (Some "A. Smith")
                 [sector5] (Some 1704121200000).

Definition twoSubmissions : list TechlogEntry := [entry1; entry2; entry1b].

(** 2024-01-12T12:00:00Z *)
Definition now : Z := 1705060800000.

(** A day ending with a landing at 06:30 and the next day starting with
    a take-off at 18:00: a rest of exactly 36 hours. *)
Definition dayA : CrewStatusDashboard.DailyDetail :=
  CrewStatusDashboard.dailyDetailOf
    ("2024-02-01",
     [mkTechlogEntry "7" "TL-7" "2024-02-01" "5H-AAA" "A. Smith" None
        [mkSector "7" "HTDA" "HTZA" "05:50" "06:30" (Num (2 # 3))] None]).
Definition dayB : CrewStatusDashboard.DailyDetail :=
  CrewStatusDashboard.dailyDetailOf
    ("2024-02-02",
     [mkTechlogEntry "8" "TL-8" "2024-02-02" "5H-AAA" "A. Smith" None
        [mkSector "8" "HTZA" "HTDA" "18:00" "18:40" (Num (2 # 3))] None]).
(** The same next day with the take-off 36 seconds earlier: 35.99 hours. *)
Definition dayB' : CrewStatusDashboard.DailyDetail :=
  CrewStatusDashboard.dailyDetailOf
    ("2024-02-02",
     [mkTechlogEntry "8" "TL-8" "2024-02-02" "5H-AAA" "A. Smith" None
        [mkSector "8" "HTZA" "HTDA" "17:59:24" "18:40" (Num (2 # 3))] None]).

(** [toUpperCase] on ASCII strings. *)
Definition upperChar (c : ascii) : ascii :=
  let n := nat_of_ascii c in
  if ((97 <=? n) && (n <=? 122))%nat then ascii_of_nat (n - 32) else c.

Fixpoint toUpperCaseAscii (s : string) : string :=
  match s with
  | EmptyString => EmptyString
  | String c r => String (upperChar c) (toUpperCaseAscii r)
  end.

(** Filling in the form: one complete sector, one sector added and left
    empty, and the three required fields; then submitting it. *)
Definition formEvents : list Event :=
  [ TimeChanged 0 TechlogEntryForm.TakeoffTimeField "07:00";
    TimeChanged 0 TechlogEntryForm.LandingTimeField "10:30";
    DepartureChanged 0 "HTDA";
    ArrivalChanged 0 "HTZA";
    SectorAdded "1705060800001";
    InputChanged TechlogEntryForm.TechlogNumberField "TL-9";
    InputChanged TechlogEntryForm.AircraftRegistrationField "5h-aaa";
    InputChanged TechlogEntryForm.PilotNameField "A. Smith" ].

Definition submitEvents : list Event :=
  (formEvents ++ [SubmitPressed "1705060800002" now "2024-01-12"])%list.

Definition freshState : AppState :=
  mkAppState (TechlogEntryForm.initialFormData "2024-01-12")
             TechlogEntryForm.initialSectors None.

End Sample.

(* ================================================================= *)
(** * Properties *)

(** ** Numbers *)

Lemma Qlt_bool_iff (x y : Q) : Qlt_bool x y = true <-> (x < y)%Q.
Proof.
  unfold Qlt_bool. rewrite negb_true_iff. split; intro H.
  - apply Qnot_le_lt. intro Hle. apply Qle_bool_iff in Hle. congruence.
  - destruct (Qle_bool y x) eqn:E; [|reflexivity].
    apply Qle_bool_iff in E. exfalso. apply (Qlt_not_le _ _ H E).
Qed.

Lemma Qlt_bool_false_iff (x y : Q) : Qlt_bool x y = false <-> (y <= x)%Q.
Proof.
  unfold Qlt_bool. rewrite negb_false_iff. apply Qle_bool_iff.
Qed.

Lemma num_eq_refl (a : number) : a =n= a.
Proof. destruct a; simpl; auto. reflexivity. Qed.

Lemma num_eq_sym (a b : number) : a =n= b -> b =n= a.
Proof. destruct a, b; simpl; auto. intro H. symmetry. exact H. Qed.

Lemma num_eq_trans (a b c : number) : a =n= b -> b =n= c -> a =n= c.
Proof.
  destruct a, b, c; simpl; auto; try contradiction.
  intros H1 H2. rewrite H1. exact H2.
Qed.

Lemma inject_Z_lt_bool (a b : Z) :
  Qlt_bool (inject_Z a) (inject_Z b) = (a <? b).
Proof.
  destruct (a <? b) eqn:E.
  - apply Qlt_bool_iff. rewrite <- Zlt_Qlt. apply Z.ltb_lt. exact E.
  - apply Qlt_bool_false_iff. rewrite <- Zle_Qle. apply Z.ltb_ge. exact E.
Qed.

(** The sign test a comparator result goes through, for a difference of
    two time values. *)
Lemma ngt_diff_zero (a b : Z) :
  ngt (nsub (Num (inject_Z a)) (Num (inject_Z b))) (Num 0) = (b <? a).
Proof.
  unfold ngt, nsub, nadd, nneg, nlt.
  destruct (b <? a) eqn:E.
  - apply Qlt_bool_iff. apply Z.ltb_lt in E.
    unfold Qlt, Qplus, Qopp, inject_Z. simpl. lia.
  - apply Qlt_bool_false_iff. apply Z.ltb_ge in E.
    unfold Qle, Qplus, Qopp, inject_Z. simpl. lia.
Qed.

(** ** The date parser *)

Example DateParse_epoch : DateParse 0 "1970-01-01" = Some 0.
Proof. reflexivity. Qed.

(** 07:00 at UTC+3 on the reference day is 04:00 UTC. *)
Example DateParse_local : DateParse 10800000 "2000-01-01T07:00" = Some 946699200000.
Proof. reflexivity. Qed.

Example DateParse_invalid :
  DateParse 0 "2000-01-01Tabc" = None /\ DateParse 0 "2000-01-01T" = None
  /\ DateParse 0 "" = None.
Proof. repeat split. Qed.

Lemma digitVal_range (c : ascii) (d : Z) : digitVal c = Some d -> 0 <= d <= 9.
Proof.
  unfold digitVal.
  destruct ((48 <=? nat_of_ascii c)%nat && (nat_of_ascii c <=? 57)%nat) eqn:E;
    [|discriminate].
  intro H. injection H as <-.
  apply andb_true_iff in E. destruct E as [E1 E2].
  apply Nat.leb_le in E1. apply Nat.leb_le in E2. lia.
Qed.

Lemma digits_app (n : nat) :
  forall acc s v r x,
    digits n acc s = Some (v, r) ->
    digits n acc (s ++ x) = Some (v, (r ++ x)%string).
Proof.
  induction n as [|n IH]; simpl; intros acc s v r x H.
  - injection H as <- <-. reflexivity.
  - destruct s as [|c s']; [discriminate|]. simpl.
    destruct (digitVal c); [|discriminate]. apply IH. exact H.
Qed.

Lemma digits_range (n : nat) :
  forall acc s v r,
    digits n acc s = Some (v, r) -> 0 <= acc ->
    acc * 10 ^ Z.of_nat n <= v < (acc + 1) * 10 ^ Z.of_nat n.
Proof.
  induction n as [|n IH]; intros acc s v r H Hacc.
  - cbn [digits] in H. injection H as <- _. simpl. lia.
  - cbn [digits] in H. destruct s as [|c s']; [discriminate|].
    destruct (digitVal c) as [d|] eqn:Ed; [|discriminate].
    apply digitVal_range in Ed.
    apply IH in H; [|lia].
    rewrite Nat2Z.inj_succ, Z.pow_succ_r by lia.
    assert (HP : 0 < 10 ^ Z.of_nat n) by (apply Z.pow_pos_nonneg; lia).
    nia.
Qed.

Lemma eat_app (c : ascii) (s r x : string) :
  eat c s = Some r -> eat c (s ++ x) = Some (r ++ x)%string.
Proof.
  destruct s as [|c' s']; simpl; [discriminate|].
  destruct (Ascii.eqb c c'); [|discriminate].
  intro H. injection H as <-. reflexivity.
Qed.

Lemma makeDay_rest (y m d : Z) (r : string) (D : Z) (r' : string) :
  makeDay y m d r = Some (D, r') -> r' = r /\ forall x, makeDay y m d x = Some (D, x).
Proof.
  unfold makeDay.
  destruct ((1 <=? m) && (m <=? 12) && (1 <=? d) && (d <=? daysInMonth y m));
    [|discriminate].
  intro H. injection H as <- <-. auto.
Qed.

(** A complete date followed by [T] parses as that date, with the time
    part left over. *)
Lemma parseDatePrefix_T (d : string) (D : Z) (t : string) :
  parseDatePrefix d = Some (D, EmptyString) ->
  parseDatePrefix (d ++ String "T" t) = Some (D, String "T" t).
Proof.
  unfold parseDatePrefix.
  destruct (digits 4 0 d) as [[y r1]|] eqn:E1; [|discriminate].
  rewrite (digits_app _ _ _ _ _ (String "T" t) E1).
  destruct (eat "-" r1) as [r2|] eqn:E2.
  - rewrite (eat_app _ _ _ (String "T" t) E2).
    destruct (digits 2 0 r2) as [[m r3]|] eqn:E3; [|discriminate].
    rewrite (digits_app _ _ _ _ _ (String "T" t) E3).
    destruct (eat "-" r3) as [r4|] eqn:E4.
    + rewrite (eat_app _ _ _ (String "T" t) E4).
      destruct (digits 2 0 r4) as [[dd r5]|] eqn:E5; [|discriminate].
      rewrite (digits_app _ _ _ _ _ (String "T" t) E5).
      intro H. apply makeDay_rest in H. destruct H as [<- H]. apply H.
    + intro H. apply makeDay_rest in H. destruct H as [<- H]. simpl. apply H.
  - intro H. apply makeDay_rest in H. destruct H as [<- H]. simpl. apply H.
Qed.

(** The instant a date string and a time-of-day string denote together,
    read in local time. *)
Lemma DateParse_dateTime (tz : Z) (d t : string) (D ms : Z) :
  calendarDay d = Some D ->
  timeOfDayMs t = Some ms ->
  DateParse tz (d ++ "T" ++ t) = Some (D * msPerDay + ms - tz).
Proof.
  unfold calendarDay, timeOfDayMs, DateParse. intros Hd Ht.
  destruct (parseDatePrefix d) as [[D' [|c r]]|] eqn:Ed; try discriminate.
  injection Hd as ->.
  change (d ++ "T" ++ t)%string with (d ++ String "T" t)%string.
  rewrite (parseDatePrefix_T _ _ t Ed).
  change (Ascii.eqb "T" "T") with true. cbv iota.
  destruct (parseTimePrefix t) as [[ms' [|c r]]|]; try discriminate.
  injection Ht as ->. reflexivity.
Qed.

(** Every [HH:mm] string of the form is a time of day and every
    [YYYY-MM-DD] string of a real calendar date is a calendar day. *)
Lemma digitVal_digitChar (d : Z) : 0 <= d <= 9 -> digitVal (digitChar d) = Some d.
Proof.
  intro H.
  assert (Hd : d = 0 \/ d = 1 \/ d = 2 \/ d = 3 \/ d = 4 \/ d = 5 \/ d = 6
               \/ d = 7 \/ d = 8 \/ d = 9) by lia.
  repeat (destruct Hd as [-> | Hd]; [reflexivity|]). subst d. reflexivity.
Qed.

Lemma digits_twoDigits (n : Z) (r : string) :
  0 <= n < 100 -> digits 2 0 (twoDigits n ++ r) = Some (n, r).
Proof.
  intro H. unfold twoDigits. cbn [append digits].
  rewrite digitVal_digitChar by (split; [apply Z.div_pos; lia | apply Z.lt_succ_r, Z.div_lt_upper_bound; lia]).
  rewrite digitVal_digitChar by (pose proof (Z.mod_pos_bound n 10); lia).
  f_equal. f_equal. pose proof (Z.div_mod n 10). lia.
Qed.

Lemma digits_fourDigits (n : Z) (r : string) :
  0 <= n < 10000 -> digits 4 0 (fourDigits n ++ r) = Some (n, r).
Proof.
  intro H. unfold fourDigits, twoDigits. cbn [append digits].
  rewrite digitVal_digitChar
    by (split; [apply Z.div_pos; lia | apply Z.lt_succ_r, Z.div_lt_upper_bound; lia]).
  rewrite digitVal_digitChar by (pose proof (Z.mod_pos_bound (n / 100) 10); lia).
  rewrite digitVal_digitChar
    by (pose proof (Z.mod_pos_bound n 100);
        split; [apply Z.div_pos; lia | apply Z.lt_succ_r, Z.div_lt_upper_bound; lia]).
  rewrite digitVal_digitChar by (pose proof (Z.mod_pos_bound (n mod 100) 10); lia).
  f_equal. f_equal.
  Z.to_euclidean_division_equations. lia.
Qed.

Lemma timeOfDayMs_formatTime (h m : Z) :
  0 <= h < 24 -> 0 <= m < 60 ->
  timeOfDayMs (formatTime h m) = Some (h * 3600000 + m * 60000).
Proof.
  intros Hh Hm. unfold timeOfDayMs, parseTimePrefix, formatTime.
  rewrite digits_twoDigits by lia. cbn [append eat].
  change (Ascii.eqb ":" ":") with true. cbv iota.
  replace (twoDigits m) with (twoDigits m ++ "")%string
    by (unfold twoDigits; reflexivity).
  rewrite digits_twoDigits by lia. cbn [eat]. unfold makeTime.
  replace (h <? 24) with true by (symmetry; apply Z.ltb_lt; lia).
  replace (m <? 60) with true by (symmetry; apply Z.ltb_lt; lia).
  cbn. f_equal. lia.
Qed.

Lemma calendarDay_formatDate (y m d : Z) :
  0 <= y < 10000 -> 1 <= m <= 12 -> 1 <= d <= daysInMonth y m ->
  calendarDay (formatDate y m d) = Some (dayNumber y m d).
Proof.
  intros Hy Hm Hd.
  assert (Hd31 : d <= 31).
  { unfold daysInMonth in Hd.
    destruct (m =? 2); [destruct (isLeapYear y); lia|].
    destruct ((m =? 4) || (m =? 6) || (m =? 9) || (m =? 11)); lia. }
  unfold calendarDay, parseDatePrefix, formatDate.
  rewrite digits_fourDigits by lia. cbn [append eat].
  change (Ascii.eqb "-" "-") with true. cbv iota.
  rewrite digits_twoDigits by lia. cbn [append eat].
  change (Ascii.eqb "-" "-") with true. cbv iota.
  replace (twoDigits d) with (twoDigits d ++ "")%string
    by (unfold twoDigits; reflexivity).
  rewrite digits_twoDigits by lia. unfold makeDay.
  replace (1 <=? m) with true by (symmetry; apply Z.leb_le; lia).
  replace (m <=? 12) with true by (symmetry; apply Z.leb_le; lia).
  replace (1 <=? d) with true by (symmetry; apply Z.leb_le; lia).
  replace (d <=? daysInMonth y m) with true by (symmetry; apply Z.leb_le; lia).
  reflexivity.
Qed.

Example formatTime_example : formatTime 7 5 = "07:05".
Proof. reflexivity. Qed.

Example formatDate_example : formatDate 2024 1 3 = "2024-01-03".
Proof. reflexivity. Qed.

(** Day numbers are consecutive across month and leap-day boundaries. *)
Example dayNumber_examples :
  dayNumber 1970 1 1 = 0
  /\ dayNumber 2000 1 1 = 10957
  /\ dayNumber 2024 2 29 + 1 = dayNumber 2024 3 1
  /\ dayNumber 2023 2 28 + 1 = dayNumber 2023 3 1
  /\ dayNumber 2023 12 31 + 1 = dayNumber 2024 1 1.
Proof. repeat split. Qed.

Lemma calendarDay_reference : calendarDay "2000-01-01" = Some 10957.
Proof. reflexivity. Qed.

Lemma DateParse_reference (tz : Z) (t : string) (ms : Z) :
  timeOfDayMs t = Some ms ->
  DateParse tz ("2000-01-01T" ++ t) = Some (referenceDay + ms - tz).
Proof.
  intro Ht.
  exact (DateParse_dateTime tz "2000-01-01" t 10957 ms calendarDay_reference Ht).
Qed.

Lemma makeTime_range (h m s ms : Z) (r : string) (t : Z) (r' : string) :
  0 <= h -> 0 <= m -> 0 <= s -> 0 <= ms < 1000 ->
  makeTime h m s ms r = Some (t, r') -> 0 <= t <= 86400000.
Proof.
  unfold makeTime. intros Hh Hm Hs Hms.
  destruct ((h <? 24) && (m <? 60) && (s <? 60)) eqn:E1.
  - simpl. intro H. injection H as <- _.
    apply andb_true_iff in E1. destruct E1 as [E1 E3].
    apply andb_true_iff in E1. destruct E1 as [E1 E2].
    apply Z.ltb_lt in E1. apply Z.ltb_lt in E2. apply Z.ltb_lt in E3. lia.
  - simpl.
    destruct ((h =? 24) && (m =? 0) && (s =? 0) && (ms =? 0)) eqn:E2; [|discriminate].
    intro H. injection H as <- _.
    repeat (apply andb_true_iff in E2; destruct E2 as [E2 ?E]).
    apply Z.eqb_eq in E2. apply Z.eqb_eq in E. apply Z.eqb_eq in E0.
    apply Z.eqb_eq in E3. lia.
Qed.

Lemma timeOfDayMs_range (s : string) (t : Z) :
  timeOfDayMs s = Some t -> 0 <= t <= 86400000.
Proof.
  unfold timeOfDayMs, parseTimePrefix.
  destruct (digits 2 0 s) as [[h r1]|] eqn:E1; [|discriminate].
  apply digits_range in E1; [|lia].
  destruct (eat ":" r1) as [r2|]; [|discriminate].
  destruct (digits 2 0 r2) as [[m r3]|] eqn:E3; [|discriminate].
  apply digits_range in E3; [|lia].
  destruct (eat ":" r3) as [r4|].
  - destruct (digits 2 0 r4) as [[sec r5]|] eqn:E5; [|discriminate].
    apply digits_range in E5; [|lia].
    destruct (eat "." r5) as [r6|].
    + destruct (digits 3 0 r6) as [[ms r7]|] eqn:E7; [|discriminate].
      apply digits_range in E7; [|lia].
      destruct (makeTime h m sec ms r7) as [[t' r']|] eqn:E; [|discriminate].
      destruct r'; [|discriminate]. intro H. injection H as <-.
      apply makeTime_range in E; simpl in *; lia.
    + destruct (makeTime h m sec 0 r5) as [[t' r']|] eqn:E; [|discriminate].
      destruct r'; [|discriminate]. intro H. injection H as <-.
      apply makeTime_range in E; simpl in *; lia.
  - destruct (makeTime h m 0 0 r3) as [[t' r']|] eqn:E; [|discriminate].
    destruct r'; [|discriminate]. intro H. injection H as <-.
    apply makeTime_range in E; simpl in *; lia.
Qed.

Lemma timeOfDayMs_nonempty (s : string) (t : Z) :
  timeOfDayMs s = Some t -> String.eqb s "" = false.
Proof.
  destruct s; [discriminate|reflexivity].
Qed.

Lemma nadd_NaN_r (a : number) : nadd a NaN = NaN.
Proof. destruct a; reflexivity. Qed.

Lemma nsub_NaN_r (a : number) : nsub a NaN = NaN.
Proof. unfold nsub. simpl. apply nadd_NaN_r. Qed.

Lemma Date_lt_None_r (d : Date) : Date_lt d None = false.
Proof. destruct d; reflexivity. Qed.

(** The difference of two time values, in hours. *)
Lemma ndivHour_diff (x y : Z) :
  ndivHour (nsub (Num (inject_Z x)) (Num (inject_Z y))) =n= Num (hoursOfMs (x - y)).
Proof.
  simpl. unfold hoursOfMs, Qdiv. apply Qmult_comp; [|reflexivity].
  rewrite <- inject_Z_opp, <- inject_Z_plus. reflexivity.
Qed.

(** ** Sector flight time (TechlogEntryForm.calculateFlightTime) *)

(** C6. When the landing time of day is earlier than the take-off time of
    day, the flight time is computed with the landing moved 24 hours
    later: it equals (landing + 24 h - take-off) in hours, it is never
    negative, and it is positive for every take-off time before 24:00
    (the parser also reads the end-of-day form 24:00). *)
Theorem calculateFlightTime_overnight_wrap
    (tz : Z) (takeoff landing : string) (a b : Z) :
  timeOfDayMs takeoff = Some a ->
  timeOfDayMs landing = Some b ->
  b < a ->
  TechlogEntryForm.calculateFlightTime tz takeoff landing
    =n= Num (hoursOfMs (b + 24 * 3600000 - a))
  /\ (0 <= hoursOfMs (b + 24 * 3600000 - a))%Q
  /\ (a < 24 * 3600000 -> (0 < hoursOfMs (b + 24 * 3600000 - a))%Q).
Proof.
  intros Ha Hb Hlt.
  pose proof (timeOfDayMs_range _ _ Ha) as Ra.
  pose proof (timeOfDayMs_range _ _ Hb) as Rb.
  split; [|split].
  - unfold TechlogEntryForm.calculateFlightTime.
    rewrite (timeOfDayMs_nonempty _ _ Ha), (timeOfDayMs_nonempty _ _ Hb).
    rewrite (DateParse_reference tz _ _ Ha), (DateParse_reference tz _ _ Hb).
    cbn [orb Date_lt].
    replace (referenceDay + b - tz <? referenceDay + a - tz) with true
      by (symmetry; apply Z.ltb_lt; lia).
    cbn [setDatePlus DatePlusMs option_map getTime].
    eapply num_eq_trans; [apply ndivHour_diff|].
    replace (referenceDay + b - tz + 1 * msPerDay - (referenceDay + a - tz))
      with (b + 24 * 3600000 - a) by (unfold msPerDay; lia).
    apply num_eq_refl.
  - unfold hoursOfMs, Qdiv, msPerHour.
    apply Qmult_le_0_compat; [|discriminate].
    change 0%Q with (inject_Z 0). rewrite <- Zle_Qle. lia.
  - intro Hday. unfold hoursOfMs, Qdiv, msPerHour.
    apply Qmult_lt_0_compat; [|reflexivity].
    change 0%Q with (inject_Z 0). rewrite <- Zlt_Qlt. lia.
Qed.

(** Without wrap: a landing not earlier than the take-off gives the plain
    difference. *)
Lemma calculateFlightTime_same_day (tz : Z) (takeoff landing : string) (a b : Z) :
  timeOfDayMs takeoff = Some a ->
  timeOfDayMs landing = Some b ->
  a <= b ->
  TechlogEntryForm.calculateFlightTime tz takeoff landing =n= Num (hoursOfMs (b - a)).
Proof.
  intros Ha Hb Hle. unfold TechlogEntryForm.calculateFlightTime.
  rewrite (timeOfDayMs_nonempty _ _ Ha), (timeOfDayMs_nonempty _ _ Hb).
  rewrite (DateParse_reference tz _ _ Ha), (DateParse_reference tz _ _ Hb).
  cbn [orb Date_lt].
  replace (referenceDay + b - tz <? referenceDay + a - tz) with false
    by (symmetry; apply Z.ltb_ge; lia).
  cbn [getTime].
  eapply num_eq_trans; [apply ndivHour_diff|].
  replace (referenceDay + b - tz - (referenceDay + a - tz)) with (b - a) by lia.
  apply num_eq_refl.
Qed.

(** Take-off 23:30 and landing 00:15 give 0.75 hours. *)
Lemma calculateFlightTime_overnight_example :
  TechlogEntryForm.calculateFlightTime 0 "23:30" "00:15" =n= Num 0.75.
Proof.
  destruct (calculateFlightTime_overnight_wrap 0 "23:30" "00:15" 84600000 900000
              eq_refl eq_refl eq_refl) as [H _].
  eapply num_eq_trans; [exact H|]. reflexivity.
Defined.

(** C5, as the code has it.  An empty string on either side gives 0.  Two
    non-empty strings of which one is rejected by the date parser give NaN,
    not 0.  The function is total: nothing is raised in either case. *)
Theorem calculateFlightTime_malformed (tz : Z) (takeoff landing : string) :
  (takeoff = "" \/ landing = "" ->
   TechlogEntryForm.calculateFlightTime tz takeoff landing = Num 0)
  /\ (takeoff <> "" -> landing <> "" ->
      DateParse tz ("2000-01-01T" ++ takeoff) = None
      \/ DateParse tz ("2000-01-01T" ++ landing) = None ->
      TechlogEntryForm.calculateFlightTime tz takeoff landing = NaN).
Proof.
  unfold TechlogEntryForm.calculateFlightTime. split.
  - intros [-> | ->]; [reflexivity|].
    rewrite orb_true_r. reflexivity.
  - intros Ht Hl Hbad.
    apply String.eqb_neq in Ht. apply String.eqb_neq in Hl.
    rewrite Ht, Hl. cbn [orb].
    destruct Hbad as [Hbad | Hbad]; rewrite Hbad.
    + rewrite Date_lt_None_r. cbn [getTime]. rewrite nsub_NaN_r. reflexivity.
    + reflexivity.
Qed.

Lemma calculateFlightTime_malformed_witness :
  TechlogEntryForm.calculateFlightTime 0 "" "10:00" = Num 0
  /\ TechlogEntryForm.calculateFlightTime 0 "07:00" "abc" = NaN.
Proof.
  destruct (calculateFlightTime_malformed 0 "" "10:00") as [H1 _].
  destruct (calculateFlightTime_malformed 0 "07:00" "abc") as [_ H2].
  split.
  - apply H1. left. reflexivity.
  - apply H2; [discriminate | discriminate | right; reflexivity].
Defined.

(** C5 as stated fails: a non-empty take-off string that is not a time of
    day gives NaN, which is not a zero duration. *)
Lemma calculateFlightTime_malformed_not_zero :
  timeOfDayMs "abc" = None
  /\ TechlogEntryForm.calculateFlightTime 0 "abc" "10:00" = NaN
  /\ ~ (TechlogEntryForm.calculateFlightTime 0 "abc" "10:00" =n= Num 0).
Proof.
  split; [reflexivity|]. split; [reflexivity|].
  intro H. exact H.
Qed.

(** ** Duty time (calculations.calculateDutyTime) *)

Section MinMaxOfTimes.
Variable c : Z.

Let timeValue (z : Z) : number := Num (inject_Z (c + z)).

Lemma fold_min_timeValues (zs : list Z) :
  forall a,
    fold_left Math_min2 (map timeValue zs) (timeValue a)
    = timeValue (fold_left Z.min zs a).
Proof.
  induction zs as [|z zs IH]; intro a; [reflexivity|].
  cbn [map fold_left]. rewrite <- IH. f_equal.
  unfold timeValue, Math_min2, nlt. rewrite inject_Z_lt_bool.
  destruct (c + z <? c + a) eqn:E.
  - apply Z.ltb_lt in E. rewrite Z.min_r by lia. reflexivity.
  - apply Z.ltb_ge in E. rewrite Z.min_l by lia. reflexivity.
Qed.

Lemma fold_max_timeValues (zs : list Z) :
  forall a,
    fold_left Math_max2 (map timeValue zs) (timeValue a)
    = timeValue (fold_left Z.max zs a).
Proof.
  induction zs as [|z zs IH]; intro a; [reflexivity|].
  cbn [map fold_left]. rewrite <- IH. f_equal.
  unfold timeValue, Math_max2, nlt. rewrite inject_Z_lt_bool.
  destruct (c + a <? c + z) eqn:E.
  - apply Z.ltb_lt in E. rewrite Z.max_r by lia. reflexivity.
  - apply Z.ltb_ge in E. rewrite Z.max_l by lia. reflexivity.
Qed.

Lemma fold_min_earliest (zs : list Z) :
  forall a, earliest (fold_left Z.min zs a) (a :: zs).
Proof.
  induction zs as [|z zs IH]; intro a.
  - cbn [fold_left]. split; [left; reflexivity|].
    constructor; [cbv beta; lia|constructor].
  - cbn [fold_left]. destruct (IH (Z.min a z)) as [Hin Hall].
    apply Forall_cons_iff in Hall. destruct Hall as [Hm Hrest].
    cbv beta in Hm. split.
    + destruct Hin as [Hin | Hin]; [|right; right; exact Hin].
      rewrite <- Hin. destruct (Z.min_spec a z) as [[_ ->] | [_ ->]];
        [left | right; left]; reflexivity.
    + constructor; [cbv beta; lia|]. constructor; [cbv beta; lia|exact Hrest].
Qed.

Lemma fold_max_latest (zs : list Z) :
  forall a, latest (fold_left Z.max zs a) (a :: zs).
Proof.
  induction zs as [|z zs IH]; intro a.
  - cbn [fold_left]. split; [left; reflexivity|].
    constructor; [cbv beta; lia|constructor].
  - cbn [fold_left]. destruct (IH (Z.max a z)) as [Hin Hall].
    apply Forall_cons_iff in Hall. destruct Hall as [Hm Hrest].
    cbv beta in Hm. split.
    + destruct Hin as [Hin | Hin]; [|right; right; exact Hin].
      rewrite <- Hin. destruct (Z.max_spec a z) as [[_ ->] | [_ ->]];
        [right; left | left]; reflexivity.
    + constructor; [cbv beta; lia|]. constructor; [cbv beta; lia|exact Hrest].
Qed.

Lemma earliest_unique (e e' : Z) (l : list Z) :
  earliest e l -> earliest e' l -> e = e'.
Proof.
  intros [Hin Hall] [Hin' Hall'].
  rewrite Forall_forall in Hall, Hall'.
  specialize (Hall _ Hin'). specialize (Hall' _ Hin). lia.
Qed.

Lemma latest_unique (m m' : Z) (l : list Z) :
  latest m l -> latest m' l -> m = m'.
Proof.
  intros [Hin Hall] [Hin' Hall'].
  rewrite Forall_forall in Hall, Hall'.
  specialize (Hall _ Hin'). specialize (Hall' _ Hin). lia.
Qed.

(** [Math.min] and [Math.max] over the time values of a non-empty list
    of times pick the earliest and the latest. *)
Lemma Math_min_timeValues (zs : list Z) (e : Z) :
  earliest e zs -> Math_min (map timeValue zs) = timeValue e.
Proof.
  intro He. destruct zs as [|z zs]; [destruct He as [[] _]|].
  unfold Math_min. cbn [map fold_left].
  change (Math_min2 PosInf (timeValue z)) with (timeValue z).
  rewrite fold_min_timeValues.
  f_equal. eapply earliest_unique; [apply fold_min_earliest | exact He].
Qed.

Lemma Math_max_timeValues (zs : list Z) (m : Z) :
  latest m zs -> Math_max (map timeValue zs) = timeValue m.
Proof.
  intro Hm. destruct zs as [|z zs]; [destruct Hm as [[] _]|].
  unfold Math_max. cbn [map fold_left].
  change (Math_max2 NegInf (timeValue z)) with (timeValue z).
  rewrite fold_max_timeValues.
  f_equal. eapply latest_unique; [apply fold_max_latest | exact Hm].
Qed.
End MinMaxOfTimes.

Lemma takeoff_time_values (tz : Z) (sectors : list Sector) :
  Forall validTimes sectors ->
  map (fun s => getTime (DateParse tz ("2000-01-01T" ++ takeoffTime s))) sectors
  = map (fun z => Num (inject_Z (referenceDay - tz + z))) (map takeoffMs sectors).
Proof.
  intro Hv. rewrite map_map. apply map_ext_in. intros s Hs.
  rewrite Forall_forall in Hv. destruct (Hv s Hs) as [Ht _].
  unfold takeoffMs. destruct (timeOfDayMs (takeoffTime s)) as [t|] eqn:E; [|congruence].
  rewrite (DateParse_reference tz _ _ E). cbn [getTime]. do 2 f_equal. lia.
Qed.

Lemma landing_time_values (tz : Z) (sectors : list Sector) :
  Forall validTimes sectors ->
  map (fun s => getTime (DateParse tz ("2000-01-01T" ++ landingTime s))) sectors
  = map (fun z => Num (inject_Z (referenceDay - tz + z))) (map landingMs sectors).
Proof.
  intro Hv. rewrite map_map. apply map_ext_in. intros s Hs.
  rewrite Forall_forall in Hv. destruct (Hv s Hs) as [_ Hl].
  unfold landingMs. destruct (timeOfDayMs (landingTime s)) as [t|] eqn:E; [|congruence].
  rewrite (DateParse_reference tz _ _ E). cbn [getTime]. do 2 f_equal. lia.
Qed.

Lemma Math_max_zero (q : Q) : Math_max [Num 0; Num q] =n= Num (Qmax 0 q).
Proof.
  unfold Math_max. cbn [fold_left].
  change (Math_max2 NegInf (Num 0)) with (Num 0).
  unfold Math_max2, nlt. destruct (Qlt_bool 0 q) eqn:E; simpl.
  - apply Qlt_bool_iff in E. symmetry. apply Q.max_r. apply Qlt_le_weak. exact E.
  - apply Qlt_bool_false_iff in E. symmetry. apply Q.max_l. exact E.
Qed.

Lemma Qmax_zero_compat (x y : Q) : (x == y)%Q -> (Qmax 0 x == Qmax 0 y)%Q.
Proof.
  intro H. destruct (Qlt_le_dec 0 x) as [Hx | Hx].
  - rewrite (Q.max_r 0 x) by (apply Qlt_le_weak; exact Hx).
    rewrite (Q.max_r 0 y) by (rewrite <- H; apply Qlt_le_weak; exact Hx).
    exact H.
  - rewrite (Q.max_l 0 x) by exact Hx.
    rewrite (Q.max_l 0 y) by (rewrite <- H; exact Hx).
    reflexivity.
Qed.

(** Duty time of a non-empty list of sectors whose times are times of
    day, from the earliest take-off [e] and the latest landing [l]. *)
Lemma calculateDutyTime_formula (tz : Z) (sectors : list Sector) (e l : Z) :
  Forall validTimes sectors ->
  earliest e (map takeoffMs sectors) ->
  latest l (map landingMs sectors) ->
  Calculations.calculateDutyTime tz sectors
  =n= Num (Qmax 0 (hoursOfMs ((l + 15 * 60000) - (e + 45 * 60000)))).
Proof.
  intros Hv He Hl. unfold Calculations.calculateDutyTime.
  destruct sectors as [|s0 rest]; [destruct He as [[] _]|].
  change (List.length (s0 :: rest) =? 0)%nat with false. cbv iota.
  rewrite (takeoff_time_values tz _ Hv), (landing_time_values tz _ Hv).
  rewrite (Math_min_timeValues _ _ _ He), (Math_max_timeValues _ _ _ Hl).
  cbn [nadd nsub nneg ndivHour].
  eapply num_eq_trans; [apply Math_max_zero|].
  cbn [num_eq]. apply Qmax_zero_compat.
  unfold hoursOfMs, Qdiv. apply Qmult_comp; [|reflexivity].
  unfold Z.sub. repeat (rewrite inject_Z_plus || rewrite inject_Z_opp).
  change (inject_Z (15 * 60000)) with (15 * 60 * 1000)%Q.
  change (inject_Z (45 * 60000)) with (45 * 60 * 1000)%Q.
  ring.
Qed.

(** C3. An empty sector list has duty time 0.  For a non-empty list of
    sectors whose times are times of day, the duty time is
    max(0, (latest landing + 15 min) - (earliest take-off + 45 min)) in
    hours, the earliest and the latest being taken over all sectors. *)
Theorem calculateDutyTime_spec (tz : Z) (sectors : list Sector) :
  (sectors = [] -> Calculations.calculateDutyTime tz sectors = Num 0)
  /\ (forall e l : Z,
        sectors <> [] ->
        Forall validTimes sectors ->
        earliest e (map takeoffMs sectors) ->
        latest l (map landingMs sectors) ->
        Calculations.calculateDutyTime tz sectors
        =n= Num (Qmax 0 (hoursOfMs ((l + 15 * 60000) - (e + 45 * 60000))))).
Proof.
  split.
  - intros ->. reflexivity.
  - intros e l _ Hv He Hl. apply calculateDutyTime_formula; assumption.
Qed.

Lemma calculateDutyTime_spec_witness :
  Calculations.calculateDutyTime 0 [] = Num 0
  /\ Calculations.calculateDutyTime 0 [Sample.sector1; Sample.sector2] =n= Num 6.25.
Proof.
  split.
  - apply (calculateDutyTime_spec 0 []). reflexivity.
  - destruct (calculateDutyTime_spec 0 [Sample.sector1; Sample.sector2]) as [_ H].
    eapply num_eq_trans.
    + apply (H 25200000 49500000).
      * discriminate.
      * repeat constructor; discriminate.
      * split; [left; reflexivity|]. repeat constructor; discriminate.
      * split; [right; left; reflexivity|]. repeat constructor; discriminate.
    + reflexivity.
Defined.

Lemma takeoffMs_range (s : Sector) : 0 <= takeoffMs s <= 86400000.
Proof.
  unfold takeoffMs. destruct (timeOfDayMs (takeoffTime s)) eqn:E; [|lia].
  apply (timeOfDayMs_range _ _ E).
Qed.

Lemma landingMs_range (s : Sector) : 0 <= landingMs s <= 86400000.
Proof.
  unfold landingMs. destruct (timeOfDayMs (landingTime s)) eqn:E; [|lia].
  apply (timeOfDayMs_range _ _ E).
Qed.

Lemma hoursOfMs_lt_24 (ms : Z) : ms < 86400000 -> (hoursOfMs ms < 24)%Q.
Proof.
  intro H. unfold hoursOfMs, msPerHour.
  apply Qlt_shift_div_r; [reflexivity|].
  change (24 * 3600000)%Q with (inject_Z 86400000).
  rewrite <- Zlt_Qlt. exact H.
Qed.

(** C10. For sectors whose times are times of day, the duty time is a
    number of hours in [0, 24): every time is read on the single reference
    day, so the span is at most (24:00 + 15 min) - (00:00 + 45 min). *)
Theorem calculateDutyTime_below_24h (tz : Z) (sectors : list Sector) :
  Forall validTimes sectors ->
  exists q : Q,
    Calculations.calculateDutyTime tz sectors =n= Num q
    /\ (0 <= q)%Q /\ (q < 24)%Q.
Proof.
  intro Hv. destruct sectors as [|s0 rest].
  - exists 0%Q. split; [reflexivity|]. split; [discriminate|reflexivity].
  - pose proof (fold_min_earliest (map takeoffMs rest) (takeoffMs s0)) as He.
    pose proof (fold_max_latest (map landingMs rest) (landingMs s0)) as Hl.
    set (e := fold_left Z.min (map takeoffMs rest) (takeoffMs s0)) in *.
    set (l := fold_left Z.max (map landingMs rest) (landingMs s0)) in *.
    change (takeoffMs s0 :: map takeoffMs rest) with (map takeoffMs (s0 :: rest)) in He.
    change (landingMs s0 :: map landingMs rest) with (map landingMs (s0 :: rest)) in Hl.
    exists (Qmax 0 (hoursOfMs ((l + 15 * 60000) - (e + 45 * 60000)))).
    split; [apply calculateDutyTime_formula; assumption|].
    split; [apply Q.le_max_l|].
    apply Q.max_lub_lt; [reflexivity|].
    apply hoursOfMs_lt_24.
    destruct He as [He _]. destruct Hl as [Hl _].
    apply in_map_iff in He. destruct He as [se [<- _]].
    apply in_map_iff in Hl. destruct Hl as [sl [<- _]].
    pose proof (takeoffMs_range se). pose proof (landingMs_range sl). lia.
Qed.

Lemma calculateDutyTime_below_24h_witness :
  exists q : Q,
    Calculations.calculateDutyTime 0
      [mkSector "1" "HTDA" "HTZA" "00:00" "00:40" (Num (2 # 3));
       mkSector "2" "HTZA" "HTDA" "23:10" "23:59" (Num (49 # 60))] =n= Num q
    /\ (0 <= q)%Q /\ (q < 24)%Q.
Proof.
  apply (calculateDutyTime_below_24h 0).
  repeat constructor; discriminate.
Defined.

(** ** Exceedance flags (calculations.calculatePilotStats) *)

Lemma ngt_limit_iff (total : number) (limit : Q) :
  ngt total (Num limit) = true <-> numExceeds total limit.
Proof.
  destruct total; simpl; try (split; [discriminate | contradiction]).
  - split; auto.
  - apply Qlt_bool_iff.
Qed.

(** C4. Each of the seven exceedance flags is true exactly when its
    windowed total is strictly greater than its fixed limit. *)
Theorem exceedance_flags_strict (tz now : Z) (pilot : string)
    (entries : list TechlogEntry) :
  let st := Calculations.calculatePilotStats tz now pilot entries in
  let ex := exceedances st in
  (exceeds_flightTime7Days ex = true <-> numExceeds (flightTime7Days st) 34)
  /\ (exceeds_flightTime28Days ex = true <-> numExceeds (flightTime28Days st) 100)
  /\ (exceeds_flightTime365Days ex = true <-> numExceeds (flightTime365Days st) 1000)
  /\ (exceeds_dutyTime7Days ex = true <-> numExceeds (dutyTime7Days st) 55)
  /\ (exceeds_dutyTime28Days ex = true <-> numExceeds (dutyTime28Days st) 190)
  /\ (exceeds_dutyTime365Days ex = true <-> numExceeds (dutyTime365Days st) 1800)
  /\ (exceeds_sectors24Hours ex = true <->
      (10 < Calculations.sumSectors
              (Calculations.windowEntries tz now pilot entries (24 * 60 * 60 * 1000)))%nat).
Proof.
  cbv zeta. unfold Calculations.calculatePilotStats.
  cbn [exceedances exceeds_flightTime7Days exceeds_flightTime28Days
       exceeds_flightTime365Days exceeds_dutyTime7Days exceeds_dutyTime28Days
       exceeds_dutyTime365Days exceeds_sectors24Hours
       flightTime7Days flightTime28Days flightTime365Days
       dutyTime7Days dutyTime28Days dutyTime365Days].
  repeat split; try (apply ngt_limit_iff); try (apply Nat.ltb_lt); try (apply ngt_limit_iff).
Qed.

(** A total equal to its limit is not above it; any total above it is. *)
Lemma exceedance_boundary (limit eps : Q) :
  (0 < eps)%Q ->
  ngt (Num limit) (Num limit) = false /\ ngt (Num (limit + eps)) (Num limit) = true.
Proof.
  intro H. split.
  - apply Qlt_bool_false_iff. apply Qle_refl.
  - apply Qlt_bool_iff. lra.
Qed.

(** ** Window monotonicity (calculations.calculatePilotStats) *)

Lemma calculateFlightTime_from (sectors : list Sector) :
  (forall s, In s sectors -> nonNegative (flightTime s)) ->
  forall acc : Q,
    exists q : Q,
      fold_left (fun total sector => nadd total (flightTime sector)) sectors (Num acc)
      = Num q /\ (acc <= q)%Q.
Proof.
  induction sectors as [|s sectors IH]; intros Hnn acc.
  - exists acc. split; [reflexivity|apply Qle_refl].
  - cbn [fold_left].
    pose proof (Hnn s (or_introl eq_refl)) as Hs.
    destruct (flightTime s) as [| | |v]; try contradiction. cbn [nadd nonNegative] in *.
    destruct (IH (fun s' H => Hnn s' (or_intror H)) (acc + v)%Q) as [q [Hq Hle]].
    exists q. split; [exact Hq|lra].
Qed.

Lemma calculateFlightTime_nonNegative (sectors : list Sector) :
  (forall s, In s sectors -> nonNegative (flightTime s)) ->
  nonNegative (Calculations.calculateFlightTime sectors).
Proof.
  intro Hnn. unfold Calculations.calculateFlightTime.
  destruct (calculateFlightTime_from sectors Hnn 0) as [q [-> Hq]]. exact Hq.
Qed.

(** Summing non-negative quantities over a narrower selection of the same
    list gives no more than over a wider one. *)
Lemma sum_filter_monotone {A : Type} (f : A -> number) (p p' : A -> bool)
    (l : list A) :
  (forall x, In x l -> nonNegative (f x)) ->
  (forall x, In x l -> p x = true -> p' x = true) ->
  forall a a' : Q, (a <= a')%Q ->
    numLe (fold_left (fun total x => nadd total (f x)) (filter p l) (Num a))
          (fold_left (fun total x => nadd total (f x)) (filter p' l) (Num a')).
Proof.
  induction l as [|x l IH]; intros Hnn Hsub a a' Hle.
  - exact Hle.
  - pose proof (Hnn x (or_introl eq_refl)) as Hx.
    pose proof (Hsub x (or_introl eq_refl)) as Hpx.
    assert (Hnn' : forall y, In y l -> nonNegative (f y))
      by (intros y Hy; apply Hnn; right; exact Hy).
    assert (Hsub' : forall y, In y l -> p y = true -> p' y = true)
      by (intros y Hy; apply Hsub; right; exact Hy).
    cbn [filter].
    destruct (f x) as [| | |v] eqn:Ef; try contradiction. cbn [nonNegative] in Hx.
    destruct (p x) eqn:Ep.
    + rewrite (Hpx eq_refl). cbn [fold_left]. rewrite Ef. cbn [nadd].
      apply IH; [assumption|assumption|lra].
    + destruct (p' x).
      * cbn [fold_left]. rewrite Ef. cbn [nadd].
        apply IH; [assumption|assumption|lra].
      * apply IH; assumption.
Qed.

Lemma window_widens (tz now : Z) (w1 w2 : Z) (entry : TechlogEntry) :
  w1 <= w2 ->
  Date_ge (DateParse tz (date entry)) (DatePlusMs (Some now) (- w1))
  && Date_le (DateParse tz (date entry)) (Some now) = true ->
  Date_ge (DateParse tz (date entry)) (DatePlusMs (Some now) (- w2))
  && Date_le (DateParse tz (date entry)) (Some now) = true.
Proof.
  intros Hw H. apply andb_true_iff in H. destruct H as [H1 H2].
  rewrite H2, andb_true_r.
  destruct (DateParse tz (date entry)) as [t|]; [|discriminate].
  cbn [Date_ge Date_le DatePlusMs option_map] in *.
  apply Z.leb_le in H1. apply Z.leb_le. lia.
Qed.

(** C7. When every stored sector flight time of the pilot's entries is
    non-negative, the flight-time totals over the 7-, 28- and 365-day
    windows ending at the same instant are ordered:
    7 days <= 28 days <= 365 days. *)
Theorem flight_time_window_monotone (tz now : Z) (pilot : string)
    (entries : list TechlogEntry) :
  (forall e s, In e entries -> fliesAs pilot e = true -> In s (sectors e) ->
               nonNegative (flightTime s)) ->
  let st := Calculations.calculatePilotStats tz now pilot entries in
  numLe (flightTime7Days st) (flightTime28Days st)
  /\ numLe (flightTime28Days st) (flightTime365Days st).
Proof.
  intros Hnn. cbv zeta. unfold Calculations.calculatePilotStats.
  cbn [flightTime7Days flightTime28Days flightTime365Days].
  unfold Calculations.sumFlightTime, Calculations.windowEntries,
    Calculations.getEntriesInDateRange.
  assert (Hsel : forall e, In e (filter (fliesAs pilot) entries) ->
                           nonNegative (Calculations.calculateFlightTime (sectors e))).
  { intros e He. apply filter_In in He. destruct He as [He Hp].
    apply calculateFlightTime_nonNegative. intros s Hs. exact (Hnn e s He Hp Hs). }
  split.
  - apply (sum_filter_monotone (fun e => Calculations.calculateFlightTime (sectors e)));
      [exact Hsel | | apply Qle_refl].
    intros e _. apply window_widens. lia.
  - apply (sum_filter_monotone (fun e => Calculations.calculateFlightTime (sectors e)));
      [exact Hsel | | apply Qle_refl].
    intros e _. apply window_widens. lia.
Qed.

Lemma flight_time_window_monotone_witness :
  let st := Calculations.calculatePilotStats 10800000 Sample.now "A. Smith" Sample.entries in
  numLe (flightTime7Days st) (flightTime28Days st)
  /\ numLe (flightTime28Days st) (flightTime365Days st).
Proof.
  apply (flight_time_window_monotone 10800000 Sample.now "A. Smith" Sample.entries).
  intros e s He _ Hs.
  repeat (destruct He as [<- | He];
          [repeat (destruct Hs as [<- | Hs]; [discriminate|]); destruct Hs|]).
  destruct He.
Defined.

(** ** Sorting *)

Section SortFacts.
Context {A : Type} (compareFn : A -> A -> number).

Lemma sortInsert_perm (x : A) (l : list A) :
  Permutation (sortInsert compareFn x l) (x :: l).
Proof.
  induction l as [|y l IH]; cbn [sortInsert]; [apply Permutation_refl|].
  destruct (ngt (compareFn x y) (Num 0)); [|apply Permutation_refl].
  eapply perm_trans; [apply perm_skip, IH|apply perm_swap].
Qed.

Lemma Array_sort_perm (l : list A) : Permutation (Array_sort compareFn l) l.
Proof.
  induction l as [|x l IH]; [apply perm_nil|].
  change (Array_sort compareFn (x :: l))
    with (sortInsert compareFn x (Array_sort compareFn l)).
  eapply perm_trans; [apply sortInsert_perm|]. apply perm_skip, IH.
Qed.

Lemma Array_sort_In (l : list A) (x : A) : In x (Array_sort compareFn l) <-> In x l.
Proof.
  split; apply Permutation_in;
    [apply Array_sort_perm | apply Permutation_sym, Array_sort_perm].
Qed.

(** When the comparator is the sign of a difference of integer keys, the
    result is in ascending key order. *)
Variable key : A -> Z.

Lemma sortInsert_sorted (x : A) (l : list A) :
  (forall y, In y l -> ngt (compareFn x y) (Num 0) = (key y <? key x)) ->
  StronglySorted (fun a b => key a <= key b) l ->
  StronglySorted (fun a b => key a <= key b) (sortInsert compareFn x l).
Proof.
  induction l as [|y l IH]; intros Hcmp Hs; cbn [sortInsert].
  - constructor; constructor.
  - apply StronglySorted_inv in Hs. destruct Hs as [Hs Hall].
    rewrite (Hcmp y (or_introl eq_refl)).
    destruct (key y <? key x) eqn:E.
    + apply Z.ltb_lt in E. constructor.
      * apply IH; [|exact Hs]. intros z Hz. apply Hcmp. right. exact Hz.
      * rewrite Forall_forall in *. intros z Hz.
        apply (Permutation_in _ (sortInsert_perm x l)) in Hz.
        destruct Hz as [<- | Hz]; [lia|apply Hall; exact Hz].
    + apply Z.ltb_ge in E. constructor.
      * constructor; assumption.
      * constructor; [exact E|].
        rewrite Forall_forall in *. intros z Hz. specialize (Hall z Hz). lia.
Qed.

Lemma Array_sort_sorted (l : list A) :
  (forall x y, In x l -> In y l ->
               ngt (compareFn x y) (Num 0) = (key y <? key x)) ->
  StronglySorted (fun a b => key a <= key b) (Array_sort compareFn l).
Proof.
  induction l as [|x l IH]; intro Hcmp.
  - constructor.
  - change (Array_sort compareFn (x :: l))
      with (sortInsert compareFn x (Array_sort compareFn l)).
    apply sortInsert_sorted.
    + intros y Hy. apply (proj1 (Array_sort_In l y)) in Hy.
      apply Hcmp; [left; reflexivity|right; exact Hy].
    + apply IH. intros a b Ha Hb. apply Hcmp; right; assumption.
Qed.
End SortFacts.

(** ** Plain objects *)

Lemma filter_partition_perm {A : Type} (p : A -> bool) (l : list A) :
  Permutation (filter p l ++ filter (fun x => negb (p x)) l) l.
Proof.
  induction l as [|x l IH]; [apply perm_nil|].
  cbn [filter]. destruct (p x); cbn [negb app].
  - apply perm_skip, IH.
  - apply Permutation_sym, Permutation_cons_app, Permutation_sym, IH.
Qed.

Lemma Object_entries_perm {V : Type} (o : JSObject V) :
  Permutation (Object_entries o) o.
Proof.
  unfold Object_entries.
  eapply perm_trans; [|apply (filter_partition_perm isArrayIndex)].
  apply Permutation_app_tail, Array_sort_perm.
Qed.

Lemma getOwn_In {V : Type} (k : string) (v : V) (o : JSObject V) :
  getOwn k o = Some v -> In (k, v) o.
Proof.
  induction o as [|[k' v'] o IH]; cbn [getOwn]; [discriminate|].
  destruct (String.eqb k k') eqn:E.
  - apply String.eqb_eq in E. subst. intro H. injection H as ->. left. reflexivity.
  - intro H. right. apply IH, H.
Qed.

Lemma getOwn_None {V : Type} (k : string) (o : JSObject V) :
  getOwn k o = None -> ~ In k (map fst o).
Proof.
  induction o as [|[k' v'] o IH]; cbn [getOwn map fst]; [intros _ []|].
  destruct (String.eqb k k') eqn:E; [discriminate|].
  apply String.eqb_neq in E. intros H [Hk | Hk]; [congruence|].
  exact (IH H Hk).
Qed.

Lemma In_getOwn {V : Type} (k : string) (v : V) (o : JSObject V) :
  NoDup (map fst o) -> In (k, v) o -> getOwn k o = Some v.
Proof.
  induction o as [|[k' v'] o IH]; cbn [getOwn map fst]; [intros _ []|].
  intros Hnd Hin. apply NoDup_cons_iff in Hnd. destruct Hnd as [Hk' Hnd].
  destruct Hin as [Hin | Hin].
  - injection Hin as -> ->. rewrite String.eqb_refl. reflexivity.
  - destruct (String.eqb k k') eqn:E; [|apply IH; assumption].
    apply String.eqb_eq in E. subst. exfalso. apply Hk'.
    apply (in_map fst) in Hin. exact Hin.
Qed.

Lemma getOwn_setOwn {V : Type} (k d : string) (v : V) (o : JSObject V) :
  getOwn d (setOwn k v o) = if String.eqb d k then Some v else getOwn d o.
Proof.
  induction o as [|[k' v'] o IH]; cbn [getOwn setOwn]; [reflexivity|].
  destruct (String.eqb k k') eqn:E.
  - apply String.eqb_eq in E. subst k'. cbn [getOwn].
    destruct (String.eqb d k); reflexivity.
  - cbn [getOwn]. rewrite IH.
    destruct (String.eqb d k') eqn:E'; [|reflexivity].
    apply String.eqb_eq in E'. subst k'.
    rewrite String.eqb_sym, E. reflexivity.
Qed.

Lemma keys_setOwn {V : Type} (k : string) (v : V) (o : JSObject V) :
  map fst (setOwn k v o)
  = match getOwn k o with
    | Some _ => map fst o
    | None => (map fst o ++ [k])%list
    end.
Proof.
  induction o as [|[k' v'] o IH]; cbn [getOwn setOwn map fst app]; [reflexivity|].
  destruct (String.eqb k k') eqn:E.
  - apply String.eqb_eq in E. subst k'. reflexivity.
  - cbn [map fst]. rewrite IH. destruct (getOwn k o); reflexivity.
Qed.

(** ** Grouping by date (CrewStatusDashboard.getPilotDailyDetails) *)

Import CrewStatusDashboard.

(** No name inherited from [Object.prototype] is a date. *)
Lemma inherited_invalid (tz : Z) (k : string) :
  inherited k = true -> DateParse tz k = None.
Proof.
  unfold inherited, objectPrototypeKeys. cbn [existsb].
  repeat rewrite orb_true_iff. intro H.
  repeat (destruct H as [H | H];
          [apply String.eqb_eq in H; subst k; reflexivity|]).
  discriminate.
Qed.

Lemma entriesOn_app (d : string) (l1 l2 : list TechlogEntry) :
  entriesOn d (l1 ++ l2) = (entriesOn d l1 ++ entriesOn d l2)%list.
Proof. apply filter_app. Qed.

Lemma nonEmptyList_Some {A : Type} (l es : list A) :
  nonEmptyList l = Some es -> l = es /\ es <> [].
Proof.
  destruct l; [discriminate|]. intro H. injection H as <-. split; [reflexivity|discriminate].
Qed.

Lemma nonEmptyList_None {A : Type} (l : list A) : nonEmptyList l = None -> l = [].
Proof. destruct l; [reflexivity|discriminate]. Qed.

Lemma groupsOf_nil : groupsOf [] [].
Proof. split; [constructor|reflexivity]. Qed.

Lemma groupStep_groupsOf (pre : list TechlogEntry) (e : TechlogEntry)
    (g g' : JSObject (list TechlogEntry)) :
  groupsOf pre g -> groupStep g e = Some g' -> groupsOf (pre ++ [e]) g'.
Proof.
  intros [Hnd Hget] Hstep. unfold groupStep in Hstep.
  assert (Hg' : exists es, g' = setOwn (date e) (es ++ [e])%list g
                           /\ entriesOn (date e) pre = es
                           /\ getOwn (date e) g = nonEmptyList es).
  { destruct (getOwn (date e) g) as [es|] eqn:E.
    - injection Hstep as <-. exists es. split; [reflexivity|].
      rewrite Hget in E. apply nonEmptyList_Some in E. destruct E as [E Hne].
      split; [exact E|]. destruct es; [contradiction|reflexivity].
    - destruct (inherited (date e)); [discriminate|]. injection Hstep as <-.
      exists []. split; [reflexivity|].
      rewrite Hget in E. apply nonEmptyList_None in E.
      split; [exact E|reflexivity]. }
  destruct Hg' as [es [-> [Hes Hown]]]. split.
  - rewrite keys_setOwn. destruct (getOwn (date e) g) eqn:E; [exact Hnd|].
    apply NoDup_app; [exact Hnd | constructor; [intros []|constructor] |].
    intros k Hk [<- | []]. exact (getOwn_None _ _ E Hk).
  - intro d. rewrite getOwn_setOwn, entriesOn_app.
    unfold entriesOn at 2. cbn [filter]. rewrite (String.eqb_sym (date e) d).
    destruct (String.eqb d (date e)) eqn:E.
    + apply String.eqb_eq in E. subst d. rewrite Hes.
      destruct es; reflexivity.
    + rewrite app_nil_r. apply Hget.
Qed.

Lemma groupByDate_groupsOf (l : list TechlogEntry) :
  forall pre g g',
    groupsOf pre g -> groupByDate l g = Some g' -> groupsOf (pre ++ l) g'.
Proof.
  induction l as [|e l IH]; intros pre g g' Hg Hrun; cbn [groupByDate] in Hrun.
  - injection Hrun as <-. rewrite app_nil_r. exact Hg.
  - destruct (groupStep g e) as [g1|] eqn:E; [|discriminate].
    replace (pre ++ e :: l)%list with ((pre ++ [e]) ++ l)%list
      by (rewrite <- app_assoc; reflexivity).
    eapply IH; [|exact Hrun]. eapply groupStep_groupsOf; eassumption.
Qed.

Lemma groupByDate_succeeds (l : list TechlogEntry) :
  (forall e, In e l -> inherited (date e) = false) ->
  forall g, exists g', groupByDate l g = Some g'.
Proof.
  induction l as [|e l IH]; intros Hok g; cbn [groupByDate].
  - exists g. reflexivity.
  - assert (Hstep : exists g1, groupStep g e = Some g1).
    { unfold groupStep. destruct (getOwn (date e) g); [eexists; reflexivity|].
      rewrite (Hok e (or_introl eq_refl)). eexists; reflexivity. }
    destruct Hstep as [g1 ->]. apply IH. intros e' He'. apply Hok. right. exact He'.
Qed.

Lemma groupsOf_content (sel : list TechlogEntry) (g : JSObject (list TechlogEntry))
    (d : string) (es : list TechlogEntry) :
  groupsOf sel g -> In (d, es) g -> es = entriesOn d sel /\ es <> [].
Proof.
  intros [Hnd Hget] Hin. apply (In_getOwn _ _ _ Hnd) in Hin.
  rewrite Hget in Hin. apply nonEmptyList_Some in Hin. destruct Hin as [-> Hne].
  split; [reflexivity|exact Hne].
Qed.

Lemma groupsOf_key (sel : list TechlogEntry) (g : JSObject (list TechlogEntry))
    (e : TechlogEntry) :
  groupsOf sel g -> In e sel -> In (date e) (map fst g).
Proof.
  intros [Hnd Hget] He.
  destruct (getOwn (date e) g) as [es|] eqn:E.
  - apply getOwn_In in E. apply (in_map fst) in E. exact E.
  - rewrite Hget in E. apply nonEmptyList_None in E.
    assert (Hin : In e (entriesOn (date e) sel)).
    { apply filter_In. split; [exact He|apply String.eqb_refl]. }
    rewrite E in Hin. destruct Hin.
Qed.

(** What [getPilotDailyDetails] returns: the days of the grouping of the
    pilot's entries, sorted. *)
Lemma getPilotDailyDetails_groups (tz : Z) (pilot : string)
    (entries : list TechlogEntry) (days : list DailyDetail) :
  getPilotDailyDetails tz pilot entries = Some days ->
  exists groups,
    groupsOf (filter (fliesAs pilot) entries) groups
    /\ Permutation days (map dailyDetailOf groups)
    /\ days = Array_sort (fun a b => nsub (dateValue tz b) (dateValue tz a))
                         (map dailyDetailOf (Object_entries groups)).
Proof.
  unfold getPilotDailyDetails.
  destruct (groupByDate (filter (fliesAs pilot) entries) []) as [groups|] eqn:E;
    [|discriminate].
  intro H. injection H as <-. exists groups. split; [|split; [|reflexivity]].
  - apply (groupByDate_groupsOf _ [] [] groups groupsOf_nil E).
  - eapply perm_trans; [apply Array_sort_perm|].
    apply Permutation_map, Object_entries_perm.
Qed.

(** The grouping raises no TypeError when no date names an inherited
    property; in particular when every date is a valid date. *)
Lemma getPilotDailyDetails_succeeds (tz : Z) (pilot : string)
    (entries : list TechlogEntry) :
  (forall e, In e entries -> fliesAs pilot e = true -> inherited (date e) = false) ->
  exists days, getPilotDailyDetails tz pilot entries = Some days.
Proof.
  intro Hsafe. unfold getPilotDailyDetails.
  destruct (groupByDate_succeeds (filter (fliesAs pilot) entries))
    with (g := @nil (string * list TechlogEntry)) as [groups ->].
  - intros e He. apply filter_In in He. destruct He as [He Hp].
    exact (Hsafe e He Hp).
  - eexists. reflexivity.
Qed.

Lemma valid_dates_safe (tz : Z) (pilot : string) (entries : list TechlogEntry) :
  (forall e, In e entries -> fliesAs pilot e = true -> DateParse tz (date e) <> None) ->
  forall e, In e entries -> fliesAs pilot e = true -> inherited (date e) = false.
Proof.
  intros Hvalid e He Hp.
  destruct (inherited (date e)) eqn:E; [|reflexivity].
  exfalso. apply (Hvalid e He Hp). apply inherited_invalid. exact E.
Qed.

(** Every returned day comes from one group. *)
Lemma day_of_group (days : list DailyDetail) (groups : JSObject (list TechlogEntry))
    (day : DailyDetail) :
  Permutation days (map dailyDetailOf groups) ->
  In day days ->
  exists d es, In (d, es) groups /\ day = dailyDetailOf (d, es).
Proof.
  intros Hperm Hin. apply (Permutation_in _ Hperm) in Hin.
  apply in_map_iff in Hin. destruct Hin as [[d es] [<- Hin]].
  exists d, es. split; [exact Hin|reflexivity].
Qed.

Lemma arrayAt_last {A : Type} (front : list A) (x : A) :
  arrayAt (front ++ [x]) (Z.of_nat (List.length (front ++ [x])%list) - 1) = Some x.
Proof.
  unfold arrayAt. rewrite length_app. cbn [List.length].
  replace (Z.of_nat (List.length front + 1) - 1) with (Z.of_nat (List.length front)) by lia.
  destruct (Z.of_nat (List.length front) <? 0) eqn:E; [apply Z.ltb_lt in E; lia|].
  rewrite Nat2Z.id, nth_error_app2 by lia. rewrite Nat.sub_diag. reflexivity.
Qed.

Lemma arrayAt_last_nil {A : Type} : arrayAt (@nil A) (Z.of_nat (List.length (@nil A)) - 1) = None.
Proof. reflexivity. Qed.

Lemma flat_map_length_sum {A B : Type} (f : A -> list B) (l : list A) :
  List.length (flat_map f l) = list_sum (map (fun x => List.length (f x)) l).
Proof.
  induction l as [|x l IH]; [reflexivity|].
  cbn [flat_map map list_sum]. rewrite length_app, IH. reflexivity.
Qed.

Lemma StronglySorted_impl_In {A : Type} (R R' : A -> A -> Prop) (l : list A) :
  (forall a b, In a l -> In b l -> R a b -> R' a b) ->
  StronglySorted R l -> StronglySorted R' l.
Proof.
  induction l as [|x l IH]; intros Himp Hs; [constructor|].
  apply StronglySorted_inv in Hs. destruct Hs as [Hs Hall]. constructor.
  - apply IH; [|exact Hs]. intros a b Ha Hb. apply Himp; right; assumption.
  - rewrite Forall_forall in *. intros y Hy.
    apply Himp; [left; reflexivity | right; exact Hy | apply Hall; exact Hy].
Qed.

(** The date of a returned day is the date of one of the pilot's entries. *)
Lemma day_date_of_entry (tz : Z) (pilot : string) (entries : list TechlogEntry)
    (days : list DailyDetail) (day : DailyDetail) :
  getPilotDailyDetails tz pilot entries = Some days ->
  In day days ->
  exists e, In e entries /\ fliesAs pilot e = true /\ date e = day_date day.
Proof.
  intros Hrun Hin.
  destruct (getPilotDailyDetails_groups _ _ _ _ Hrun) as [groups [Hg [Hperm _]]].
  destruct (day_of_group _ _ _ Hperm Hin) as [d [es [Hes ->]]].
  destruct (groupsOf_content _ _ _ _ Hg Hes) as [-> Hne].
  destruct (entriesOn d (filter (fliesAs pilot) entries)) as [|e es'] eqn:E;
    [contradiction|].
  assert (He : In e (entriesOn d (filter (fliesAs pilot) entries)))
    by (rewrite E; left; reflexivity).
  apply filter_In in He. destruct He as [He Hd].
  apply filter_In in He. destruct He as [He Hp].
  apply String.eqb_eq in Hd.
  exists e. split; [exact He|]. split; [exact Hp|exact Hd].
Qed.

Lemma dateValue_valid (tz : Z) (day : DailyDetail) :
  DateParse tz (day_date day) <> None ->
  dateValue tz day = Num (inject_Z (dateMs tz (day_date day)))
  /\ DateParse tz (day_date day) = Some (dateMs tz (day_date day)).
Proof.
  unfold dateValue, dateMs. destruct (DateParse tz (day_date day)); [|congruence].
  intros _. split; reflexivity.
Qed.

(** C8. For a pilot none of whose entries is dated with the name of an
    inherited object property (every valid date qualifies), the daily
    grouper takes every entry the pilot flies as pilot or co-pilot, returns
    one day per distinct date string, gives each day the entries of that
    date in their original order and the concatenation of their sectors (so
    the sector count is the sum of the entries' sector counts), and, the
    dates being valid, orders the days by descending date. *)
Theorem getPilotDailyDetails_grouping (tz : Z) (pilot : string)
    (entries : list TechlogEntry) :
  (forall e, In e entries -> fliesAs pilot e = true -> inherited (date e) = false) ->
  exists days,
    getPilotDailyDetails tz pilot entries = Some days
    /\ NoDup (map day_date days)
    /\ (forall e, In e entries -> fliesAs pilot e = true ->
                  In (date e) (map day_date days))
    /\ (forall day, In day days ->
          day_entries day = entriesOn (day_date day) (filter (fliesAs pilot) entries)
          /\ day_entries day <> []
          /\ day_sectors day = flat_map sectors (day_entries day)
          /\ List.length (day_sectors day)
             = list_sum (map (fun e => List.length (sectors e)) (day_entries day)))
    /\ ((forall e, In e entries -> fliesAs pilot e = true ->
                   DateParse tz (date e) <> None) ->
        StronglySorted (laterOrSame tz) days).
Proof.
  intro Hsafe.
  destruct (getPilotDailyDetails_succeeds tz pilot entries Hsafe) as [days Hrun].
  exists days. split; [exact Hrun|].
  destruct (getPilotDailyDetails_groups _ _ _ _ Hrun) as [groups [Hg [Hperm Hdays]]].
  assert (Hkeys : Permutation (map day_date days) (map fst groups)).
  { eapply perm_trans; [apply Permutation_map, Hperm|].
    rewrite map_map.
    rewrite (map_ext (fun g => day_date (dailyDetailOf g)) fst)
      by (intros [d es]; reflexivity).
    apply Permutation_refl. }
  split; [|split; [|split]].
  - apply (Permutation_NoDup (Permutation_sym Hkeys)). apply Hg.
  - intros e He Hp. apply (Permutation_in _ (Permutation_sym Hkeys)).
    apply (groupsOf_key _ _ _ Hg). apply filter_In. split; assumption.
  - intros day Hin.
    destruct (day_of_group _ _ _ Hperm Hin) as [d [es [Hes ->]]].
    destruct (groupsOf_content _ _ _ _ Hg Hes) as [-> Hne].
    cbn [dailyDetailOf day_entries day_date day_sectors].
    split; [reflexivity|]. split; [exact Hne|]. split; [reflexivity|].
    apply flat_map_length_sum.
  - intro Hvalid.
    assert (Hdv : forall day, In day days -> DateParse tz (day_date day) <> None).
    { intros day Hin.
      destruct (day_date_of_entry _ _ _ _ _ Hrun Hin) as [e [He [Hp <-]]].
      exact (Hvalid e He Hp). }
    apply (StronglySorted_impl_In
             (fun a b => - dateMs tz (day_date a) <= - dateMs tz (day_date b))).
    + intros a b Ha Hb Hle.
      exists (dateMs tz (day_date a)), (dateMs tz (day_date b)).
      split; [apply dateValue_valid, Hdv, Ha|].
      split; [apply dateValue_valid, Hdv, Hb|lia].
    + rewrite Hdays. apply Array_sort_sorted.
      intros x y Hx Hy.
      assert (Hx' : In x days) by (rewrite Hdays; apply Array_sort_In; exact Hx).
      assert (Hy' : In y days) by (rewrite Hdays; apply Array_sort_In; exact Hy).
      destruct (dateValue_valid tz x (Hdv x Hx')) as [-> _].
      destruct (dateValue_valid tz y (Hdv y Hy')) as [-> _].
      rewrite ngt_diff_zero.
      destruct (dateMs tz (day_date x) <? dateMs tz (day_date y)) eqn:E; symmetry.
      * apply Z.ltb_lt. apply Z.ltb_lt in E. lia.
      * apply Z.ltb_ge. apply Z.ltb_ge in E. lia.
Qed.

(** Two submissions for 2024-01-01 with another day logged in between:
    one day per date, most recent first, the sectors of 2024-01-01 in
    entry-then-sector order. *)
Lemma getPilotDailyDetails_grouping_witness :
  exists days,
    getPilotDailyDetails 10800000 "A. Smith" Sample.twoSubmissions = Some days
    /\ map day_date days = ["2024-01-03"; "2024-01-01"]
    /\ map day_sectors days
       = [[Sample.sector3]; [Sample.sector1; Sample.sector2; Sample.sector5]]
    /\ StronglySorted (laterOrSame 10800000) days.
Proof.
  destruct (getPilotDailyDetails_grouping 10800000 "A. Smith" Sample.twoSubmissions)
    as [days [Hrun [_ [_ [_ Hsorted]]]]].
  - intros e He _.
    repeat (destruct He as [<- | He]; [reflexivity|]). destruct He.
  - exists days. split; [exact Hrun|].
    assert (Hdays : Some days
                    = getPilotDailyDetails 10800000 "A. Smith" Sample.twoSubmissions)
      by (symmetry; exact Hrun).
    vm_compute in Hdays. injection Hdays as ->.
    split; [reflexivity|]. split; [reflexivity|].
    apply Hsorted. intros e He _.
    repeat (destruct He as [<- | He]; [discriminate|]). destruct He.
Defined.

(** ** The overnight flag *)

(** C9. For a returned day with at least one sector, the overnight flag
    is a boolean, true exactly when the arrival code of the day's final
    sector differs from the home base HTDA. *)
Theorem overnight_flag_of_last_sector (tz : Z) (pilot : string)
    (entries : list TechlogEntry) (days : list DailyDetail) (day : DailyDetail) :
  getPilotDailyDetails tz pilot entries = Some days ->
  In day days ->
  day_sectors day <> [] ->
  exists front lastSector,
    day_sectors day = (front ++ [lastSector])%list
    /\ isOvernight day = Some (negb (String.eqb (arrival lastSector) "HTDA"))
    /\ (isOvernight day = Some true <-> arrival lastSector <> "HTDA").
Proof.
  intros Hrun Hin Hne.
  destruct (getPilotDailyDetails_groups _ _ _ _ Hrun) as [groups [_ [Hperm _]]].
  destruct (day_of_group _ _ _ Hperm Hin) as [d [es [_ ->]]].
  cbn [dailyDetailOf day_sectors isOvernight] in *.
  destruct (exists_last Hne) as [front [lastSector Hsplit]].
  exists front, lastSector. split; [exact Hsplit|].
  rewrite Hsplit, arrayAt_last. unfold HOME_BASE.
  split; [reflexivity|].
  destruct (String.eqb (arrival lastSector) "HTDA") eqn:E; cbn [negb].
  - apply String.eqb_eq in E. split; [discriminate|congruence].
  - apply String.eqb_neq in E. split; [intros _; exact E|reflexivity].
Qed.

Lemma overnight_flag_witness :
  exists front lastSector,
    day_sectors (dailyDetailOf ("2024-01-01", [Sample.entry1]))
    = (front ++ [lastSector])%list
    /\ isOvernight (dailyDetailOf ("2024-01-01", [Sample.entry1]))
       = Some (negb (String.eqb (arrival lastSector) "HTDA"))
    /\ (isOvernight (dailyDetailOf ("2024-01-01", [Sample.entry1])) = Some true
        <-> arrival lastSector <> "HTDA").
Proof.
  eapply (overnight_flag_of_last_sector 10800000 "A. Smith" Sample.entries).
  - vm_compute. reflexivity.
  - right. right. left. reflexivity.
  - discriminate.
Defined.

(** ** Rest periods (CrewStatusDashboard.getPilotRestCompliance) *)

Lemma restStep_details (tz : Z) (cur next : DailyDetail) (acc : RestTally) :
  tallyDetails (restStep tz cur next acc)
  = (tallyDetails acc ++ restPeriodOf tz cur next)%list.
Proof.
  unfold restPeriodOf, restStep.
  destruct (arrayAt (day_sectors cur) (Z.of_nat (List.length (day_sectors cur)) - 1));
    [|cbn; rewrite app_nil_r; reflexivity].
  destruct (arrayAt (day_sectors next) 0); [reflexivity|].
  cbn. rewrite app_nil_r. reflexivity.
Qed.

Lemma restStep_counts (tz : Z) (cur next : DailyDetail) (acc : RestTally) :
  tallyTotal (restStep tz cur next acc)
  = (tallyTotal acc + List.length (restPeriodOf tz cur next))%nat
  /\ tallyCompliant (restStep tz cur next acc)
     = (tallyCompliant acc
        + List.length (filter isCompliant (restPeriodOf tz cur next)))%nat.
Proof.
  unfold restPeriodOf, restStep.
  destruct (arrayAt (day_sectors cur) (Z.of_nat (List.length (day_sectors cur)) - 1));
    [|cbn; split; lia].
  destruct (arrayAt (day_sectors next) 0); [|cbn; split; lia].
  cbn [tallyTotal tallyCompliant tallyDetails emptyTally app List.length filter isCompliant].
  split; [lia|].
  destruct (nge _ _); cbn [List.length]; lia.
Qed.

(** The loop pushes the records of the adjacent pairs, in order, and its
    counters count them. *)
Lemma restLoop_details (tz : Z) (days : list DailyDetail) :
  forall acc,
    tallyDetails (restLoop tz days acc) = (tallyDetails acc ++ restPairs tz days)%list.
Proof.
  induction days as [|cur rest IH]; intro acc; cbn [restLoop restPairs].
  - rewrite app_nil_r. reflexivity.
  - destruct rest as [|next rest'].
    + rewrite app_nil_r. reflexivity.
    + rewrite IH, restStep_details, <- app_assoc. reflexivity.
Qed.

Lemma restLoop_counts (tz : Z) (days : list DailyDetail) :
  forall acc,
    tallyTotal (restLoop tz days acc)
    = (tallyTotal acc + List.length (restPairs tz days))%nat
    /\ tallyCompliant (restLoop tz days acc)
       = (tallyCompliant acc + List.length (filter isCompliant (restPairs tz days)))%nat.
Proof.
  induction days as [|cur rest IH]; intro acc; cbn [restLoop restPairs].
  - cbn. split; lia.
  - destruct rest as [|next rest'].
    + cbn. split; lia.
    + destruct (IH (restStep tz cur next acc)) as [H1 H2].
      destruct (restStep_counts tz cur next acc) as [H3 H4].
      rewrite H1, H2, H3, H4, filter_app, !length_app. split; lia.
Qed.

Lemma restPairs_adjacent (tz : Z) (days : list DailyDetail) :
  forall i cur next r,
    nth_error days i = Some cur ->
    nth_error days (S i) = Some next ->
    In r (restPeriodOf tz cur next) ->
    In r (restPairs tz days).
Proof.
  induction days as [|d0 rest IH]; intros i cur next r Hi Hsi Hr.
  - destruct i; discriminate.
  - destruct i as [|i].
    + cbn [nth_error] in Hi, Hsi. injection Hi as ->.
      destruct rest as [|d1 rest']; [discriminate|].
      cbn [nth_error] in Hsi. injection Hsi as ->.
      cbn [restPairs]. apply in_or_app. left. exact Hr.
    + cbn [nth_error] in Hi. change (nth_error rest (S i) = Some next) in Hsi.
      destruct rest as [|d1 rest']; [destruct i; discriminate Hi|].
      change (restPairs tz (d0 :: d1 :: rest'))
        with (restPeriodOf tz d0 d1 ++ restPairs tz (d1 :: rest'))%list.
      apply in_or_app. right. exact (IH i cur next r Hi Hsi Hr).
Qed.

Lemma restPeriodOf_dates (tz : Z) (cur next : DailyDetail) (r : RestPeriod) :
  In r (restPeriodOf tz cur next) ->
  fromDate r = day_date cur /\ toDate r = day_date next.
Proof.
  unfold restPeriodOf, restStep.
  destruct (arrayAt (day_sectors cur) (Z.of_nat (List.length (day_sectors cur)) - 1));
    [|intros []].
  destruct (arrayAt (day_sectors next) 0); [|intros []].
  cbn. intros [<- | []]. split; reflexivity.
Qed.

(** The record of a pair of days with their boundary sectors present,
    whose last landing and first take-off parse to the instants [landing]
    and [takeoff]. *)
Lemma restPeriodOf_parsed (tz : Z) (cur next : DailyDetail)
    (front back : list Sector) (lastSector firstSector : Sector) (landing takeoff : Z) :
  day_sectors cur = (front ++ [lastSector])%list ->
  day_sectors next = firstSector :: back ->
  DateParse tz (day_date cur ++ "T" ++ landingTime lastSector) = Some landing ->
  DateParse tz (day_date next ++ "T" ++ takeoffTime firstSector) = Some takeoff ->
  let restStart := landing + 15 * 60000 in
  let restEnd := takeoff + 45 * 60000 in
  exists r,
    restPeriodOf tz cur next = [r]
    /\ fromDate r = day_date cur
    /\ toDate r = day_date next
    /\ rest_start r = Some restStart
    /\ rest_end r = Some restEnd
    /\ hours r =n= Num (hoursOfMs (restEnd - restStart))
    /\ (isCompliant r = true <-> (36 <= hoursOfMs (restEnd - restStart))%Q).
Proof.
  intros Hcur Hnext Hland Htake. cbv zeta.
  unfold restPeriodOf, restStep.
  rewrite Hcur, arrayAt_last, Hnext.
  change (arrayAt (firstSector :: back) 0) with (Some firstSector). cbv iota.
  rewrite Hland, Htake.
  cbn [DatePlusMs option_map getTime emptyTally tallyDetails app].
  eexists. split; [reflexivity|].
  cbn [fromDate toDate rest_start rest_end hours isCompliant].
  change (15 * 60 * 1000) with (15 * 60000).
  change (45 * 60 * 1000) with (45 * 60000).
  pose proof (ndivHour_diff (takeoff + 45 * 60000) (landing + 15 * 60000)) as Hh.
  repeat (split; [reflexivity|]).
  split; [exact Hh|].
  revert Hh. cbn [ndivHour nsub nadd nneg num_eq nge nle]. intro Hh.
  rewrite Qle_bool_iff, Hh. reflexivity.
Qed.

(** C1. For two adjacent days [days[i]] and [days[i+1]] that both have a
    sector, the loop records a rest period that starts 15 minutes after the
    last landing of the first day (the instant its time of day on that
    day's date parses to), ends 45 minutes after the first take-off of the
    next day (likewise on the next day's date), lasts the difference in
    hours, and is compliant exactly when that is at least 36 hours. *)
Theorem rest_period_of_adjacent_days (tz : Z) (days : list DailyDetail) (i : nat)
    (cur next : DailyDetail) (front back : list Sector)
    (lastSector firstSector : Sector) (landing takeoff : Z) :
  nth_error days i = Some cur ->
  nth_error days (S i) = Some next ->
  day_sectors cur = (front ++ [lastSector])%list ->
  day_sectors next = firstSector :: back ->
  DateParse tz (day_date cur ++ "T" ++ landingTime lastSector) = Some landing ->
  DateParse tz (day_date next ++ "T" ++ takeoffTime firstSector) = Some takeoff ->
  let restStart := landing + 15 * 60000 in
  let restEnd := takeoff + 45 * 60000 in
  exists r,
    In r (tallyDetails (restLoop tz days emptyTally))
    /\ fromDate r = day_date cur
    /\ toDate r = day_date next
    /\ rest_start r = Some restStart
    /\ rest_end r = Some restEnd
    /\ hours r =n= Num (hoursOfMs (restEnd - restStart))
    /\ (isCompliant r = true <-> (36 <= hoursOfMs (restEnd - restStart))%Q).
Proof.
  intros Hi Hsi Hcur Hnext Hland Htake.
  destruct (restPeriodOf_parsed tz cur next front back lastSector firstSector
              landing takeoff Hcur Hnext Hland Htake) as [r [Hr Hprops]].
  cbv zeta. exists r. split; [|exact Hprops].
  rewrite restLoop_details. cbn [emptyTally tallyDetails app].
  apply (restPairs_adjacent tz days i cur next r Hi Hsi).
  rewrite Hr. left. reflexivity.
Qed.

(** A last landing at 06:30 and a next take-off at 18:00 the day after, on
    a host three hours east of UTC on both dates: the rest is exactly
    36 hours and compliant. *)
Lemma rest_period_of_adjacent_days_witness :
  exists r,
    In r (tallyDetails (restLoop 10800000 [Sample.dayA; Sample.dayB] emptyTally))
    /\ fromDate r = "2024-02-01"
    /\ toDate r = "2024-02-02"
    /\ hours r =n= Num 36
    /\ isCompliant r = true.
Proof.
  destruct (rest_period_of_adjacent_days 10800000 [Sample.dayA; Sample.dayB] 0
              Sample.dayA Sample.dayB [] []
              (mkSector "7" "HTDA" "HTZA" "05:50" "06:30" (Num (2 # 3)))
              (mkSector "8" "HTZA" "HTDA" "18:00" "18:40" (Num (2 # 3)))
              1706758200000 1706886000000
              eq_refl eq_refl eq_refl eq_refl eq_refl eq_refl)
    as [r [Hin [Hfrom [Hto [_ [_ [Hh Hc]]]]]]].
  exists r. split; [exact Hin|]. split; [exact Hfrom|]. split; [exact Hto|]. split.
  - eapply num_eq_trans; [exact Hh|]. reflexivity.
  - apply Hc. discriminate.
Defined.

(** With the take-off 36 seconds earlier the rest is 35.99 hours and not
    compliant. *)
Example rest_period_just_below_36h :
  map (fun r => (hours r, isCompliant r))
      (tallyDetails (restLoop 10800000 [Sample.dayA; Sample.dayB'] emptyTally))
  = [(Num (129564000 # 3600000), false)]
  /\ (129564000 # 3600000 == 35.99)%Q.
Proof. split; [vm_compute; reflexivity | reflexivity]. Qed.

(** The scenario of the specification: 13:45 + 15 min on 2024-01-01 to
    06:00 + 45 min on 2024-01-03 is 40.75 hours, compliant. *)
Example rest_period_scenario :
  option_map (map (fun r => (fromDate r, toDate r, hours r, isCompliant r)))
             (restPeriodDetails 10800000 "A. Smith" [Sample.entry1; Sample.entry2])
  = Some [("2024-01-01", "2024-01-03", Num (146700000 # 3600000), true)]
  /\ (146700000 # 3600000 == 40.75)%Q.
Proof. split; [vm_compute; reflexivity | reflexivity]. Qed.

(** ** The recent view *)

Lemma filter_all_true {A : Type} (p : A -> bool) (l : list A) :
  (forall x, In x l -> p x = true) -> filter p l = l.
Proof.
  induction l as [|x l IH]; intro H; [reflexivity|].
  cbn [filter]. rewrite (H x (or_introl eq_refl)). f_equal.
  apply IH. intros y Hy. apply H. right. exact Hy.
Qed.

Lemma filter_all_false {A : Type} (p : A -> bool) (l : list A) :
  (forall x, In x l -> p x = false) -> filter p l = [].
Proof.
  induction l as [|x l IH]; intro H; [reflexivity|].
  cbn [filter]. rewrite (H x (or_introl eq_refl)).
  apply IH. intros y Hy. apply H. right. exact Hy.
Qed.

Lemma restPairs_fromDate (tz : Z) (days : list DailyDetail) (r : RestPeriod) :
  In r (restPairs tz days) -> exists day, In day days /\ fromDate r = day_date day.
Proof.
  induction days as [|cur rest IH]; [intros []|].
  destruct rest as [|next rest']; [intros []|].
  change (restPairs tz (cur :: next :: rest'))
    with (restPeriodOf tz cur next ++ restPairs tz (next :: rest'))%list.
  intro Hin. apply in_app_or in Hin. destruct Hin as [Hin | Hin].
  - apply restPeriodOf_dates in Hin. exists cur. split; [left; reflexivity|apply Hin].
  - destruct (IH Hin) as [day [Hday Hfrom]]. exists day. split; [right; exact Hday|exact Hfrom].
Qed.

(** A later day of a recent day is recent. *)
Lemma isRecent_later (tz now : Z) (a b : DailyDetail) :
  earlierOrSame tz a b ->
  isRecent tz now (day_date a) = true ->
  isRecent tz now (day_date b) = true.
Proof.
  intros [tb [ta [Hb [Ha Hle]]]]. unfold isRecent. rewrite Ha, Hb.
  cbn [setDatePlus DatePlusMs option_map Date_ge Date_le].
  intro H. apply Z.leb_le in H. apply Z.leb_le. lia.
Qed.

(** On a chronological day list, pairing the recent days gives the pairs
    of the whole list whose earlier day is recent. *)
Lemma restPairs_recent (tz now : Z) (days : list DailyDetail) :
  StronglySorted (earlierOrSame tz) days ->
  restPairs tz (recentDailyDetails tz now days)
  = filter (fun r => isRecent tz now (fromDate r)) (restPairs tz days).
Proof.
  induction days as [|a rest IH]; intro Hs; [reflexivity|].
  apply StronglySorted_inv in Hs. destruct Hs as [Hs Hall].
  rewrite Forall_forall in Hall.
  destruct (isRecent tz now (day_date a)) eqn:Ea.
  - assert (Hrec : forall day, In day (a :: rest) ->
                               isRecent tz now (day_date day) = true).
    { intros day [<- | Hday]; [exact Ea|].
      apply (isRecent_later tz now a day (Hall day Hday) Ea). }
    unfold recentDailyDetails. rewrite (filter_all_true _ _ Hrec).
    symmetry. apply filter_all_true. intros r Hr.
    destruct (restPairs_fromDate _ _ _ Hr) as [day [Hday ->]]. apply Hrec, Hday.
  - unfold recentDailyDetails in *. cbn [filter]. rewrite Ea.
    rewrite (IH Hs).
    destruct rest as [|b rest']; [reflexivity|].
    change (restPairs tz (a :: b :: rest'))
      with (restPeriodOf tz a b ++ restPairs tz (b :: rest'))%list.
    rewrite filter_app.
    rewrite (filter_all_false _ (restPeriodOf tz a b)); [reflexivity|].
    intros r Hr. apply restPeriodOf_dates in Hr. destruct Hr as [-> _]. exact Ea.
Qed.

(** With valid dates the chronological re-sort is in ascending order. *)
Lemma sortedDailyDetails_sorted (tz : Z) (days : list DailyDetail) :
  (forall day, In day days -> DateParse tz (day_date day) <> None) ->
  StronglySorted (earlierOrSame tz) (sortedDailyDetails tz days).
Proof.
  intro Hdv.
  apply (StronglySorted_impl_In
           (fun a b => dateMs tz (day_date a) <= dateMs tz (day_date b))).
  - intros a b Ha Hb Hle.
    apply (proj1 (Array_sort_In _ days a)) in Ha.
    apply (proj1 (Array_sort_In _ days b)) in Hb.
    exists (dateMs tz (day_date b)), (dateMs tz (day_date a)).
    split; [apply dateValue_valid, Hdv, Hb|].
    split; [apply dateValue_valid, Hdv, Ha|exact Hle].
  - apply Array_sort_sorted. intros x y Hx Hy.
    destruct (dateValue_valid tz x (Hdv x Hx)) as [-> _].
    destruct (dateValue_valid tz y (Hdv y Hy)) as [-> _].
    apply ngt_diff_zero.
Qed.

(** C2, as the code has it.  For a pilot whose entries carry valid dates,
    the recent view holds exactly the rest periods of the full history
    whose earlier day (and with it the later day) is dated on or after
    seven days before now: the days are restricted to the window first and
    paired afterwards.  The counters are the lengths of the two lists. *)
Theorem recent_view_pairs_recent_days (tz now : Z) (pilot : string)
    (entries : list TechlogEntry) :
  (forall e, In e entries -> fliesAs pilot e = true -> DateParse tz (date e) <> None) ->
  exists res full,
    getPilotRestCompliance tz now pilot entries = Some res
    /\ restPeriodDetails tz pilot entries = Some full
    /\ recentRestPeriodDetails res
       = filter (fun r => isRecent tz now (fromDate r)) full
    /\ totalRestPeriods res = List.length full
    /\ recentRestPeriods res = List.length (recentRestPeriodDetails res).
Proof.
  intro Hvalid.
  destruct (getPilotDailyDetails_succeeds tz pilot entries
              (valid_dates_safe tz pilot entries Hvalid)) as [days Hrun].
  assert (Hdv : forall day, In day days -> DateParse tz (day_date day) <> None).
  { intros day Hin.
    destruct (day_date_of_entry _ _ _ _ _ Hrun Hin) as [e [He [Hp <-]]].
    exact (Hvalid e He Hp). }
  unfold getPilotRestCompliance, restPeriodDetails, getPilotOvernightCount.
  rewrite Hrun. eexists. eexists. split; [reflexivity|]. split; [reflexivity|].
  cbn [recentRestPeriodDetails totalRestPeriods recentRestPeriods].
  rewrite !restLoop_details. cbn [emptyTally tallyDetails app].
  split; [apply restPairs_recent, sortedDailyDetails_sorted, Hdv|].
  split.
  - rewrite (proj1 (restLoop_counts tz _ _)). reflexivity.
  - rewrite (proj1 (restLoop_counts tz _ _)). reflexivity.
Qed.

Lemma recent_view_pairs_recent_days_witness :
  exists res full,
    getPilotRestCompliance 10800000 Sample.now "A. Smith" Sample.entries = Some res
    /\ restPeriodDetails 10800000 "A. Smith" Sample.entries = Some full
    /\ recentRestPeriodDetails res
       = filter (fun r => isRecent 10800000 Sample.now (fromDate r)) full
    /\ totalRestPeriods res = List.length full
    /\ recentRestPeriods res = List.length (recentRestPeriodDetails res).
Proof.
  apply (recent_view_pairs_recent_days 10800000 Sample.now "A. Smith" Sample.entries).
  intros e He _.
  repeat (destruct He as [<- | He]; [discriminate|]). destruct He.
Defined.

(** C2 as stated fails.  On 2024-01-12 the full history of A. Smith holds
    the pair 2024-01-03 -> 2024-01-09, whose later day lies within the
    trailing seven days, but the recent view is empty: 2024-01-09 is the
    only recent day, so no pair is formed. *)
Lemma recent_view_drops_pair_entering_window :
  option_map recentRestPeriodDetails
             (getPilotRestCompliance 10800000 Sample.now "A. Smith" Sample.entries)
  = Some []
  /\ option_map
       (fun full =>
          map (fun r => (fromDate r, toDate r))
              (filter (fun r => isRecent 10800000 Sample.now (toDate r)
                                && Date_le (DateParse 10800000 (toDate r))
                                           (Some Sample.now))
                      full))
       (restPeriodDetails 10800000 "A. Smith" Sample.entries)
     = Some [("2024-01-03", "2024-01-09")].
Proof. split; vm_compute; reflexivity. Qed.

(* ================================================================= *)
(** * Further properties of the code *)

(** ** Duty time is never negative *)

Lemma getTime_finiteOrNaN (d : Date) : finiteOrNaN (getTime d).
Proof. destruct d; exact I. Qed.

Lemma Math_max2_finiteOrNaN (a b : number) :
  finiteOrNaN a -> finiteOrNaN b -> finiteOrNaN (Math_max2 a b).
Proof.
  destruct a, b; cbn; try contradiction; try exact (fun _ _ => I).
  intros _ _. destruct (Qlt_bool q q0); exact I.
Qed.

Lemma Math_min2_finiteOrNaN (a b : number) :
  finiteOrNaN a -> finiteOrNaN b -> finiteOrNaN (Math_min2 a b).
Proof.
  destruct a, b; cbn; try contradiction; try exact (fun _ _ => I).
  intros _ _. destruct (Qlt_bool q0 q); exact I.
Qed.

Lemma fold_Math_max2_finiteOrNaN (xs : list number) :
  Forall finiteOrNaN xs ->
  forall acc, finiteOrNaN acc -> finiteOrNaN (fold_left Math_max2 xs acc).
Proof.
  induction xs as [|x xs IH]; intros Hxs acc Hacc; [exact Hacc|].
  apply Forall_cons_iff in Hxs. destruct Hxs as [Hx Hxs].
  cbn [fold_left]. apply IH; [exact Hxs|]. apply Math_max2_finiteOrNaN; assumption.
Qed.

Lemma fold_Math_min2_finiteOrNaN (xs : list number) :
  Forall finiteOrNaN xs ->
  forall acc, finiteOrNaN acc -> finiteOrNaN (fold_left Math_min2 xs acc).
Proof.
  induction xs as [|x xs IH]; intros Hxs acc Hacc; [exact Hacc|].
  apply Forall_cons_iff in Hxs. destruct Hxs as [Hx Hxs].
  cbn [fold_left]. apply IH; [exact Hxs|]. apply Math_min2_finiteOrNaN; assumption.
Qed.

(** The extreme of a non-empty list of time values is a time value or NaN,
    never an infinity. *)
Lemma Math_max_finiteOrNaN (xs : list number) :
  xs <> [] -> Forall finiteOrNaN xs -> finiteOrNaN (Math_max xs).
Proof.
  destruct xs as [|x xs]; [congruence|]. intros _ H.
  apply Forall_cons_iff in H. destruct H as [Hx Hxs].
  unfold Math_max. cbn [fold_left]. apply fold_Math_max2_finiteOrNaN; [exact Hxs|].
  destruct x; try contradiction; exact I.
Qed.

Lemma Math_min_finiteOrNaN (xs : list number) :
  xs <> [] -> Forall finiteOrNaN xs -> finiteOrNaN (Math_min xs).
Proof.
  destruct xs as [|x xs]; [congruence|]. intros _ H.
  apply Forall_cons_iff in H. destruct H as [Hx Hxs].
  unfold Math_min. cbn [fold_left]. apply fold_Math_min2_finiteOrNaN; [exact Hxs|].
  destruct x; try contradiction; exact I.
Qed.

Lemma Math_max_zero_nonNegativeOrNaN (x : number) :
  finiteOrNaN x -> nonNegativeOrNaN (Math_max [Num 0; x]).
Proof.
  unfold Math_max. cbn [fold_left].
  change (Math_max2 NegInf (Num 0)) with (Num 0).
  destruct x as [| | |q]; try contradiction; intros _; [exact I|].
  unfold Math_max2, nlt. destruct (Qlt_bool 0 q) eqn:E; cbn.
  - apply Qlt_bool_iff in E. apply Qlt_le_weak. exact E.
  - apply Qle_refl.
Qed.

(** X1. Whatever the sectors hold, the duty time is NaN or a non-negative
    number of hours: it is never negative and never infinite. *)
Theorem calculateDutyTime_never_negative (tz : Z) (sectors : list Sector) :
  nonNegativeOrNaN (Calculations.calculateDutyTime tz sectors).
Proof.
  unfold Calculations.calculateDutyTime.
  destruct sectors as [|s0 rest]; [apply Qle_refl|].
  change (List.length (s0 :: rest) =? 0)%nat with false. cbv iota zeta.
  apply Math_max_zero_nonNegativeOrNaN.
  set (takeoffs := map (fun s => getTime (DateParse tz ("2000-01-01T" ++ takeoffTime s)))
                       (s0 :: rest)).
  set (landings := map (fun s => getTime (DateParse tz ("2000-01-01T" ++ landingTime s)))
                       (s0 :: rest)).
  assert (Ht : finiteOrNaN (Math_min takeoffs)).
  { apply Math_min_finiteOrNaN; [discriminate|]. apply Forall_forall. intros x Hx.
    apply in_map_iff in Hx. destruct Hx as [s [<- _]]. apply getTime_finiteOrNaN. }
  assert (Hl : finiteOrNaN (Math_max landings)).
  { apply Math_max_finiteOrNaN; [discriminate|]. apply Forall_forall. intros x Hx.
    apply in_map_iff in Hx. destruct Hx as [s [<- _]]. apply getTime_finiteOrNaN. }
  destruct (Math_min takeoffs), (Math_max landings); try contradiction; exact I.
Qed.

(** ** Windowed totals *)

Lemma sumSectors_from (l : list TechlogEntry) :
  forall acc,
    fold_left (fun total entry => (total + List.length (sectors entry))%nat) l acc
    = (acc + Calculations.sumSectors l)%nat.
Proof.
  unfold Calculations.sumSectors.
  induction l as [|e l IH]; intro acc; cbn [fold_left]; [lia|].
  rewrite IH, (IH (0 + List.length (sectors e))%nat). lia.
Qed.

Lemma sumSectors_cons (e : TechlogEntry) (l : list TechlogEntry) :
  Calculations.sumSectors (e :: l)
  = (List.length (sectors e) + Calculations.sumSectors l)%nat.
Proof.
  unfold Calculations.sumSectors at 1. cbn [fold_left]. rewrite sumSectors_from. lia.
Qed.

Lemma sumSectors_filter_monotone (p p' : TechlogEntry -> bool) (l : list TechlogEntry) :
  (forall x, In x l -> p x = true -> p' x = true) ->
  (Calculations.sumSectors (filter p l) <= Calculations.sumSectors (filter p' l))%nat.
Proof.
  induction l as [|x l IH]; intro Hsub; [apply Nat.le_refl|].
  assert (IH' := IH (fun y Hy => Hsub y (or_intror Hy))).
  pose proof (Hsub x (or_introl eq_refl)) as Hx.
  cbn [filter]. destruct (p x).
  - rewrite (Hx eq_refl), !sumSectors_cons. lia.
  - destruct (p' x); [rewrite sumSectors_cons|]; lia.
Qed.

(** X2. The sector counts of a pilot grow with the window:
    24 hours <= 7 days <= 28 days <= 365 days. *)
Theorem sector_count_window_monotone (tz now : Z) (pilot : string)
    (entries : list TechlogEntry) :
  let st := Calculations.calculatePilotStats tz now pilot entries in
  (Calculations.sumSectors
     (Calculations.windowEntries tz now pilot entries (24 * 60 * 60 * 1000))
   <= sectors7Days st)%nat
  /\ (sectors7Days st <= sectors28Days st)%nat
  /\ (sectors28Days st <= sectors365Days st)%nat.
Proof.
  cbv zeta. unfold Calculations.calculatePilotStats.
  cbn [sectors7Days sectors28Days sectors365Days].
  unfold Calculations.windowEntries, Calculations.getEntriesInDateRange.
  repeat split; apply sumSectors_filter_monotone; intros e _;
    apply window_widens; lia.
Qed.

Lemma calculateDutyTime_valid_nonNegative (tz : Z) (sectors : list Sector) :
  Forall validTimes sectors ->
  nonNegative (Calculations.calculateDutyTime tz sectors).
Proof.
  intro Hv. destruct sectors as [|s0 rest]; [apply Qle_refl|].
  pose proof (fold_min_earliest (map takeoffMs rest) (takeoffMs s0)) as He.
  pose proof (fold_max_latest (map landingMs rest) (landingMs s0)) as Hl.
  change (takeoffMs s0 :: map takeoffMs rest) with (map takeoffMs (s0 :: rest)) in He.
  change (landingMs s0 :: map landingMs rest) with (map landingMs (s0 :: rest)) in Hl.
  pose proof (calculateDutyTime_formula tz _ _ _ Hv He Hl) as H.
  destruct (Calculations.calculateDutyTime tz (s0 :: rest)); try contradiction.
  cbn [num_eq nonNegative] in *. rewrite H. apply Q.le_max_l.
Qed.

(** X3. When the sectors of the pilot's entries carry times of day, the
    duty-time totals are ordered like the windows:
    7 days <= 28 days <= 365 days. *)
Theorem duty_time_window_monotone (tz now : Z) (pilot : string)
    (entries : list TechlogEntry) :
  (forall e, In e entries -> fliesAs pilot e = true -> Forall validTimes (sectors e)) ->
  let st := Calculations.calculatePilotStats tz now pilot entries in
  numLe (dutyTime7Days st) (dutyTime28Days st)
  /\ numLe (dutyTime28Days st) (dutyTime365Days st).
Proof.
  intros Hv. cbv zeta. unfold Calculations.calculatePilotStats.
  cbn [dutyTime7Days dutyTime28Days dutyTime365Days].
  unfold Calculations.sumDutyTime, Calculations.windowEntries,
    Calculations.getEntriesInDateRange.
  assert (Hsel : forall e, In e (filter (fliesAs pilot) entries) ->
                           nonNegative (Calculations.calculateDutyTime tz (sectors e))).
  { intros e He. apply filter_In in He. destruct He as [He Hp].
    apply calculateDutyTime_valid_nonNegative. exact (Hv e He Hp). }
  split;
    (apply (sum_filter_monotone (fun e => Calculations.calculateDutyTime tz (sectors e)));
     [exact Hsel | intros e _; apply window_widens; lia | apply Qle_refl]).
Qed.

Lemma duty_time_window_monotone_witness :
  let st := Calculations.calculatePilotStats 10800000 Sample.now "A. Smith" Sample.entries in
  numLe (dutyTime7Days st) (dutyTime28Days st)
  /\ numLe (dutyTime28Days st) (dutyTime365Days st).
Proof.
  apply (duty_time_window_monotone 10800000 Sample.now "A. Smith" Sample.entries).
  intros e He _.
  repeat (destruct He as [<- | He];
          [cbv [sectors Sample.entry1 Sample.entry2 Sample.entry3];
           repeat constructor; try discriminate|]).
  destruct He.
Defined.

Lemma windowEntries_skip (tz now : Z) (pilot : string) (l1 l2 : list TechlogEntry)
    (e : TechlogEntry) (w : Z) :
  w <= 365 * 24 * 60 * 60 * 1000 ->
  outsideEveryWindow tz now pilot e ->
  Calculations.windowEntries tz now pilot (l1 ++ e :: l2) w
  = Calculations.windowEntries tz now pilot (l1 ++ l2) w.
Proof.
  intros Hw Hout. unfold Calculations.windowEntries, Calculations.getEntriesInDateRange.
  rewrite !filter_app. f_equal. cbn [filter].
  destruct (fliesAs pilot e) eqn:Ep; [|reflexivity].
  cbn [filter].
  destruct Hout as [Hout | [Hout | [t [Ht Hout]]]]; [congruence | |].
  - rewrite Hout. reflexivity.
  - rewrite Ht. cbn [Date_ge Date_le DatePlusMs option_map].
    destruct Hout as [Hout | Hout].
    + replace (t <=? now) with false by (symmetry; apply Z.leb_gt; lia).
      rewrite andb_false_r. reflexivity.
    + replace (now + - w <=? t) with false by (symmetry; apply Z.leb_gt; lia).
      reflexivity.
Qed.

(** X4. An entry that belongs to another pilot, has an unparseable date,
    is dated after now or is older than 365 days changes no statistic of
    the pilot, wherever it stands in the record set. *)
Theorem calculatePilotStats_ignores_outside_entry (tz now : Z) (pilot : string)
    (l1 l2 : list TechlogEntry) (e : TechlogEntry) :
  outsideEveryWindow tz now pilot e ->
  Calculations.calculatePilotStats tz now pilot (l1 ++ e :: l2)
  = Calculations.calculatePilotStats tz now pilot (l1 ++ l2).
Proof.
  intro Hout. unfold Calculations.calculatePilotStats.
  rewrite !(windowEntries_skip tz now pilot l1 l2 e _) by (assumption || lia).
  reflexivity.
Qed.

(** An entry dated tomorrow and an entry with no date leave the
    statistics as they are. *)
Lemma calculatePilotStats_ignores_outside_entry_witness :
  Calculations.calculatePilotStats 10800000 Sample.now "A. Smith"
    ([Sample.entry1]
       ++ mkTechlogEntry "9" "TL-9" "2024-01-13" "5H-AAA" "A. Smith" None
                         [Sample.sector3] None
       :: [Sample.entry2])
  = Calculations.calculatePilotStats 10800000 Sample.now "A. Smith"
      ([Sample.entry1] ++ [Sample.entry2]).
Proof.
  apply calculatePilotStats_ignores_outside_entry.
  right. right. exists 1705104000000. split; [reflexivity|]. left. reflexivity.
Defined.

(** ** Sets of names and the default sort *)

Lemma Set_has_In (x : string) (s : JSSet) : Set_has x s = true <-> In x s.
Proof.
  unfold Set_has. rewrite existsb_exists. split.
  - intros [y [Hy E]]. apply String.eqb_eq in E. subst. exact Hy.
  - intro H. exists x. split; [exact H|apply String.eqb_refl].
Qed.

Lemma Set_add_In (x y : string) (s : JSSet) : In y (Set_add x s) <-> y = x \/ In y s.
Proof.
  unfold Set_add. destruct (Set_has x s) eqn:E.
  - apply Set_has_In in E. split; [auto|]. intros [-> | H]; assumption.
  - rewrite in_app_iff. cbn [In]. split.
    + intros [H | [<- | []]]; auto.
    + intros [-> | H]; auto.
Qed.

Lemma Set_add_NoDup (x : string) (s : JSSet) : NoDup s -> NoDup (Set_add x s).
Proof.
  intro Hnd. unfold Set_add. destruct (Set_has x s) eqn:E; [exact Hnd|].
  apply NoDup_app; [exact Hnd | constructor; [intros []|constructor] |].
  intros y Hy [<- | []].
  apply Set_has_In in Hy. congruence.
Qed.

Lemma ascii_compare_refl (a : ascii) : Ascii.compare a a = Eq.
Proof. apply N.compare_refl. Qed.

Lemma ascii_compare_lt_trans (a b c : ascii) :
  Ascii.compare a b = Lt -> Ascii.compare b c = Lt -> Ascii.compare a c = Lt.
Proof.
  unfold Ascii.compare. rewrite !N.compare_lt_iff. apply N.lt_trans.
Qed.

Lemma string_compare_lt_trans (a : string) :
  forall b c,
    String.compare a b = Lt -> String.compare b c = Lt -> String.compare a c = Lt.
Proof.
  induction a as [|x a IH]; intros [|y b] [|z c]; cbn [String.compare];
    try discriminate; try reflexivity.
  destruct (Ascii.compare x y) eqn:Exy; try discriminate;
    destruct (Ascii.compare y z) eqn:Eyz; try discriminate; intros H1 H2.
  - apply Ascii.compare_eq_iff in Exy. apply Ascii.compare_eq_iff in Eyz. subst.
    rewrite ascii_compare_refl. exact (IH _ _ H1 H2).
  - apply Ascii.compare_eq_iff in Exy. subst. rewrite Eyz. reflexivity.
  - apply Ascii.compare_eq_iff in Eyz. subst. rewrite Exy. reflexivity.
  - rewrite (ascii_compare_lt_trans _ _ _ Exy Eyz). reflexivity.
Qed.

Lemma string_leb_cases (a b : string) :
  String.leb a b = true <-> String.ltb a b = true \/ a = b.
Proof.
  unfold String.leb, String.ltb. destruct (String.compare a b) eqn:E.
  - apply String.compare_eq_iff in E. split; [auto|reflexivity].
  - split; [auto|reflexivity].
  - split; [discriminate|]. intros [H | ->]; [discriminate|].
    assert (H : String.compare b b = Eq).
    { clear E. induction b as [|x b IHb]; [reflexivity|].
      cbn [String.compare]. rewrite ascii_compare_refl. exact IHb. }
    congruence.
Qed.

Lemma string_ltb_trans (a b c : string) :
  String.ltb a b = true -> String.ltb b c = true -> String.ltb a c = true.
Proof.
  unfold String.ltb.
  destruct (String.compare a b) eqn:E1; try discriminate.
  destruct (String.compare b c) eqn:E2; try discriminate.
  rewrite (string_compare_lt_trans _ _ _ E1 E2). reflexivity.
Qed.

Lemma string_leb_trans (a b c : string) :
  String.leb a b = true -> String.leb b c = true -> String.leb a c = true.
Proof.
  rewrite !string_leb_cases. intros [H1 | ->] [H2 | ->]; auto.
  left. exact (string_ltb_trans _ _ _ H1 H2).
Qed.

(** The default sort puts [x] after [y] exactly when [y] is the smaller
    string. *)
Lemma defaultCompare_positive (x y : string) :
  ngt (defaultCompare x y) (Num 0) = String.ltb y x && negb (String.ltb x y).
Proof.
  unfold defaultCompare. destruct (String.ltb x y); [rewrite andb_false_r; reflexivity|].
  destruct (String.ltb y x); reflexivity.
Qed.

Section SortByOrder.
Context {A : Type} (compareFn : A -> A -> number) (le : A -> A -> Prop).
Hypothesis le_trans : forall a b c, le a b -> le b c -> le a c.

Lemma sortInsert_ordered (x : A) (l : list A) :
  (forall y, In y l ->
             if ngt (compareFn x y) (Num 0) then le y x else le x y) ->
  StronglySorted le l ->
  StronglySorted le (sortInsert compareFn x l).
Proof.
  induction l as [|y l IH]; intros Hcmp Hs; cbn [sortInsert].
  - constructor; constructor.
  - apply StronglySorted_inv in Hs. destruct Hs as [Hs Hall].
    pose proof (Hcmp y (or_introl eq_refl)) as Hy.
    destruct (ngt (compareFn x y) (Num 0)).
    + constructor.
      * apply IH; [|exact Hs]. intros z Hz. apply Hcmp. right. exact Hz.
      * rewrite Forall_forall in *. intros z Hz.
        apply (Permutation_in _ (sortInsert_perm compareFn x l)) in Hz.
        destruct Hz as [<- | Hz]; [exact Hy|apply Hall; exact Hz].
    + constructor.
      * constructor; assumption.
      * constructor; [exact Hy|].
        rewrite Forall_forall in *. intros z Hz.
        exact (le_trans _ _ _ Hy (Hall z Hz)).
Qed.

Lemma Array_sort_ordered (l : list A) :
  (forall x y, In x l -> In y l ->
               if ngt (compareFn x y) (Num 0) then le y x else le x y) ->
  StronglySorted le (Array_sort compareFn l).
Proof.
  induction l as [|x l IH]; intro Hcmp.
  - constructor.
  - change (Array_sort compareFn (x :: l))
      with (sortInsert compareFn x (Array_sort compareFn l)).
    apply sortInsert_ordered.
    + intros y Hy. apply (proj1 (Array_sort_In compareFn l y)) in Hy.
      apply Hcmp; [left; reflexivity|right; exact Hy].
    + apply IH. intros a b Ha Hb. apply Hcmp; right; assumption.
Qed.
End SortByOrder.

(** Sorting distinct strings with the default comparison gives a strictly
    ascending list of the same strings. *)
Lemma default_sort_strict (l : list string) :
  NoDup l ->
  StronglySorted (fun a b => String.ltb a b = true) (Array_sort defaultCompare l)
  /\ NoDup (Array_sort defaultCompare l)
  /\ forall x, In x (Array_sort defaultCompare l) <-> In x l.
Proof.
  intro Hnd.
  assert (Hnd' : NoDup (Array_sort defaultCompare l)).
  { apply (Permutation_NoDup (Permutation_sym (Array_sort_perm defaultCompare l)) Hnd). }
  split; [|split; [exact Hnd'|apply Array_sort_In]].
  assert (Hle : StronglySorted (fun a b => String.leb a b = true)
                               (Array_sort defaultCompare l)).
  { apply Array_sort_ordered; [exact string_leb_trans|].
    intros x y _ _. rewrite defaultCompare_positive.
    destruct (String.ltb y x) eqn:Eyx; cbn [andb].
    - destruct (String.ltb x y) eqn:Exy; cbn [negb];
        apply string_leb_cases; left; assumption.
    - destruct (String.leb_total x y) as [H | H]; [exact H|].
      apply string_leb_cases in H. destruct H as [H | ->]; [congruence|].
      apply string_leb_cases. right. reflexivity. }
  revert Hnd' Hle. generalize (Array_sort defaultCompare l). clear.
  induction l as [|x l IH]; intros Hnd Hs; [constructor|].
  apply NoDup_cons_iff in Hnd. destruct Hnd as [Hx Hnd].
  apply StronglySorted_inv in Hs. destruct Hs as [Hs Hall].
  constructor; [apply IH; assumption|].
  rewrite Forall_forall in *. intros y Hy.
  specialize (Hall y Hy). apply string_leb_cases in Hall.
  destruct Hall as [H | ->]; [exact H|contradiction].
Qed.

(** ** Pilot names and registrations (calculations.ts) *)

Lemma addPilotNames_In (s : JSSet) (e : TechlogEntry) (x : string) :
  In x (Calculations.addPilotNames s e)
  <-> In x s \/ pilotName e = x \/ (coPilotName e = Some x /\ x <> "").
Proof.
  unfold Calculations.addPilotNames.
  destruct (coPilotName e) as [c|].
  - destruct (String.eqb c "") eqn:E.
    + apply String.eqb_eq in E. subst c. rewrite Set_add_In. split.
      * intros [-> | H]; auto.
      * intros [H | [<- | [H Hne]]]; auto. congruence.
    + apply String.eqb_neq in E. rewrite !Set_add_In. split.
      * intros [-> | [-> | H]]; auto.
      * intros [H | [<- | [H Hne]]]; auto. injection H as ->. auto.
  - rewrite Set_add_In. split.
    + intros [-> | H]; auto.
    + intros [H | [<- | [H _]]]; auto. discriminate.
Qed.

Lemma addPilotNames_NoDup (s : JSSet) (e : TechlogEntry) :
  NoDup s -> NoDup (Calculations.addPilotNames s e).
Proof.
  intro H. unfold Calculations.addPilotNames.
  destruct (coPilotName e) as [c|]; [destruct (String.eqb c "")|];
    repeat apply Set_add_NoDup; exact H.
Qed.

Lemma collect_pilot_names (l : list TechlogEntry) :
  forall s,
    NoDup s ->
    NoDup (fold_left Calculations.addPilotNames l s)
    /\ forall x, In x (fold_left Calculations.addPilotNames l s)
                 <-> In x s
                     \/ exists e, In e l
                                  /\ (pilotName e = x
                                      \/ (coPilotName e = Some x /\ x <> "")).
Proof.
  induction l as [|e l IH]; intros s Hnd; cbn [fold_left].
  - split; [exact Hnd|]. intro x. split; [auto|]. intros [H | [e [[] _]]]. exact H.
  - destruct (IH _ (addPilotNames_NoDup s e Hnd)) as [Hnd' Hin].
    split; [exact Hnd'|]. intro x. rewrite Hin, addPilotNames_In. split.
    + intros [[H | H] | [e' [He' H]]]; auto.
      * right. exists e. split; [left; reflexivity|exact H].
      * right. exists e'. split; [right; exact He'|exact H].
    + intros [H | [e' [[<- | He'] H]]]; auto.
      right. exists e'. split; assumption.
Qed.

(** X5. [getAllPilotNames] lists, in strictly ascending order and hence
    without repetition, exactly the names that occur as the pilot of some
    entry or as a non-empty co-pilot of some entry. *)
Theorem getAllPilotNames_spec (entries : list TechlogEntry) :
  StronglySorted (fun a b => String.ltb a b = true)
                 (Calculations.getAllPilotNames entries)
  /\ NoDup (Calculations.getAllPilotNames entries)
  /\ forall name,
       In name (Calculations.getAllPilotNames entries)
       <-> exists e, In e entries
                     /\ (pilotName e = name
                         \/ (coPilotName e = Some name /\ name <> "")).
Proof.
  unfold Calculations.getAllPilotNames.
  destruct (collect_pilot_names entries [] (NoDup_nil _)) as [Hnd Hin].
  destruct (default_sort_strict _ Hnd) as [Hs [Hnd' Hmem]].
  split; [exact Hs|]. split; [exact Hnd'|].
  intro name. rewrite Hmem, Hin. split; [intros [[] | H]; exact H|auto].
Qed.

Lemma collect_registrations (l : list TechlogEntry) :
  forall s,
    NoDup s ->
    NoDup (fold_left (fun set entry => Set_add (aircraftRegistration entry) set) l s)
    /\ forall x,
         In x (fold_left (fun set entry => Set_add (aircraftRegistration entry) set) l s)
         <-> In x s \/ exists e, In e l /\ aircraftRegistration e = x.
Proof.
  induction l as [|e l IH]; intros s Hnd; cbn [fold_left].
  - split; [exact Hnd|]. intro x. split; [auto|]. intros [H | [e [[] _]]]. exact H.
  - destruct (IH _ (Set_add_NoDup (aircraftRegistration e) s Hnd)) as [Hnd' Hin].
    split; [exact Hnd'|]. intro x. rewrite Hin, Set_add_In. split.
    + intros [[-> | H] | [e' [He' H]]]; auto.
      * right. exists e. split; [left; reflexivity|reflexivity].
      * right. exists e'. split; [right; exact He'|exact H].
    + intros [H | [e' [[<- | He'] H]]]; auto.
      right. exists e'. split; assumption.
Qed.

Lemma getAllAircraftRegistrations_spec (entries : list TechlogEntry) :
  StronglySorted (fun a b => String.ltb a b = true)
                 (Calculations.getAllAircraftRegistrations entries)
  /\ NoDup (Calculations.getAllAircraftRegistrations entries)
  /\ forall r,
       In r (Calculations.getAllAircraftRegistrations entries)
       <-> exists e, In e entries /\ aircraftRegistration e = r.
Proof.
  unfold Calculations.getAllAircraftRegistrations.
  destruct (collect_registrations entries [] (NoDup_nil _)) as [Hnd Hin].
  destruct (default_sort_strict _ Hnd) as [Hs [Hnd' Hmem]].
  split; [exact Hs|]. split; [exact Hnd'|].
  intro r. rewrite Hmem, Hin. split; [intros [[] | H]; exact H|auto].
Qed.

(** ** Aircraft statistics (calculations.ts, AircraftStatusDashboard.tsx) *)

Lemma sumSectors_list_sum (l : list TechlogEntry) :
  Calculations.sumSectors l = list_sum (map (fun e => List.length (sectors e)) l).
Proof.
  induction l as [|e l IH]; [reflexivity|].
  rewrite sumSectors_cons, IH. reflexivity.
Qed.

Lemma sumSectors_app (l1 l2 : list TechlogEntry) :
  Calculations.sumSectors (l1 ++ l2)
  = (Calculations.sumSectors l1 + Calculations.sumSectors l2)%nat.
Proof.
  rewrite !sumSectors_list_sum, map_app, list_sum_app. reflexivity.
Qed.

(** X6. Appending an entry changes the statistics of its own aircraft
    only: that aircraft gains the entry's sector count and flight time,
    every other aircraft keeps its totals. *)
Theorem calculateAircraftStats_append (now : Z) (reg : string)
    (entries : list TechlogEntry) (e : TechlogEntry) :
  let before := Calculations.calculateAircraftStats now reg entries in
  let after := Calculations.calculateAircraftStats now reg (entries ++ [e]) in
  (aircraftRegistration e = reg ->
   totalCycles after = (totalCycles before + List.length (sectors e))%nat
   /\ totalFlightHours after
      = nadd (totalFlightHours before) (Calculations.calculateFlightTime (sectors e)))
  /\ (aircraftRegistration e <> reg -> after = before).
Proof.
  cbv zeta. unfold Calculations.calculateAircraftStats.
  rewrite filter_app. cbn [filter totalCycles totalFlightHours]. split.
  - intros <-. rewrite String.eqb_refl. split.
    + rewrite sumSectors_app, sumSectors_cons.
      change (Calculations.sumSectors []) with 0%nat. lia.
    + unfold Calculations.sumFlightTime. rewrite fold_left_app. reflexivity.
  - intro Hne. apply String.eqb_neq in Hne. rewrite Hne, app_nil_r. reflexivity.
Qed.

Lemma calculateAircraftStats_append_witness :
  totalCycles (Calculations.calculateAircraftStats 0 "5H-AAA"
                 ([Sample.entry1; Sample.entry2] ++ [Sample.entry3])) = 4%nat
  /\ Calculations.calculateAircraftStats 0 "5H-BBB"
       ([Sample.entry1; Sample.entry2] ++ [Sample.entry3])
     = Calculations.calculateAircraftStats 0 "5H-BBB" [Sample.entry1; Sample.entry2].
Proof.
  split.
  - destruct (calculateAircraftStats_append 0 "5H-AAA" [Sample.entry1; Sample.entry2]
                                            Sample.entry3) as [H _].
    destruct (H eq_refl) as [-> _]. reflexivity.
  - destruct (calculateAircraftStats_append 0 "5H-BBB" [Sample.entry1; Sample.entry2]
                                            Sample.entry3) as [_ H].
    apply H. discriminate.
Defined.

Lemma list_sum_step (x : nat) (l : list nat) : list_sum (x :: l) = (x + list_sum l)%nat.
Proof. reflexivity. Qed.

Lemma list_sum_map_add {A : Type} (a b : A -> nat) (l : list A) :
  list_sum (map (fun k => (a k + b k)%nat) l)
  = (list_sum (map a l) + list_sum (map b l))%nat.
Proof.
  induction l as [|k l IH]; [reflexivity|]. cbn [map]. rewrite !list_sum_step, IH. lia.
Qed.

Lemma indicator_sum (y : string) (v : nat) (keys : list string) :
  NoDup keys -> In y keys ->
  list_sum (map (fun k => if String.eqb y k then v else 0%nat) keys) = v.
Proof.
  induction keys as [|k keys IH]; intros Hnd Hin; [destruct Hin|].
  apply NoDup_cons_iff in Hnd. destruct Hnd as [Hk Hnd].
  cbn [map]. rewrite list_sum_step.
  destruct (String.eqb y k) eqn:E.
  - apply String.eqb_eq in E. subst k.
    assert (Hz : list_sum (map (fun k => if String.eqb y k then v else 0%nat) keys) = 0%nat).
    { clear IH Hnd Hin. induction keys as [|k keys IH]; [reflexivity|].
      cbn [map]. rewrite list_sum_step. destruct (String.eqb y k) eqn:E.
      - apply String.eqb_eq in E. subst k. exfalso. apply Hk. left. reflexivity.
      - rewrite IH; [reflexivity|]. intro H. apply Hk. right. exact H. }
    rewrite Hz. lia.
  - apply String.eqb_neq in E. destruct Hin as [-> | Hin]; [congruence|].
    rewrite (IH Hnd Hin). reflexivity.
Qed.

(** Summing per key over distinct keys that cover the list counts every
    element once. *)
Lemma partition_sum {A : Type} (key : A -> string) (f : A -> nat)
    (keys : list string) (l : list A) :
  NoDup keys ->
  (forall x, In x l -> In (key x) keys) ->
  list_sum (map (fun k => list_sum (map f (filter (fun x => String.eqb (key x) k) l)))
                keys)
  = list_sum (map f l).
Proof.
  intros Hnd. induction l as [|x l IH]; intro Hcover.
  - cbn [filter map]. clear Hnd Hcover.
    induction keys as [|k keys IHk]; [reflexivity|].
    cbn [map]. rewrite list_sum_step, IHk. reflexivity.
  - rewrite (map_ext _ (fun k => ((if String.eqb (key x) k then f x else 0)
                                  + list_sum (map f (filter (fun y => String.eqb (key y) k) l)))%nat)).
    + rewrite list_sum_map_add, IH by (intros y Hy; apply Hcover; right; exact Hy).
      rewrite (indicator_sum _ _ _ Hnd (Hcover x (or_introl eq_refl))). reflexivity.
    + intro k. cbn [filter]. destruct (String.eqb (key x) k); reflexivity.
Qed.

Lemma fleetTotalCycles_list_sum (stats : list AircraftStats) :
  AircraftStatusDashboard.fleetTotalCycles stats = list_sum (map totalCycles stats).
Proof.
  unfold AircraftStatusDashboard.fleetTotalCycles.
  assert (H : forall acc,
             fold_left (fun sum a => (sum + totalCycles a)%nat) stats acc
             = (acc + list_sum (map totalCycles stats))%nat).
  { induction stats as [|a stats IH]; intro acc; cbn [fold_left map].
    - cbn. lia.
    - rewrite list_sum_step, IH. lia. }
  apply (H 0%nat).
Qed.

(** X7. The aircraft dashboard holds one record per distinct registration,
    in ascending order, and its fleet total of cycles is the number of
    sectors of all entries: every sector is counted for exactly one
    aircraft. *)
Theorem fleet_cycles_count_every_sector_once (now : Z) (entries : list TechlogEntry) :
  let stats := AircraftStatusDashboard.loadAircraftStats now entries in
  StronglySorted (fun a b => String.ltb a b = true) (map registration stats)
  /\ (forall e, In e entries -> In (aircraftRegistration e) (map registration stats))
  /\ AircraftStatusDashboard.fleetTotalCycles stats = Calculations.sumSectors entries.
Proof.
  cbv zeta. unfold AircraftStatusDashboard.loadAircraftStats.
  destruct (getAllAircraftRegistrations_spec entries) as [Hs [Hnd Hmem]].
  assert (Hregs : map registration
                      (map (fun r => Calculations.calculateAircraftStats now r entries)
                           (Calculations.getAllAircraftRegistrations entries))
                  = Calculations.getAllAircraftRegistrations entries).
  { rewrite map_map. apply map_id. }
  rewrite Hregs. split; [exact Hs|]. split.
  - intros e He. apply Hmem. exists e. split; [exact He|reflexivity].
  - rewrite fleetTotalCycles_list_sum, map_map, sumSectors_list_sum.
    rewrite <- (partition_sum aircraftRegistration (fun e => List.length (sectors e))
                              (Calculations.getAllAircraftRegistrations entries) entries Hnd).
    + apply f_equal, map_ext. intro r.
      unfold Calculations.calculateAircraftStats. cbn [totalCycles].
      apply sumSectors_list_sum.
    + intros e He. apply Hmem. exists e. split; [exact He|reflexivity].
Qed.

(** ** Sector flight time as a whole (TechlogEntryForm.calculateFlightTime) *)

Lemma calculateFlightTime_next_day (tz : Z) (takeoff landing : string) (a b : Z) :
  timeOfDayMs takeoff = Some a ->
  timeOfDayMs landing = Some b ->
  b < a ->
  TechlogEntryForm.calculateFlightTime tz takeoff landing
  =n= Num (hoursOfMs (b + msPerDay - a)).
Proof.
  intros Ha Hb Hlt. unfold TechlogEntryForm.calculateFlightTime.
  rewrite (timeOfDayMs_nonempty _ _ Ha), (timeOfDayMs_nonempty _ _ Hb).
  rewrite (DateParse_reference tz _ _ Ha), (DateParse_reference tz _ _ Hb).
  cbn [orb Date_lt].
  replace (referenceDay + b - tz <? referenceDay + a - tz) with true
    by (symmetry; apply Z.ltb_lt; lia).
  cbn [setDatePlus DatePlusMs option_map getTime].
  eapply num_eq_trans; [apply ndivHour_diff|].
  replace (referenceDay + b - tz + 1 * msPerDay - (referenceDay + a - tz))
    with (b + msPerDay - a) by lia.
  apply num_eq_refl.
Qed.

Lemma hoursOfMs_nonneg (ms : Z) : 0 <= ms -> (0 <= hoursOfMs ms)%Q.
Proof.
  intro H. unfold hoursOfMs, Qdiv, msPerHour.
  apply Qmult_le_0_compat; [|discriminate].
  change 0%Q with (inject_Z 0). rewrite <- Zle_Qle. exact H.
Qed.

(** X8. For two times of day before 24:00 the sector flight time is the
    clock difference landing - take-off taken modulo 24 hours, in hours; it
    lies in [0, 24) and does not depend on the time zone. *)
Theorem calculateFlightTime_modulo_day (tz : Z) (takeoff landing : string) (a b : Z) :
  timeOfDayMs takeoff = Some a ->
  timeOfDayMs landing = Some b ->
  a < msPerDay -> b < msPerDay ->
  TechlogEntryForm.calculateFlightTime tz takeoff landing
  =n= Num (hoursOfMs ((b - a) mod msPerDay))
  /\ (0 <= hoursOfMs ((b - a) mod msPerDay) < 24)%Q.
Proof.
  intros Ha Hb Hda Hdb.
  pose proof (timeOfDayMs_range _ _ Ha) as Ra.
  pose proof (timeOfDayMs_range _ _ Hb) as Rb.
  assert (Hm : 0 <= (b - a) mod msPerDay < msPerDay)
    by (apply Z.mod_pos_bound; reflexivity).
  split.
  - destruct (Z.lt_ge_cases b a) as [Hlt | Hge].
    + replace ((b - a) mod msPerDay) with (b + msPerDay - a).
      * apply calculateFlightTime_next_day; assumption.
      * apply (Z.mod_unique_pos _ _ (-1)); unfold msPerDay in *; lia.
    + replace ((b - a) mod msPerDay) with (b - a).
      * apply calculateFlightTime_same_day; assumption.
      * symmetry. apply Z.mod_small. unfold msPerDay in *. lia.
  - split; [apply hoursOfMs_nonneg; apply Hm|].
    apply hoursOfMs_lt_24. apply Hm.
Qed.

Lemma calculateFlightTime_modulo_day_witness :
  TechlogEntryForm.calculateFlightTime 10800000 "22:10" "01:40" =n= Num 3.5
  /\ TechlogEntryForm.calculateFlightTime 0 "07:00" "10:30" =n= Num 3.5.
Proof.
  split.
  - destruct (calculateFlightTime_modulo_day 10800000 "22:10" "01:40" 79800000 6000000
                eq_refl eq_refl eq_refl eq_refl) as [H _].
    eapply num_eq_trans; [exact H|]. reflexivity.
  - destruct (calculateFlightTime_modulo_day 0 "07:00" "10:30" 25200000 37800000
                eq_refl eq_refl eq_refl eq_refl) as [H _].
    eapply num_eq_trans; [exact H|]. reflexivity.
Defined.

(** ** Rest periods and overnights as a whole (CrewStatusDashboard.tsx) *)

Lemma filter_length_le {A : Type} (p : A -> bool) (l : list A) :
  (List.length (filter p l) <= List.length l)%nat.
Proof.
  induction l as [|x l IH]; [apply Nat.le_refl|].
  cbn [filter]. destruct (p x); cbn [List.length]; lia.
Qed.

Lemma filter_length_all {A : Type} (p : A -> bool) (l : list A) :
  List.length (filter p l) = List.length l <-> Forall (fun x => p x = true) l.
Proof.
  induction l as [|x l IH]; [split; [constructor|reflexivity]|].
  cbn [filter]. pose proof (filter_length_le p l) as Hle.
  destruct (p x) eqn:E; cbn [List.length]; split.
  - intro H. constructor; [exact E|]. apply IH. lia.
  - intro H. apply Forall_cons_iff in H. destruct H as [_ H]. apply IH in H. lia.
  - intro H. lia.
  - intro H. apply Forall_cons_iff in H. destruct H as [H _]. congruence.
Qed.

(** X9. The verdict "fully compliant" holds exactly when every rest period
    of the recent view is compliant (in particular when there is none); the
    counters returned beside it are the numbers of rest periods and of
    compliant rest periods of the two views. *)
Theorem isFullyCompliant_iff_all_recent_compliant (tz now : Z) (pilot : string)
    (entries : list TechlogEntry) (res : RestCompliance) (full : list RestPeriod) :
  getPilotRestCompliance tz now pilot entries = Some res ->
  restPeriodDetails tz pilot entries = Some full ->
  (isFullyCompliant res = true
   <-> Forall (fun r => isCompliant r = true) (recentRestPeriodDetails res))
  /\ recentRestPeriods res = List.length (recentRestPeriodDetails res)
  /\ recentCompliantRestPeriods res
     = List.length (filter isCompliant (recentRestPeriodDetails res))
  /\ totalRestPeriods res = List.length full
  /\ compliantRestPeriods res = List.length (filter isCompliant full)
  /\ (compliantRestPeriods res <= totalRestPeriods res)%nat.
Proof.
  unfold getPilotRestCompliance, restPeriodDetails, getPilotOvernightCount.
  destruct (getPilotDailyDetails tz pilot entries) as [days|]; [|discriminate].
  intros Hres Hfull. injection Hres as <-. injection Hfull as <-.
  cbn [isFullyCompliant recentRestPeriodDetails recentRestPeriods
       recentCompliantRestPeriods totalRestPeriods compliantRestPeriods].
  set (recent := recentDailyDetails tz now (sortedDailyDetails tz days)).
  destruct (restLoop_counts tz recent emptyTally) as [Ht Hc].
  destruct (restLoop_counts tz (sortedDailyDetails tz days) emptyTally) as [Ht' Hc'].
  rewrite !restLoop_details. cbn [emptyTally tallyTotal tallyCompliant tallyDetails app] in *.
  rewrite Ht, Hc, Ht', Hc'.
  pose proof (filter_length_le isCompliant (restPairs tz recent)) as Hle.
  pose proof (filter_length_le isCompliant (restPairs tz (sortedDailyDetails tz days)))
    as Hle'.
  repeat split; try lia.
  - intro Hv. apply orb_true_iff in Hv. destruct Hv as [Hv | Hv].
    + apply Nat.eqb_eq in Hv. destruct (restPairs tz recent); [constructor|discriminate].
    + apply Nat.eqb_eq in Hv. apply filter_length_all. exact Hv.
  - intro Hv. apply filter_length_all in Hv. apply orb_true_iff. right.
    apply Nat.eqb_eq. exact Hv.
Qed.

Lemma isFullyCompliant_iff_all_recent_compliant_witness :
  exists res,
    getPilotRestCompliance 10800000 Sample.now "A. Smith" Sample.entries = Some res
    /\ (isFullyCompliant res = true
        <-> Forall (fun r => isCompliant r = true) (recentRestPeriodDetails res))
    /\ totalRestPeriods res = 2%nat.
Proof.
  eexists. split; [vm_compute; reflexivity|].
  edestruct (isFullyCompliant_iff_all_recent_compliant
               10800000 Sample.now "A. Smith" Sample.entries)
    as [H1 [_ [_ [H4 _]]]]; [vm_compute; reflexivity | vm_compute; reflexivity |].
  split; [exact H1|exact H4].
Defined.

Lemma arrayAt_last_inv {A : Type} (l : list A) (x : A) :
  arrayAt l (Z.of_nat (List.length l) - 1) = Some x -> exists front, l = (front ++ [x])%list.
Proof.
  destruct l as [|y l'] using rev_ind; [discriminate|].
  rewrite arrayAt_last. intro H. injection H as ->. exists l'. reflexivity.
Qed.

Lemma arrayAt_first_inv {A : Type} (l : list A) (x : A) :
  arrayAt l 0 = Some x -> exists back, l = x :: back.
Proof.
  destruct l as [|y l']; [discriminate|].
  intro H. injection H as ->. exists l'. reflexivity.
Qed.

Lemma restPeriodOf_inv (tz : Z) (cur next : DailyDetail) (r : RestPeriod) :
  In r (restPeriodOf tz cur next) ->
  exists front lastSector firstSector back,
    day_sectors cur = (front ++ [lastSector])%list
    /\ day_sectors next = firstSector :: back
    /\ r = {| rest_start :=
                DatePlusMs (DateParse tz (day_date cur ++ "T" ++ landingTime lastSector))
                           (15 * 60 * 1000);
              rest_end :=
                DatePlusMs (DateParse tz (day_date next ++ "T" ++ takeoffTime firstSector))
                           (45 * 60 * 1000);
              hours :=
                ndivHour
                  (nsub (getTime (DatePlusMs (DateParse tz (day_date next ++ "T"
                                                             ++ takeoffTime firstSector))
                                             (45 * 60 * 1000)))
                        (getTime (DatePlusMs (DateParse tz (day_date cur ++ "T"
                                                             ++ landingTime lastSector))
                                             (15 * 60 * 1000))));
              isCompliant :=
                nge (ndivHour
                       (nsub (getTime (DatePlusMs (DateParse tz (day_date next ++ "T"
                                                                  ++ takeoffTime firstSector))
                                                  (45 * 60 * 1000)))
                             (getTime (DatePlusMs (DateParse tz (day_date cur ++ "T"
                                                                  ++ landingTime lastSector))
                                                  (15 * 60 * 1000)))))
                    (Num 36);
              fromDate := day_date cur;
              toDate := day_date next |}.
Proof.
  unfold restPeriodOf, restStep.
  destruct (arrayAt (day_sectors cur) (Z.of_nat (List.length (day_sectors cur)) - 1))
    as [lastSector|] eqn:El; [|intros []].
  destruct (arrayAt (day_sectors next) 0) as [firstSector|] eqn:Ef; [|intros []].
  apply arrayAt_last_inv in El. destruct El as [front El].
  apply arrayAt_first_inv in Ef. destruct Ef as [back Ef].
  cbn [tallyDetails emptyTally app]. intros [<- | []].
  exists front, lastSector, firstSector, back. repeat split; assumption.
Qed.

Lemma restPairs_inv (tz : Z) (days : list DailyDetail) (r : RestPeriod) :
  In r (restPairs tz days) ->
  exists i cur next,
    nth_error days i = Some cur /\ nth_error days (S i) = Some next
    /\ In r (restPeriodOf tz cur next).
Proof.
  induction days as [|d0 rest IH]; [intros []|].
  destruct rest as [|d1 rest']; [intros []|].
  change (restPairs tz (d0 :: d1 :: rest'))
    with (restPeriodOf tz d0 d1 ++ restPairs tz (d1 :: rest'))%list.
  intro Hin. apply in_app_or in Hin. destruct Hin as [Hin | Hin].
  - exists 0%nat, d0, d1. split; [reflexivity|]. split; [reflexivity | exact Hin].
  - destruct (IH Hin) as [i [cur [next [Hi [Hsi Hr]]]]].
    exists (S i), cur, next. repeat split; assumption.
Qed.

Lemma restPeriodOf_length (tz : Z) (cur next : DailyDetail) :
  (List.length (restPeriodOf tz cur next) <= 1)%nat.
Proof.
  unfold restPeriodOf, restStep.
  destruct (arrayAt (day_sectors cur) (Z.of_nat (List.length (day_sectors cur)) - 1));
    [|cbn; lia].
  destruct (arrayAt (day_sectors next) 0); cbn; lia.
Qed.

Lemma restPairs_length (tz : Z) (days : list DailyDetail) :
  (List.length (restPairs tz days) <= List.length days - 1)%nat.
Proof.
  induction days as [|d0 rest IH]; [apply Nat.le_refl|].
  destruct rest as [|d1 rest']; [apply Nat.le_refl|].
  change (restPairs tz (d0 :: d1 :: rest'))
    with (restPeriodOf tz d0 d1 ++ restPairs tz (d1 :: rest'))%list.
  rewrite length_app. pose proof (restPeriodOf_length tz d0 d1).
  cbn [List.length] in *. lia.
Qed.

(** X10. The rest-period loop records nothing but pairs of adjacent days
    that both have a sector: every record it pushes carries the dates of
    some [days[i]] and [days[i+1]], starts 15 minutes after the last landing
    of the first and ends 45 minutes after the first take-off of the
    second; a list of n days yields at most n - 1 records. *)
Theorem rest_periods_only_between_adjacent_days (tz : Z) (days : list DailyDetail) :
  (forall r,
     In r (tallyDetails (restLoop tz days emptyTally)) ->
     exists i cur next front lastSector firstSector back,
       nth_error days i = Some cur
       /\ nth_error days (S i) = Some next
       /\ day_sectors cur = (front ++ [lastSector])%list
       /\ day_sectors next = firstSector :: back
       /\ fromDate r = day_date cur
       /\ toDate r = day_date next
       /\ rest_start r
          = DatePlusMs (DateParse tz (day_date cur ++ "T" ++ landingTime lastSector))
                       (15 * 60 * 1000)
       /\ rest_end r
          = DatePlusMs (DateParse tz (day_date next ++ "T" ++ takeoffTime firstSector))
                       (45 * 60 * 1000)
       /\ hours r = ndivHour (nsub (getTime (rest_end r)) (getTime (rest_start r)))
       /\ isCompliant r = nge (hours r) (Num 36))
  /\ (tallyTotal (restLoop tz days emptyTally) <= List.length days - 1)%nat.
Proof.
  split.
  - intros r Hr. rewrite restLoop_details in Hr. cbn [emptyTally tallyDetails app] in Hr.
    destruct (restPairs_inv tz days r Hr) as [i [cur [next [Hi [Hsi Hin]]]]].
    destruct (restPeriodOf_inv tz cur next r Hin)
      as [front [lastSector [firstSector [back [Hc [Hn ->]]]]]].
    exists i, cur, next, front, lastSector, firstSector, back.
    cbn [fromDate toDate rest_start rest_end hours isCompliant].
    repeat split; assumption || reflexivity.
  - rewrite (proj1 (restLoop_counts tz days emptyTally)). cbn [emptyTally tallyTotal].
    apply restPairs_length.
Qed.

Lemma rest_periods_only_between_adjacent_days_witness :
  (tallyTotal (restLoop 10800000 [Sample.dayA; Sample.dayB] emptyTally) <= 1)%nat.
Proof.
  apply (rest_periods_only_between_adjacent_days 10800000 [Sample.dayA; Sample.dayB]).
Defined.

(** X11. When the landing time or the take-off time of a pair (or one of
    the two dates) cannot be read, the pair is not skipped: it is counted
    as a rest period with NaN hours that is not compliant. *)
Theorem unreadable_time_counts_as_non_compliant (tz : Z) (cur next : DailyDetail)
    (front back : list Sector) (lastSector firstSector : Sector) (acc : RestTally) :
  day_sectors cur = (front ++ [lastSector])%list ->
  day_sectors next = firstSector :: back ->
  DateParse tz (day_date cur ++ "T" ++ landingTime lastSector) = None
  \/ DateParse tz (day_date next ++ "T" ++ takeoffTime firstSector) = None ->
  let acc' := restLoop tz [cur; next] acc in
  tallyTotal acc' = S (tallyTotal acc)
  /\ tallyCompliant acc' = tallyCompliant acc
  /\ exists r,
       tallyDetails acc' = (tallyDetails acc ++ [r])%list
       /\ hours r = NaN /\ isCompliant r = false.
Proof.
  intros Hc Hn Hbad. cbv zeta. cbn [restLoop]. unfold restStep.
  rewrite Hc, arrayAt_last, Hn.
  change (arrayAt (firstSector :: back) 0) with (Some firstSector). cbv iota.
  assert (Hh : ndivHour
                 (nsub (getTime (DatePlusMs (DateParse tz (day_date next ++ "T"
                                                            ++ takeoffTime firstSector))
                                            (45 * 60 * 1000)))
                       (getTime (DatePlusMs (DateParse tz (day_date cur ++ "T"
                                                            ++ landingTime lastSector))
                                            (15 * 60 * 1000)))) = NaN).
  { destruct Hbad as [-> | ->].
    - cbn [DatePlusMs option_map getTime]. rewrite nsub_NaN_r. reflexivity.
    - reflexivity. }
  cbn [tallyTotal tallyCompliant tallyDetails]. rewrite Hh.
  split; [reflexivity|]. split; [reflexivity|].
  eexists. split; [reflexivity|]. split; reflexivity.
Qed.

(** A sector without a landing time on the first day. *)
Lemma unreadable_time_counts_as_non_compliant_witness :
  let cur := dailyDetailOf
               ("2024-02-01",
                [mkTechlogEntry "7" "TL-7" "2024-02-01" "5H-AAA" "A. Smith" None
                   [mkSector "7" "HTDA" "HTZA" "05:50" "" (Num 0)] None]) in
  let acc' := restLoop 10800000 [cur; Sample.dayB] emptyTally in
  tallyTotal acc' = 1%nat /\ tallyCompliant acc' = 0%nat.
Proof.
  cbv zeta.
  edestruct (unreadable_time_counts_as_non_compliant 10800000
               (dailyDetailOf
                  ("2024-02-01",
                   [mkTechlogEntry "7" "TL-7" "2024-02-01" "5H-AAA" "A. Smith" None
                      [mkSector "7" "HTDA" "HTZA" "05:50" "" (Num 0)] None]))
               Sample.dayB [] [] _ _ emptyTally eq_refl eq_refl (or_introl eq_refl))
    as [H1 [H2 _]].
  split; [exact H1|exact H2].
Defined.

Lemma hoursOfMs_ge_36 (ms : Z) : (36 <= hoursOfMs ms)%Q <-> 129600000 <= ms.
Proof.
  unfold hoursOfMs, msPerHour. split; intro H.
  - destruct (Z.lt_ge_cases ms 129600000) as [Hlt | Hge]; [|exact Hge].
    exfalso. apply (Qle_not_lt _ _ H).
    apply Qlt_shift_div_r; [reflexivity|].
    change (36 * 3600000)%Q with (inject_Z 129600000).
    rewrite <- Zlt_Qlt. exact Hlt.
  - apply Qle_shift_div_l; [reflexivity|].
    change (36 * 3600000)%Q with (inject_Z 129600000).
    rewrite <- Zle_Qle. exact H.
Qed.

(** X12. For two adjacent days whose last landing and first take-off are
    times of day read at the UTC offsets [off1] and [off2] in force on the
    two dates, compliance is decided by the calendar gap, the two clock
    times and the change of offset: the rest is compliant exactly when
    gap * 24 h + take-off - landing + (off1 - off2) + 30 min is at least
    36 h.  When the same offset is in force on both dates, a gap of three
    days or more is always compliant, the same or an earlier date never
    is, and on consecutive dates the rest is compliant exactly when the
    take-off clock time is at least 11 h 30 later than the landing clock
    time. *)
Theorem rest_compliance_by_calendar_gap (tz : Z) (cur next : DailyDetail)
    (front back : list Sector) (lastSector firstSector : Sector)
    (D1 t1 off1 D2 t2 off2 : Z) :
  day_sectors cur = (front ++ [lastSector])%list ->
  day_sectors next = firstSector :: back ->
  calendarDay (day_date cur) = Some D1 ->
  timeOfDayMs (landingTime lastSector) = Some t1 ->
  calendarDay (day_date next) = Some D2 ->
  timeOfDayMs (takeoffTime firstSector) = Some t2 ->
  DateParse tz (day_date cur ++ "T" ++ landingTime lastSector)
  = Some (D1 * msPerDay + t1 - off1) ->
  DateParse tz (day_date next ++ "T" ++ takeoffTime firstSector)
  = Some (D2 * msPerDay + t2 - off2) ->
  let res := restLoop tz [cur; next] emptyTally in
  tallyTotal res = 1%nat
  /\ (tallyCompliant res = 1%nat
      <-> 36 * 3600000 <= (D2 - D1) * msPerDay + t2 - t1 + (off1 - off2) + 30 * 60000)
  /\ (tallyCompliant res = 0%nat
      <-> (D2 - D1) * msPerDay + t2 - t1 + (off1 - off2) + 30 * 60000 < 36 * 3600000)
  /\ (off1 = off2 -> D1 + 3 <= D2 -> tallyCompliant res = 1%nat)
  /\ (off1 = off2 -> D2 <= D1 -> tallyCompliant res = 0%nat)
  /\ (off1 = off2 -> D2 = D1 + 1 ->
      (tallyCompliant res = 1%nat <-> t1 + 41400000 <= t2)).
Proof.
  intros Hcur Hnext _ Ht1 _ Ht2 Hland Htake. cbv zeta. cbn [restLoop].
  destruct (restPeriodOf_parsed tz cur next front back lastSector firstSector
              _ _ Hcur Hnext Hland Htake) as [r [Hr [_ [_ [_ [_ [_ Hc]]]]]]].
  destruct (restStep_counts tz cur next emptyTally) as [Htot Hcomp].
  rewrite Htot, Hcomp, Hr. cbn [emptyTally tallyTotal tallyCompliant List.length filter Nat.add].
  rewrite hoursOfMs_ge_36 in Hc.
  pose proof (timeOfDayMs_range _ _ Ht1) as R1.
  pose proof (timeOfDayMs_range _ _ Ht2) as R2.
  unfold msPerDay in *.
  assert (Hone : List.length (if isCompliant r then [r] else []) = 1%nat
                 <-> 36 * 3600000
                     <= (D2 - D1) * 86400000 + t2 - t1 + (off1 - off2) + 30 * 60000).
  { destruct (isCompliant r); cbn [List.length].
    - split; [intros _; apply proj1 in Hc; specialize (Hc eq_refl); lia | reflexivity].
    - split; [discriminate|]. intro H. apply proj2 in Hc.
      assert (false = true) by (apply Hc; lia). discriminate. }
  assert (Hzero : List.length (if isCompliant r then [r] else []) = 0%nat
                  <-> (D2 - D1) * 86400000 + t2 - t1 + (off1 - off2) + 30 * 60000
                      < 36 * 3600000).
  { destruct (isCompliant r); cbn [List.length].
    - split; [discriminate|]. intro H. apply proj1 in Hc. specialize (Hc eq_refl). lia.
    - split; [|reflexivity]. intros _.
      destruct (Z.lt_ge_cases
                  ((D2 - D1) * 86400000 + t2 - t1 + (off1 - off2) + 30 * 60000)
                  (36 * 3600000)) as [Hlt | Hge]; [exact Hlt|].
      apply proj2 in Hc. assert (false = true) by (apply Hc; lia). discriminate. }
  split; [reflexivity|]. split; [exact Hone|]. split; [exact Hzero|].
  split; [|split].
  - intros Hoff Hgap. apply Hone. lia.
  - intros Hoff Hgap. apply Hzero. lia.
  - intros Hoff Hgap. rewrite Hone. subst D2. lia.
Qed.

(** A landing at 06:30 and a take-off at 18:00 on the next date, three
    hours east of UTC on both dates: exactly 11 h 30 of clock time,
    compliant. *)
Lemma rest_compliance_by_calendar_gap_witness :
  tallyCompliant (restLoop 10800000 [Sample.dayA; Sample.dayB] emptyTally) = 1%nat.
Proof.
  destruct (rest_compliance_by_calendar_gap 10800000 Sample.dayA Sample.dayB [] []
              (mkSector "7" "HTDA" "HTZA" "05:50" "06:30" (Num (2 # 3)))
              (mkSector "8" "HTZA" "HTDA" "18:00" "18:40" (Num (2 # 3)))
              19754 23400000 10800000 19755 64800000 10800000
              eq_refl eq_refl eq_refl eq_refl eq_refl eq_refl eq_refl eq_refl)
    as [_ [_ [_ [_ [_ H]]]]].
  apply (H eq_refl eq_refl). lia.
Defined.

Lemma filter_length_impl {A : Type} (p q : A -> bool) (l : list A) :
  (forall x, p x = true -> q x = true) ->
  (List.length (filter p l) <= List.length (filter q l))%nat.
Proof.
  intro Himp. induction l as [|x l IH]; [apply Nat.le_refl|].
  cbn [filter]. destruct (p x) eqn:Ep.
  - rewrite (Himp x Ep). cbn [List.length]. lia.
  - destruct (q x); cbn [List.length]; lia.
Qed.

Lemma filter_filter_length {A : Type} (p q : A -> bool) (l : list A) :
  (List.length (filter q (filter p l)) <= List.length (filter q l))%nat.
Proof.
  induction l as [|x l IH]; [apply Nat.le_refl|].
  cbn [filter]. destruct (p x); cbn [filter]; destruct (q x); cbn [List.length]; lia.
Qed.

(** X13. For a pilot whose entries all carry valid dates, the recent view
    never reports more than the full history: its rest periods are among
    those of the full history, so recent and compliant-recent counts are
    bounded by the full counts, which are in turn at most the number of
    flying days minus one. *)
Theorem recent_counts_bounded_by_history (tz now : Z) (pilot : string)
    (entries : list TechlogEntry) (days : list DailyDetail) (res : RestCompliance)
    (full : list RestPeriod) :
  (forall e, In e entries -> fliesAs pilot e = true -> DateParse tz (date e) <> None) ->
  getPilotDailyDetails tz pilot entries = Some days ->
  getPilotRestCompliance tz now pilot entries = Some res ->
  restPeriodDetails tz pilot entries = Some full ->
  (forall r, In r (recentRestPeriodDetails res) -> In r full)
  /\ (recentRestPeriods res <= totalRestPeriods res)%nat
  /\ (recentCompliantRestPeriods res <= compliantRestPeriods res)%nat
  /\ (totalRestPeriods res <= List.length days - 1)%nat.
Proof.
  intros Hvalid Hrun.
  assert (Hdv : forall day, In day days -> DateParse tz (day_date day) <> None).
  { intros day Hin.
    destruct (day_date_of_entry _ _ _ _ _ Hrun Hin) as [e [He [Hp <-]]].
    exact (Hvalid e He Hp). }
  unfold getPilotRestCompliance, restPeriodDetails, getPilotOvernightCount.
  rewrite Hrun. intros Hres Hfull. injection Hres as <-. injection Hfull as <-.
  cbn [recentRestPeriodDetails recentRestPeriods recentCompliantRestPeriods
       totalRestPeriods compliantRestPeriods].
  set (sorted := sortedDailyDetails tz days).
  destruct (restLoop_counts tz (recentDailyDetails tz now sorted) emptyTally) as [Ht Hc].
  destruct (restLoop_counts tz sorted emptyTally) as [Ht' Hc'].
  rewrite !restLoop_details. cbn [emptyTally tallyTotal tallyCompliant tallyDetails app] in *.
  rewrite Ht, Hc, Ht', Hc'.
  rewrite (restPairs_recent tz now sorted (sortedDailyDetails_sorted tz days Hdv)).
  split; [|split; [|split]].
  - intros r Hr. apply filter_In in Hr. apply Hr.
  - apply filter_length_le.
  - apply filter_filter_length.
  - pose proof (restPairs_length tz sorted) as Hlen.
    assert (Hsame : List.length sorted = List.length days)
      by (apply Permutation_length, Array_sort_perm).
    lia.
Qed.

Lemma recent_counts_bounded_by_history_witness :
  exists res,
    getPilotRestCompliance 10800000 Sample.now "A. Smith" Sample.entries = Some res
    /\ (recentRestPeriods res <= totalRestPeriods res)%nat
    /\ (totalRestPeriods res <= 2)%nat.
Proof.
  eexists. split; [vm_compute; reflexivity|].
  edestruct (recent_counts_bounded_by_history
               10800000 Sample.now "A. Smith" Sample.entries)
    as [_ [H2 [_ H4]]];
    [ | vm_compute; reflexivity | vm_compute; reflexivity | vm_compute; reflexivity | ].
  - intros e He _.
    repeat (destruct He as [<- | He]; [discriminate|]). destruct He.
  - split; [exact H2|exact H4].
Defined.

Lemma isOvernight_endsAwayFromBase (g : string * list TechlogEntry) :
  truthy (isOvernight (dailyDetailOf g)) = endsAwayFromBase (dailyDetailOf g).
Proof.
  destruct g as [d es]. unfold endsAwayFromBase.
  cbn [dailyDetailOf isOvernight day_sectors].
  destruct (flat_map sectors es) as [|y l'] using rev_ind; [reflexivity|].
  rewrite arrayAt_last, rev_app_distr. cbn [rev app truthy]. unfold HOME_BASE.
  destruct (negb (String.eqb (arrival y) "HTDA")); reflexivity.
Qed.

(** X14. The overnight counter counts the flying days whose final sector
    arrives away from HTDA; a day without sectors is never an overnight;
    the recent counter counts those of them dated no earlier than seven
    days before now, so it never exceeds the total, which never exceeds the
    number of flying days. *)
Theorem overnight_counts (tz now : Z) (pilot : string) (entries : list TechlogEntry)
    (days : list DailyDetail) (total recent : nat) :
  getPilotDailyDetails tz pilot entries = Some days ->
  getPilotOvernightCount tz now pilot entries = Some (total, recent) ->
  total = List.length (filter endsAwayFromBase days)
  /\ recent = List.length (filter (fun day => isRecent tz now (day_date day)
                                               && endsAwayFromBase day) days)
  /\ (recent <= total)%nat
  /\ (total <= List.length days)%nat.
Proof.
  intros Hrun. unfold getPilotOvernightCount. rewrite Hrun.
  intro H. injection H as <- <-.
  destruct (getPilotDailyDetails_groups _ _ _ _ Hrun) as [groups [_ [Hperm _]]].
  assert (Hflag : forall day, In day days ->
                              truthy (isOvernight day) = endsAwayFromBase day).
  { intros day Hin. destruct (day_of_group _ _ _ Hperm Hin) as [d [es [_ ->]]].
    apply isOvernight_endsAwayFromBase. }
  assert (H1 : filter (fun day => truthy (isOvernight day)) days
               = filter endsAwayFromBase days)
    by (apply filter_ext_in; exact Hflag).
  assert (H2 : filter (fun day => isRecent tz now (day_date day)
                                  && truthy (isOvernight day)) days
               = filter (fun day => isRecent tz now (day_date day)
                                    && endsAwayFromBase day) days).
  { apply filter_ext_in. intros day Hin. rewrite (Hflag day Hin). reflexivity. }
  rewrite H1, H2. split; [reflexivity|]. split; [reflexivity|]. split.
  - apply filter_length_impl. intros day Hd. apply andb_true_iff in Hd. apply Hd.
  - apply filter_length_le.
Qed.

Lemma overnight_counts_witness :
  exists total recent,
    getPilotOvernightCount 10800000 Sample.now "A. Smith" Sample.entries
    = Some (total, recent)
    /\ (recent <= total)%nat /\ (total <= 3)%nat.
Proof.
  eexists. eexists. split; [vm_compute; reflexivity|].
  edestruct (overnight_counts 10800000 Sample.now "A. Smith" Sample.entries)
    as [_ [_ [H3 H4]]]; [vm_compute; reflexivity | vm_compute; reflexivity |].
  split; [exact H3|exact H4].
Defined.

Lemma groupByDate_fails (l : list TechlogEntry) :
  forall g,
    (forall k, In k (map fst g) -> inherited k = false) ->
    (groupByDate l g = None <-> exists e, In e l /\ inherited (date e) = true).
Proof.
  induction l as [|e l IH]; intros g Hg; cbn [groupByDate].
  - split; [discriminate|]. intros [e [[] _]].
  - unfold groupStep. destruct (getOwn (date e) g) as [es|] eqn:E.
    + assert (He : inherited (date e) = false).
      { apply Hg. apply getOwn_In in E. apply (in_map fst) in E. exact E. }
      rewrite IH.
      * split.
        -- intros [e' [He' Hi]]. exists e'. split; [right; exact He'|exact Hi].
        -- intros [e' [[<- | He'] Hi]]; [congruence|]. exists e'. split; assumption.
      * intros k Hk. rewrite keys_setOwn, E in Hk. apply Hg, Hk.
    + destruct (inherited (date e)) eqn:He.
      * split; [|reflexivity]. intros _. exists e. split; [left; reflexivity|exact He].
      * rewrite IH.
        -- split.
           ++ intros [e' [He' Hi]]. exists e'. split; [right; exact He'|exact Hi].
           ++ intros [e' [[<- | He'] Hi]]; [congruence|]. exists e'. split; assumption.
        -- intros k Hk. rewrite keys_setOwn, E in Hk. apply in_app_or in Hk.
           destruct Hk as [Hk | [<- | []]]; [apply Hg, Hk|exact He].
Qed.

(** X15. The daily grouper throws a TypeError exactly when one of the
    pilot's entries is dated with the name of a property every object
    inherits (such as "constructor" or "__proto__"); the overnight counter
    and the rest-compliance calculation, which call it, throw in exactly
    the same case. *)
Theorem getPilotDailyDetails_throws_iff (tz now : Z) (pilot : string)
    (entries : list TechlogEntry) :
  (getPilotDailyDetails tz pilot entries = None
   <-> exists e, In e entries /\ fliesAs pilot e = true /\ inherited (date e) = true)
  /\ (getPilotOvernightCount tz now pilot entries = None
      <-> getPilotDailyDetails tz pilot entries = None)
  /\ (getPilotRestCompliance tz now pilot entries = None
      <-> getPilotDailyDetails tz pilot entries = None).
Proof.
  split; [|split].
  - unfold getPilotDailyDetails.
    assert (Hf : groupByDate (filter (fliesAs pilot) entries) [] = None
                 <-> exists e, In e (filter (fliesAs pilot) entries)
                               /\ inherited (date e) = true)
      by (apply groupByDate_fails; intros k []).
    destruct (groupByDate (filter (fliesAs pilot) entries) []) as [groups|].
    + split; [discriminate|]. intros [e [He [Hp Hi]]].
      assert (Hnone : Some groups = None).
      { apply Hf. exists e. split; [|exact Hi]. apply filter_In. split; assumption. }
      discriminate.
    + split; [|reflexivity]. intros _.
      destruct (proj1 Hf eq_refl) as [e [He Hi]].
      apply filter_In in He. exists e. split; [apply He|]. split; [apply He|exact Hi].
  - unfold getPilotOvernightCount.
    destruct (getPilotDailyDetails tz pilot entries); split; congruence.
  - unfold getPilotRestCompliance, getPilotOvernightCount.
    destruct (getPilotDailyDetails tz pilot entries); split; congruence.
Qed.

Lemma list_sum_perm (l l' : list nat) : Permutation l l' -> list_sum l = list_sum l'.
Proof.
  induction 1 as [|x l l' _ IH|x y l|l l' l'' _ IH1 _ IH2].
  - reflexivity.
  - rewrite !list_sum_step, IH. reflexivity.
  - rewrite !list_sum_step. lia.
  - rewrite IH1. exact IH2.
Qed.

Lemma list_sum_ones {A : Type} (l : list A) :
  list_sum (map (fun _ => 1%nat) l) = List.length l.
Proof.
  induction l as [|x l IH]; [reflexivity|].
  cbn [map List.length]. rewrite list_sum_step, IH. reflexivity.
Qed.

(** Summing a measure of the days' entries over all days measures every
    entry of the pilot once. *)
Lemma days_partition_entries (tz : Z) (pilot : string) (entries : list TechlogEntry)
    (days : list DailyDetail) (f : TechlogEntry -> nat) :
  getPilotDailyDetails tz pilot entries = Some days ->
  list_sum (map (fun day => list_sum (map f (day_entries day))) days)
  = list_sum (map f (filter (fliesAs pilot) entries)).
Proof.
  intro Hrun.
  destruct (getPilotDailyDetails_groups _ _ _ _ Hrun) as [groups [Hg [Hperm _]]].
  rewrite (list_sum_perm _ _ (Permutation_map _ Hperm)).
  rewrite map_map.
  rewrite <- (partition_sum date f (map fst groups) (filter (fliesAs pilot) entries)).
  - rewrite map_map. f_equal. apply map_ext_in. intros [d es] Hin.
    destruct (groupsOf_content _ _ _ _ Hg Hin) as [-> _].
    reflexivity.
  - apply Hg.
  - intros e He. apply (groupsOf_key _ _ _ Hg He).
Qed.

(** X16. Grouping by date loses and duplicates nothing: the entries of the
    returned days are, in total, as many as the entries the pilot flies,
    their sectors as many as those entries' sectors, and there are no more
    days than entries. *)
Theorem getPilotDailyDetails_conserves_entries (tz : Z) (pilot : string)
    (entries : list TechlogEntry) (days : list DailyDetail) :
  getPilotDailyDetails tz pilot entries = Some days ->
  list_sum (map (fun day => List.length (day_entries day)) days)
  = List.length (filter (fliesAs pilot) entries)
  /\ list_sum (map (fun day => List.length (day_sectors day)) days)
     = Calculations.sumSectors (filter (fliesAs pilot) entries)
  /\ (List.length days <= List.length (filter (fliesAs pilot) entries))%nat.
Proof.
  intro Hrun.
  pose proof (days_partition_entries tz pilot entries days (fun _ => 1%nat) Hrun) as Hone.
  pose proof (days_partition_entries tz pilot entries days
                (fun e => List.length (sectors e)) Hrun) as Hsec.
  rewrite list_sum_ones in Hone.
  rewrite (map_ext _ (fun day => List.length (day_entries day))) in Hone
    by (intro day; apply list_sum_ones).
  destruct (getPilotDailyDetails_groups _ _ _ _ Hrun) as [groups [Hg [Hperm _]]].
  split; [exact Hone|]. split.
  - rewrite sumSectors_list_sum, <- Hsec. f_equal. apply map_ext_in.
    intros day Hin. destruct (day_of_group _ _ _ Hperm Hin) as [d [es [_ ->]]].
    cbn [dailyDetailOf day_sectors day_entries]. apply flat_map_length_sum.
  - rewrite <- Hone.
    assert (Hpos : forall day, In day days -> (1 <= List.length (day_entries day))%nat).
    { intros day Hin. destruct (day_of_group _ _ _ Hperm Hin) as [d [es [Hes ->]]].
      destruct (groupsOf_content _ _ _ _ Hg Hes) as [_ Hne].
      cbn [dailyDetailOf day_entries]. destruct es; [contradiction|cbn; lia]. }
    clear - Hpos. induction days as [|day days IH]; [apply Nat.le_refl|].
    cbn [map List.length]. rewrite list_sum_step.
    specialize (Hpos day (or_introl eq_refl)) as H1.
    assert (H2 : (List.length days
                  <= list_sum (map (fun day => List.length (day_entries day)) days))%nat)
      by (apply IH; intros d Hd; apply Hpos; right; exact Hd).
    lia.
Qed.

Lemma getPilotDailyDetails_conserves_entries_witness :
  exists days,
    getPilotDailyDetails 10800000 "A. Smith" Sample.twoSubmissions = Some days
    /\ list_sum (map (fun day => List.length (day_sectors day)) days) = 4%nat.
Proof.
  eexists. split; [vm_compute; reflexivity|].
  edestruct (getPilotDailyDetails_conserves_entries 10800000 "A. Smith"
               Sample.twoSubmissions) as [_ [H _]]; [vm_compute; reflexivity|].
  rewrite H. reflexivity.
Defined.

(** ** The entry form (TechlogEntryForm.tsx) *)

Lemma mapFrom_length {A B : Type} (f : nat -> A -> B) (l : list A) :
  forall k, List.length (mapFrom f k l) = List.length l.
Proof.
  induction l as [|x l IH]; intro k; [reflexivity|].
  cbn [mapFrom List.length]. rewrite IH. reflexivity.
Qed.

Lemma mapFrom_nth_error {A B : Type} (f : nat -> A -> B) (l : list A) :
  forall k j, nth_error (mapFrom f k l) j = option_map (f (k + j)%nat) (nth_error l j).
Proof.
  induction l as [|x l IH]; intros k j.
  - destruct j; reflexivity.
  - destruct j as [|j]; cbn [mapFrom nth_error option_map].
    + rewrite Nat.add_0_r. reflexivity.
    + rewrite IH. replace (S k + j)%nat with (k + S j)%nat by lia. reflexivity.
Qed.

Lemma handleSectorChange_length (index : nat) (u : TechlogEntryForm.SectorUpdate)
    (prev : list Sector) :
  List.length (TechlogEntryForm.handleSectorChange index u prev) = List.length prev.
Proof. apply mapFrom_length. Qed.

Lemma handleSectorChange_nth_error (index : nat) (u : TechlogEntryForm.SectorUpdate)
    (prev : list Sector) (j : nat) :
  nth_error (TechlogEntryForm.handleSectorChange index u prev) j
  = if (j =? index)%nat
    then option_map (TechlogEntryForm.applyUpdate u) (nth_error prev j)
    else nth_error prev j.
Proof.
  unfold TechlogEntryForm.handleSectorChange, Array_mapi.
  rewrite mapFrom_nth_error. cbn [Nat.add].
  destruct (j =? index)%nat; [reflexivity|].
  destruct (nth_error prev j); reflexivity.
Qed.

Lemma filterFrom_remove {A : Type} (index : nat) (l : list A) :
  forall k,
    filterFrom (fun i _ => negb (i =? index)%nat) k l
    = if ((k <=? index) && (index <? k + List.length l))%nat
      then (firstn (index - k) l ++ skipn (S (index - k)) l)%list
      else l.
Proof.
  induction l as [|x l IH]; intro k.
  - cbn [filterFrom List.length]. destruct ((k <=? index) && (index <? k + 0))%nat;
      [destruct (index - k)%nat|]; reflexivity.
  - cbn [filterFrom List.length]. rewrite IH.
    destruct (k =? index)%nat eqn:Ek.
    + apply Nat.eqb_eq in Ek. subst k. cbn [negb].
      replace (S index <=? index)%nat with false by (symmetry; apply Nat.leb_gt; lia).
      replace (index <=? index)%nat with true by (symmetry; apply Nat.leb_le; lia).
      replace (index <? index + S (List.length l))%nat with true
        by (symmetry; apply Nat.ltb_lt; lia).
      rewrite Nat.sub_diag. reflexivity.
    + apply Nat.eqb_neq in Ek. cbn [negb].
      destruct (k <=? index)%nat eqn:Ele.
      * apply Nat.leb_le in Ele.
        replace (S k <=? index)%nat with true by (symmetry; apply Nat.leb_le; lia).
        replace (index <? S k + List.length l)%nat
          with (index <? k + S (List.length l))%nat
          by (f_equal; lia).
        cbn [andb]. destruct (index <? k + S (List.length l))%nat; [|reflexivity].
        replace (index - k)%nat with (S (index - S k)) by lia.
        reflexivity.
      * apply Nat.leb_gt in Ele.
        replace (S k <=? index)%nat with false by (symmetry; apply Nat.leb_gt; lia).
        reflexivity.
Qed.

Lemma handleRemoveSector_cases (index : nat) (sectors : list Sector) :
  TechlogEntryForm.handleRemoveSector index sectors
  = if ((1 <? List.length sectors) && (index <? List.length sectors))%nat
    then (firstn index sectors ++ skipn (S index) sectors)%list
    else sectors.
Proof.
  unfold TechlogEntryForm.handleRemoveSector, Array_filteri.
  destruct (1 <? List.length sectors)%nat; [|reflexivity].
  rewrite filterFrom_remove. cbn [Nat.leb Nat.add andb]. rewrite Nat.sub_0_r. reflexivity.
Qed.

Lemma handleRemoveSector_In (index : nat) (sectors : list Sector) (s : Sector) :
  In s (TechlogEntryForm.handleRemoveSector index sectors) -> In s sectors.
Proof.
  rewrite handleRemoveSector_cases.
  destruct ((1 <? List.length sectors) && (index <? List.length sectors))%nat;
    [|exact (fun H => H)].
  intro H. apply in_app_or in H. rewrite <- (firstn_skipn index sectors).
  apply in_or_app. destruct H as [H | H]; [left; exact H|right].
  rewrite <- (firstn_skipn 1 (skipn index sectors)), skipn_skipn.
  apply in_or_app. right. exact H.
Qed.

Lemma handleRemoveSector_nonempty (index : nat) (sectors : list Sector) :
  sectors <> [] -> TechlogEntryForm.handleRemoveSector index sectors <> [].
Proof.
  intro Hne. rewrite handleRemoveSector_cases.
  destruct ((1 <? List.length sectors) && (index <? List.length sectors))%nat eqn:E;
    [|exact Hne].
  apply andb_true_iff in E. destruct E as [E1 E2].
  apply Nat.ltb_lt in E1. apply Nat.ltb_lt in E2.
  intro H. apply (f_equal (@List.length Sector)) in H.
  rewrite length_app, length_firstn, length_skipn in H. cbn [List.length] in H. lia.
Qed.

(** X17. Removing a sector takes out exactly the sector at the given
    index and keeps the others in order, provided the form has more than
    one sector; with a single sector (or an index that names no sector)
    nothing changes, so the form never loses its last sector. *)
Theorem handleRemoveSector_spec (index : nat) (sectors : list Sector) :
  ((1 < List.length sectors)%nat -> (index < List.length sectors)%nat ->
     TechlogEntryForm.handleRemoveSector index sectors
     = (firstn index sectors ++ skipn (S index) sectors)%list
     /\ S (List.length (TechlogEntryForm.handleRemoveSector index sectors))
        = List.length sectors)
  /\ ((List.length sectors <= 1)%nat \/ (List.length sectors <= index)%nat ->
      TechlogEntryForm.handleRemoveSector index sectors = sectors)
  /\ (sectors <> [] -> TechlogEntryForm.handleRemoveSector index sectors <> []).
Proof.
  split; [|split].
  - intros H1 H2. rewrite handleRemoveSector_cases.
    replace (1 <? List.length sectors)%nat with true by (symmetry; apply Nat.ltb_lt; lia).
    replace (index <? List.length sectors)%nat with true
      by (symmetry; apply Nat.ltb_lt; lia).
    cbn [andb]. split; [reflexivity|].
    rewrite length_app, length_firstn, length_skipn. lia.
  - intros H. rewrite handleRemoveSector_cases.
    destruct ((1 <? List.length sectors) && (index <? List.length sectors))%nat eqn:E;
      [|reflexivity].
    apply andb_true_iff in E. destruct E as [E1 E2].
    apply Nat.ltb_lt in E1. apply Nat.ltb_lt in E2. lia.
  - apply handleRemoveSector_nonempty.
Qed.

(** What a change of a time field does to the sector it names. *)
Lemma handleTimeChange_Some (tz : Z) (index : nat) (field : TechlogEntryForm.TimeField)
    (value : string) (sectors : list Sector) (sector : Sector) :
  nth_error sectors index = Some sector ->
  exists sectors' sector',
    TechlogEntryForm.handleTimeChange tz index field value sectors = Some sectors'
    /\ List.length sectors' = List.length sectors
    /\ (forall j, j <> index -> nth_error sectors' j = nth_error sectors j)
    /\ nth_error sectors' index = Some sector'
    /\ sector_id sector' = sector_id sector
    /\ departure sector' = departure sector
    /\ arrival sector' = arrival sector
    /\ takeoffTime sector'
       = match field with
         | TechlogEntryForm.TakeoffTimeField => value
         | TechlogEntryForm.LandingTimeField => takeoffTime sector
         end
    /\ landingTime sector'
       = match field with
         | TechlogEntryForm.TakeoffTimeField => landingTime sector
         | TechlogEntryForm.LandingTimeField => value
         end
    /\ flightTime sector'
       = if TechlogEntryForm.nonEmpty (takeoffTime sector')
            && TechlogEntryForm.nonEmpty (landingTime sector')
         then roundHundredths
                (TechlogEntryForm.calculateFlightTime tz (takeoffTime sector')
                                                      (landingTime sector'))
         else flightTime sector.
Proof.
  intro Hnth. unfold TechlogEntryForm.handleTimeChange. rewrite Hnth.
  destruct field.
  - destruct (TechlogEntryForm.nonEmpty value
              && TechlogEntryForm.nonEmpty (landingTime sector)) eqn:E.
    + eexists. eexists. split; [reflexivity|].
      split; [rewrite !handleSectorChange_length; reflexivity|].
      split.
      { intros j Hj. rewrite !handleSectorChange_nth_error.
        apply Nat.eqb_neq in Hj. rewrite Hj. reflexivity. }
      split.
      { rewrite !handleSectorChange_nth_error, Nat.eqb_refl, Hnth. reflexivity. }
      cbn [TechlogEntryForm.applyUpdate sector_id departure arrival takeoffTime
           landingTime flightTime].
      rewrite E. repeat split; reflexivity.
    + eexists. eexists. split; [reflexivity|].
      split; [rewrite !handleSectorChange_length; reflexivity|].
      split.
      { intros j Hj. rewrite !handleSectorChange_nth_error.
        apply Nat.eqb_neq in Hj. rewrite Hj. reflexivity. }
      split.
      { rewrite !handleSectorChange_nth_error, Nat.eqb_refl, Hnth. reflexivity. }
      cbn [TechlogEntryForm.applyUpdate sector_id departure arrival takeoffTime
           landingTime flightTime].
      rewrite E. repeat split; reflexivity.
  - destruct (TechlogEntryForm.nonEmpty value
              && TechlogEntryForm.nonEmpty (takeoffTime sector)) eqn:E.
    + eexists. eexists. split; [reflexivity|].
      split; [rewrite !handleSectorChange_length; reflexivity|].
      split.
      { intros j Hj. rewrite !handleSectorChange_nth_error.
        apply Nat.eqb_neq in Hj. rewrite Hj. reflexivity. }
      split.
      { rewrite !handleSectorChange_nth_error, Nat.eqb_refl, Hnth. reflexivity. }
      cbn [TechlogEntryForm.applyUpdate sector_id departure arrival takeoffTime
           landingTime flightTime].
      rewrite andb_comm, E. repeat split; reflexivity.
    + eexists. eexists. split; [reflexivity|].
      split; [rewrite !handleSectorChange_length; reflexivity|].
      split.
      { intros j Hj. rewrite !handleSectorChange_nth_error.
        apply Nat.eqb_neq in Hj. rewrite Hj. reflexivity. }
      split.
      { rewrite !handleSectorChange_nth_error, Nat.eqb_refl, Hnth. reflexivity. }
      cbn [TechlogEntryForm.applyUpdate sector_id departure arrival takeoffTime
           landingTime flightTime].
      rewrite andb_comm, E. repeat split; reflexivity.
Qed.

(** X18. Changing a time of a sector the form does not have throws a
    TypeError; otherwise only the named sector changes: the time is set,
    and the flight time is recomputed (rounded to hundredths) from the two
    times when both are present, and kept as it was when one is empty. *)
Theorem handleTimeChange_spec (tz : Z) (index : nat) (field : TechlogEntryForm.TimeField)
    (value : string) (sectors : list Sector) :
  (TechlogEntryForm.handleTimeChange tz index field value sectors = None
   <-> (List.length sectors <= index)%nat)
  /\ forall sector,
       nth_error sectors index = Some sector ->
       exists sectors' sector',
         TechlogEntryForm.handleTimeChange tz index field value sectors = Some sectors'
         /\ List.length sectors' = List.length sectors
         /\ (forall j, j <> index -> nth_error sectors' j = nth_error sectors j)
         /\ nth_error sectors' index = Some sector'
         /\ sector_id sector' = sector_id sector
         /\ departure sector' = departure sector
         /\ arrival sector' = arrival sector
         /\ takeoffTime sector'
            = match field with
              | TechlogEntryForm.TakeoffTimeField => value
              | TechlogEntryForm.LandingTimeField => takeoffTime sector
              end
         /\ landingTime sector'
            = match field with
              | TechlogEntryForm.TakeoffTimeField => landingTime sector
              | TechlogEntryForm.LandingTimeField => value
              end
         /\ flightTime sector'
            = if TechlogEntryForm.nonEmpty (takeoffTime sector')
                 && TechlogEntryForm.nonEmpty (landingTime sector')
              then roundHundredths
                     (TechlogEntryForm.calculateFlightTime tz (takeoffTime sector')
                                                           (landingTime sector'))
              else flightTime sector.
Proof.
  split; [|apply handleTimeChange_Some].
  destruct (nth_error sectors index) as [sector|] eqn:E.
  - destruct (handleTimeChange_Some tz index field value sectors sector E)
      as [sectors' [_ [-> _]]].
    split; [discriminate|]. intro H.
    apply nth_error_None in H. congruence.
  - unfold TechlogEntryForm.handleTimeChange. rewrite E.
    split; [intros _; apply nth_error_None; exact E | reflexivity].
Qed.

(** Landing time entered after the take-off time: 07:00 to 10:30 gives
    3.5 hours; clearing the landing time afterwards keeps the 3.5. *)
Example handleTimeChange_example :
  option_map (map flightTime)
    (TechlogEntryForm.handleTimeChange 10800000 0 TechlogEntryForm.LandingTimeField "10:30"
       [mkSector "1" "KJFK" "KLAX" "07:00" "" (Num 0)])
  = Some [Num (350 / 100)]
  /\ option_map (map flightTime)
       (TechlogEntryForm.handleTimeChange 10800000 0 TechlogEntryForm.LandingTimeField ""
          [mkSector "1" "KJFK" "KLAX" "07:00" "10:30" (Num 3.5)])
     = Some [Num 3.5].
Proof. split; vm_compute; reflexivity. Qed.

(** ** The storage (utils/storage.ts) *)

Lemma findIndexFrom_spec {A : Type} (p : A -> bool) (l : list A) :
  forall i,
    ((forall x, In x l -> p x = false) /\ findIndexFrom p i l = -1)
    \/ (exists pre x post,
          l = (pre ++ x :: post)%list
          /\ (forall y, In y pre -> p y = false)
          /\ p x = true
          /\ findIndexFrom p i l = i + Z.of_nat (List.length pre)).
Proof.
  induction l as [|a l IH]; intro i.
  - left. split; [intros x []|reflexivity].
  - cbn [findIndexFrom]. destruct (p a) eqn:Ea.
    + right. exists [], a, l. split; [reflexivity|].
      split; [intros y []|]. split; [exact Ea|cbn; lia].
    + destruct (IH (i + 1)) as [[Hall Hres] | [pre [x [post [-> [Hpre [Hx Hres]]]]]]].
      * left. split; [|exact Hres]. intros x [<- | Hx]; [exact Ea|apply Hall, Hx].
      * right. exists (a :: pre), x, post. split; [reflexivity|].
        split; [intros y [<- | Hy]; [exact Ea|apply Hpre, Hy]|].
        split; [exact Hx|]. rewrite Hres. cbn [List.length]. lia.
Qed.

(** The record list after an upsert: the new record appended when no
    record has its registration, put in the place of the first such record
    otherwise. *)
Lemma updateAircraftStats_cases (stats : AircraftStats) (store : Storage.LocalStorage) :
  let old := aircraftStats (Storage.loadFromLocalStorage store) in
  let new := aircraftStats (Storage.loadFromLocalStorage
                              (Storage.updateAircraftStats stats store)) in
  ((forall s, In s old -> String.eqb (registration s) (registration stats) = false)
   /\ new = (old ++ [stats])%list)
  \/ (exists pre x post,
        old = (pre ++ x :: post)%list
        /\ (forall s, In s pre -> String.eqb (registration s) (registration stats) = false)
        /\ registration x = registration stats
        /\ new = (pre ++ stats :: post)%list).
Proof.
  cbv zeta. unfold Storage.updateAircraftStats, Storage.saveToLocalStorage.
  cbn [Storage.loadFromLocalStorage aircraftStats].
  set (old := aircraftStats (Storage.loadFromLocalStorage store)).
  unfold Array_findIndex.
  destruct (findIndexFrom_spec
              (fun s => String.eqb (registration s) (registration stats)) old 0)
    as [[Hall ->] | [pre [x [post [Hold [Hpre [Hx ->]]]]]]].
  - left. split; [exact Hall|reflexivity].
  - right. exists pre, x, post. split; [exact Hold|]. split; [exact Hpre|].
    split; [apply String.eqb_eq, Hx|].
    replace (0 <=? 0 + Z.of_nat (List.length pre)) with true
      by (symmetry; apply Z.leb_le; lia).
    rewrite Z.add_0_l, Nat2Z.id. unfold arraySet. rewrite Hold.
    replace (List.length pre <? List.length (pre ++ x :: post)%list)%nat with true
      by (symmetry; apply Nat.ltb_lt; rewrite length_app; cbn [List.length]; lia).
    rewrite firstn_app, Nat.sub_diag, firstn_all, firstn_O, app_nil_r.
    replace (S (List.length pre)) with (List.length (pre ++ [x])%list)
      by (rewrite length_app; cbn [List.length]; lia).
    replace (pre ++ x :: post)%list with ((pre ++ [x]) ++ post)%list
      by (rewrite <- app_assoc; reflexivity).
    rewrite skipn_app, Nat.sub_diag, skipn_all, skipn_O. reflexivity.
Qed.

Lemma find_app_none {A : Type} (p : A -> bool) (pre rest : list A) :
  (forall y, In y pre -> p y = false) -> find p (pre ++ rest)%list = find p rest.
Proof.
  induction pre as [|a pre IH]; intro H; [reflexivity|].
  cbn [app find]. rewrite (H a (or_introl eq_refl)).
  apply IH. intros y Hy. apply H. right. exact Hy.
Qed.

Lemma updateAircraftStats_find (stats : AircraftStats) (store : Storage.LocalStorage) :
  find (fun s => String.eqb (registration s) (registration stats))
       (aircraftStats (Storage.loadFromLocalStorage
                         (Storage.updateAircraftStats stats store)))
  = Some stats.
Proof.
  destruct (updateAircraftStats_cases stats store)
    as [[Hall ->] | [pre [x [post [_ [Hpre [_ ->]]]]]]].
  - rewrite (find_app_none _ _ _ Hall). cbn [find]. rewrite String.eqb_refl. reflexivity.
  - rewrite (find_app_none _ _ _ Hpre). cbn [find]. rewrite String.eqb_refl. reflexivity.
Qed.

Lemma updateAircraftStats_others (stats : AircraftStats) (store : Storage.LocalStorage) :
  filter (fun s => negb (String.eqb (registration s) (registration stats)))
         (aircraftStats (Storage.loadFromLocalStorage
                           (Storage.updateAircraftStats stats store)))
  = filter (fun s => negb (String.eqb (registration s) (registration stats)))
           (aircraftStats (Storage.loadFromLocalStorage store)).
Proof.
  destruct (updateAircraftStats_cases stats store)
    as [[Hall ->] | [pre [x [post [-> [Hpre [Hx ->]]]]]]].
  - rewrite filter_app. cbn [filter]. rewrite String.eqb_refl. cbn [negb].
    apply app_nil_r.
  - rewrite !filter_app. cbn [filter]. rewrite Hx, String.eqb_refl. reflexivity.
Qed.

Lemma updateAircraftStats_registrations (stats : AircraftStats)
    (store : Storage.LocalStorage) :
  let old := aircraftStats (Storage.loadFromLocalStorage store) in
  let new := aircraftStats (Storage.loadFromLocalStorage
                              (Storage.updateAircraftStats stats store)) in
  (NoDup (map registration old) -> NoDup (map registration new))
  /\ (forall r, In r (map registration new)
                <-> In r (map registration old) \/ r = registration stats).
Proof.
  cbv zeta.
  destruct (updateAircraftStats_cases stats store)
    as [[Hall ->] | [pre [x [post [-> [Hpre [Hx ->]]]]]]].
  - split.
    + intro Hnd. rewrite map_app. cbn [map]. apply NoDup_app; [exact Hnd| |].
      * constructor; [intros []|constructor].
      * intros r Hr [<- | []]. apply in_map_iff in Hr. destruct Hr as [s [Hs Hin]].
        specialize (Hall s Hin). apply String.eqb_neq in Hall. congruence.
    + intro r. rewrite map_app, in_app_iff. cbn [map In]. intuition congruence.
  - assert (Hmap : map registration (pre ++ stats :: post)%list
                   = map registration (pre ++ x :: post)%list).
    { rewrite !map_app. cbn [map]. rewrite Hx. reflexivity. }
    rewrite Hmap. split; [exact (fun H => H)|].
    intro r. split; [left; assumption|].
    intros [H | ->]; [exact H|].
    rewrite map_app, in_app_iff. right. left. exact Hx.
Qed.

(** X19. Storing an aircraft record is an upsert by registration: looking
    the registration up afterwards finds the record just stored, the
    records of other registrations and the techlog entries are untouched,
    registrations that were distinct stay distinct, and the list grows by
    one exactly when the registration was not there. *)
Theorem updateAircraftStats_upsert (stats : AircraftStats) (store : Storage.LocalStorage) :
  let old := Storage.loadFromLocalStorage store in
  let new := Storage.loadFromLocalStorage (Storage.updateAircraftStats stats store) in
  techlogEntries new = techlogEntries old
  /\ find (fun s => String.eqb (registration s) (registration stats)) (aircraftStats new)
     = Some stats
  /\ filter (fun s => negb (String.eqb (registration s) (registration stats)))
            (aircraftStats new)
     = filter (fun s => negb (String.eqb (registration s) (registration stats)))
              (aircraftStats old)
  /\ (NoDup (map registration (aircraftStats old)) ->
      NoDup (map registration (aircraftStats new)))
  /\ List.length (aircraftStats new)
     = if existsb (fun s => String.eqb (registration s) (registration stats))
                  (aircraftStats old)
       then List.length (aircraftStats old)
       else S (List.length (aircraftStats old)).
Proof.
  cbv zeta. split; [reflexivity|].
  split; [apply updateAircraftStats_find|].
  split; [apply updateAircraftStats_others|].
  split; [apply updateAircraftStats_registrations|].
  destruct (updateAircraftStats_cases stats store)
    as [[Hall ->] | [pre [x [post [-> [Hpre [Hx ->]]]]]]].
  - replace (existsb _ _) with false.
    + rewrite length_app. cbn [List.length]. lia.
    + symmetry. apply not_true_is_false. intro H. apply existsb_exists in H.
      destruct H as [s [Hs H]]. rewrite (Hall s Hs) in H. discriminate.
  - replace (existsb _ _) with true.
    + rewrite !length_app. reflexivity.
    + symmetry. apply existsb_exists. exists x.
      split; [apply in_or_app; right; left; reflexivity|].
      apply String.eqb_eq, Hx.
Qed.

(** ** Submission (TechlogEntryForm.handleSubmit) *)

Lemma nonEmpty_true (s : string) : TechlogEntryForm.nonEmpty s = true <-> s <> "".
Proof.
  unfold TechlogEntryForm.nonEmpty. rewrite negb_true_iff. apply String.eqb_neq.
Qed.

Lemma nonEmpty_false (s : string) : TechlogEntryForm.nonEmpty s = false <-> s = "".
Proof.
  unfold TechlogEntryForm.nonEmpty. rewrite negb_false_iff. apply String.eqb_eq.
Qed.

Lemma isValidSector_true (x : Sector) :
  TechlogEntryForm.isValidSector x = true
  <-> departure x <> "" /\ arrival x <> "" /\ takeoffTime x <> "" /\ landingTime x <> "".
Proof.
  unfold TechlogEntryForm.isValidSector.
  rewrite !andb_true_iff, !nonEmpty_true. tauto.
Qed.

Section Submission.
Variable toUpperCase : string -> string.

Lemma handleSubmit_Stored (id : string) (now : Z) (formData : TechlogEntryForm.FormData)
    (formSectors : list Sector) (store : Storage.LocalStorage)
    (entry : TechlogEntry) (store' : Storage.LocalStorage) :
  TechlogEntryForm.handleSubmit toUpperCase id now formData formSectors store
  = TechlogEntryForm.Stored entry store' ->
  TechlogEntryForm.form_techlogNumber formData <> ""
  /\ TechlogEntryForm.form_aircraftRegistration formData <> ""
  /\ TechlogEntryForm.form_pilotName formData <> ""
  /\ filter TechlogEntryForm.isValidSector formSectors <> []
  /\ entry
     = {| entry_id := id;
          techlogNumber := TechlogEntryForm.form_techlogNumber formData;
          date := TechlogEntryForm.form_date formData;
          aircraftRegistration :=
            toUpperCase (TechlogEntryForm.form_aircraftRegistration formData);
          pilotName := TechlogEntryForm.form_pilotName formData;
          coPilotName :=
            if TechlogEntryForm.nonEmpty (TechlogEntryForm.form_coPilotName formData)
            then Some (TechlogEntryForm.form_coPilotName formData) else None;
          sectors := filter TechlogEntryForm.isValidSector formSectors;
          createdAt := Some now |}
  /\ store'
     = Storage.updateAircraftStats
         (Calculations.calculateAircraftStats now (aircraftRegistration entry)
            (techlogEntries (Storage.loadFromLocalStorage store) ++ [entry])%list)
         (Storage.addTechlogEntry entry store).
Proof.
  unfold TechlogEntryForm.handleSubmit.
  destruct (TechlogEntryForm.nonEmpty (TechlogEntryForm.form_techlogNumber formData))
    eqn:E1; [|discriminate].
  destruct (TechlogEntryForm.nonEmpty (TechlogEntryForm.form_aircraftRegistration formData))
    eqn:E2; [|discriminate].
  destruct (TechlogEntryForm.nonEmpty (TechlogEntryForm.form_pilotName formData))
    eqn:E3; [|discriminate].
  cbn [negb orb].
  destruct (filter TechlogEntryForm.isValidSector formSectors) as [|x valid] eqn:Ev;
    [discriminate|].
  cbn [List.length Nat.eqb]. intro H. injection H as <- <-.
  apply nonEmpty_true in E1. apply nonEmpty_true in E2. apply nonEmpty_true in E3.
  repeat split; try assumption; discriminate.
Qed.

Lemma handleSubmit_Alerted (id : string) (now : Z) (formData : TechlogEntryForm.FormData)
    (formSectors : list Sector) (store : Storage.LocalStorage) :
  (exists message,
     TechlogEntryForm.handleSubmit toUpperCase id now formData formSectors store
     = TechlogEntryForm.Alerted message)
  <-> TechlogEntryForm.form_techlogNumber formData = ""
      \/ TechlogEntryForm.form_aircraftRegistration formData = ""
      \/ TechlogEntryForm.form_pilotName formData = ""
      \/ filter TechlogEntryForm.isValidSector formSectors = [].
Proof.
  unfold TechlogEntryForm.handleSubmit.
  destruct (TechlogEntryForm.nonEmpty (TechlogEntryForm.form_techlogNumber formData))
    eqn:E1.
  2:{ apply nonEmpty_false in E1. cbn [negb orb].
      split; [intros _; left; exact E1 | intros _; eexists; reflexivity]. }
  destruct (TechlogEntryForm.nonEmpty (TechlogEntryForm.form_aircraftRegistration formData))
    eqn:E2.
  2:{ apply nonEmpty_false in E2. cbn [negb orb].
      split; [intros _; right; left; exact E2 | intros _; eexists; reflexivity]. }
  destruct (TechlogEntryForm.nonEmpty (TechlogEntryForm.form_pilotName formData))
    eqn:E3.
  2:{ apply nonEmpty_false in E3. cbn [negb orb].
      split; [intros _; right; right; left; exact E3 | intros _; eexists; reflexivity]. }
  cbn [negb orb].
  apply nonEmpty_true in E1. apply nonEmpty_true in E2. apply nonEmpty_true in E3.
  destruct (filter TechlogEntryForm.isValidSector formSectors) as [|x valid] eqn:Ev.
  - cbn [List.length Nat.eqb].
    split; [intros _; right; right; right; reflexivity | intros _; eexists; reflexivity].
  - cbn [List.length Nat.eqb]. split.
    + intros [message H]. discriminate.
    + intros [H | [H | [H | H]]]; try contradiction. discriminate.
Qed.

Lemma submitted_entry_wellFormed (id : string) (now : Z)
    (formData : TechlogEntryForm.FormData) (formSectors : list Sector)
    (store : Storage.LocalStorage) (entry : TechlogEntry)
    (store' : Storage.LocalStorage) :
  TechlogEntryForm.handleSubmit toUpperCase id now formData formSectors store
  = TechlogEntryForm.Stored entry store' ->
  wellFormedEntry entry.
Proof.
  intro H. apply handleSubmit_Stored in H.
  destruct H as [H1 [H2 [H3 [H4 [-> _]]]]].
  unfold wellFormedEntry. cbn [techlogNumber pilotName coPilotName sectors].
  split; [exact H1|]. split; [exact H3|]. split.
  - destruct (TechlogEntryForm.nonEmpty (TechlogEntryForm.form_coPilotName formData)) eqn:E;
      [|discriminate].
    apply nonEmpty_true in E. congruence.
  - split; [exact H4|]. apply Forall_forall. intros x Hx.
    apply filter_In in Hx. apply isValidSector_true, Hx.
Qed.

Lemma submitted_store (id : string) (now : Z)
    (formData : TechlogEntryForm.FormData) (formSectors : list Sector)
    (store : Storage.LocalStorage) (entry : TechlogEntry)
    (store' : Storage.LocalStorage) :
  TechlogEntryForm.handleSubmit toUpperCase id now formData formSectors store
  = TechlogEntryForm.Stored entry store' ->
  techlogEntries (Storage.loadFromLocalStorage store')
  = (techlogEntries (Storage.loadFromLocalStorage store) ++ [entry])%list
  /\ find (fun s => String.eqb (registration s) (aircraftRegistration entry))
          (aircraftStats (Storage.loadFromLocalStorage store'))
     = Some (Calculations.calculateAircraftStats now (aircraftRegistration entry)
               (techlogEntries (Storage.loadFromLocalStorage store')))
  /\ filter (fun s => negb (String.eqb (registration s) (aircraftRegistration entry)))
            (aircraftStats (Storage.loadFromLocalStorage store'))
     = filter (fun s => negb (String.eqb (registration s) (aircraftRegistration entry)))
              (aircraftStats (Storage.loadFromLocalStorage store)).
Proof.
  intro H. apply handleSubmit_Stored in H.
  destruct H as [_ [_ [_ [_ [_ ->]]]]].
  split; [reflexivity|]. split.
  - apply (updateAircraftStats_find
             (Calculations.calculateAircraftStats now (aircraftRegistration entry)
                (techlogEntries (Storage.loadFromLocalStorage store) ++ [entry])%list)).
  - apply (updateAircraftStats_others
             (Calculations.calculateAircraftStats now (aircraftRegistration entry)
                (techlogEntries (Storage.loadFromLocalStorage store) ++ [entry])%list)
             (Storage.addTechlogEntry entry store)).
Qed.

End Submission.

(** X20. A submission is refused with an alert exactly when the techlog
    number, the registration or the pilot name is empty or no sector has
    all four of its fields filled in.  Otherwise the entry stored is
    appended to the stored entries, keeps only the completely filled
    sectors (in order), and the stored record of its aircraft becomes the
    totals recomputed over all stored entries including the new one, the
    records of other aircraft staying as they were. *)
Theorem handleSubmit_spec (toUpperCase : string -> string) (id : string) (now : Z)
    (formData : TechlogEntryForm.FormData) (formSectors : list Sector)
    (store : Storage.LocalStorage) :
  ((exists message,
      TechlogEntryForm.handleSubmit toUpperCase id now formData formSectors store
      = TechlogEntryForm.Alerted message)
   <-> TechlogEntryForm.form_techlogNumber formData = ""
       \/ TechlogEntryForm.form_aircraftRegistration formData = ""
       \/ TechlogEntryForm.form_pilotName formData = ""
       \/ filter TechlogEntryForm.isValidSector formSectors = [])
  /\ forall entry store',
       TechlogEntryForm.handleSubmit toUpperCase id now formData formSectors store
       = TechlogEntryForm.Stored entry store' ->
       wellFormedEntry entry
       /\ sectors entry = filter TechlogEntryForm.isValidSector formSectors
       /\ aircraftRegistration entry
          = toUpperCase (TechlogEntryForm.form_aircraftRegistration formData)
       /\ techlogEntries (Storage.loadFromLocalStorage store')
          = (techlogEntries (Storage.loadFromLocalStorage store) ++ [entry])%list
       /\ find (fun s => String.eqb (registration s) (aircraftRegistration entry))
               (aircraftStats (Storage.loadFromLocalStorage store'))
          = Some (Calculations.calculateAircraftStats now (aircraftRegistration entry)
                    (techlogEntries (Storage.loadFromLocalStorage store')))
       /\ filter (fun s => negb (String.eqb (registration s) (aircraftRegistration entry)))
                 (aircraftStats (Storage.loadFromLocalStorage store'))
          = filter (fun s => negb (String.eqb (registration s)
                                              (aircraftRegistration entry)))
                   (aircraftStats (Storage.loadFromLocalStorage store)).
Proof.
  split; [apply handleSubmit_Alerted|].
  intros entry store' H.
  split; [exact (submitted_entry_wellFormed toUpperCase _ _ _ _ _ _ _ H)|].
  pose proof (handleSubmit_Stored toUpperCase _ _ _ _ _ _ _ H) as [_ [_ [_ [_ [He _]]]]].
  split; [rewrite He; reflexivity|]. split; [rewrite He; reflexivity|].
  exact (submitted_store toUpperCase _ _ _ _ _ _ _ H).
Qed.

(** ** Invariants of the entry tab *)

Lemma Forall_nth_update {A : Type} (P : A -> Prop) (l l' : list A) (index : nat) (x' : A) :
  Forall P l ->
  (forall j, j <> index -> nth_error l' j = nth_error l j) ->
  nth_error l' index = Some x' ->
  P x' ->
  Forall P l'.
Proof.
  intros Hl Hother Hindex Hx'. apply Forall_forall. intros x Hx.
  apply In_nth_error in Hx. destruct Hx as [j Hj].
  destruct (Nat.eq_dec j index) as [-> | Hne].
  - rewrite Hindex in Hj. injection Hj as <-. exact Hx'.
  - rewrite (Hother j Hne) in Hj. apply nth_error_In in Hj.
    rewrite Forall_forall in Hl. apply Hl, Hj.
Qed.

Lemma handleSectorChange_In (index : nat) (u : TechlogEntryForm.SectorUpdate)
    (prev : list Sector) (x : Sector) :
  In x (TechlogEntryForm.handleSectorChange index u prev) ->
  exists s, In s prev /\ (x = s \/ x = TechlogEntryForm.applyUpdate u s).
Proof.
  intro Hx. apply In_nth_error in Hx. destruct Hx as [j Hj].
  rewrite handleSectorChange_nth_error in Hj.
  destruct (j =? index)%nat.
  - destruct (nth_error prev j) as [s|] eqn:E; [|discriminate].
    injection Hj as <-. exists s. split; [apply (nth_error_In _ _ E)|right; reflexivity].
  - exists x. split; [apply (nth_error_In _ _ Hj)|left; reflexivity].
Qed.

Lemma list_nonempty_length {A : Type} (l : list A) : l <> [] <-> (0 < List.length l)%nat.
Proof.
  destruct l; cbn [List.length]; split; intro H; try lia; try congruence.
Qed.

Lemma roundHundredths_nonNegative (x : number) :
  nonNegative x -> nonNegative (roundHundredths x).
Proof.
  destruct x as [| | |q]; cbn [nonNegative roundHundredths]; try contradiction.
  intro Hq. apply Qle_shift_div_l; [reflexivity|].
  rewrite Qmult_0_l. change 0%Q with (inject_Z 0). rewrite <- Zle_Qle.
  change 0 with (Qfloor 0). apply Qfloor_resp_le.
  apply (Qle_trans _ ((0 * 100) + (1 # 2))); [discriminate|].
  apply Qplus_le_l. apply Qmult_le_compat_r; [exact Hq|discriminate].
Qed.

Lemma nonNegative_num_eq (a b : number) : a =n= b -> nonNegative b -> nonNegative a.
Proof.
  destruct a, b; cbn [num_eq nonNegative]; try contradiction; try (intros; assumption).
  intros -> H. exact H.
Qed.

(** The sector flight time of two times of day is a non-negative number. *)
Lemma sector_flight_time_nonNegative (tz : Z) (takeoff landing : string) :
  timeOfDayMs takeoff <> None -> timeOfDayMs landing <> None ->
  nonNegative (TechlogEntryForm.calculateFlightTime tz takeoff landing).
Proof.
  intros Ha Hb.
  destruct (timeOfDayMs takeoff) as [a|] eqn:Ea; [|congruence].
  destruct (timeOfDayMs landing) as [b|] eqn:Eb; [|congruence].
  pose proof (timeOfDayMs_range _ _ Ea) as Ra.
  pose proof (timeOfDayMs_range _ _ Eb) as Rb.
  destruct (Z.lt_ge_cases b a) as [Hlt | Hge].
  - apply (nonNegative_num_eq _ _ (calculateFlightTime_next_day tz _ _ a b Ea Eb Hlt)).
    apply hoursOfMs_nonneg. unfold msPerDay. lia.
  - apply (nonNegative_num_eq _ _ (calculateFlightTime_same_day tz _ _ a b Ea Eb Hge)).
    apply hoursOfMs_nonneg. lia.
Qed.

Lemma storedSector_nonNegative (tz : Z) (x : Sector) :
  storedSector tz x -> nonNegative (flightTime x).
Proof.
  intros [[Ha Hb] ->]. apply roundHundredths_nonNegative.
  apply sector_flight_time_nonNegative; assumption.
Qed.

Lemma filter_registration_app (r : string) (entries : list TechlogEntry)
    (entry : TechlogEntry) :
  String.eqb r (aircraftRegistration entry) = false ->
  filter (fun e => String.eqb (aircraftRegistration e) r) (entries ++ [entry])%list
  = filter (fun e => String.eqb (aircraftRegistration e) r) entries.
Proof.
  intro H. rewrite filter_app. cbn [filter].
  rewrite String.eqb_sym, H. apply app_nil_r.
Qed.

Lemma rollupFresh_empty : rollupFresh Storage.emptyData.
Proof.
  split; [constructor|]. split; [intros st []|intros e []].
Qed.

(** Appending an entry and upserting the recomputed record of its aircraft
    keeps the rollup fresh. *)
Lemma rollupFresh_submit (now : Z) (entry : TechlogEntry) (store : Storage.LocalStorage) :
  rollupFresh (Storage.loadFromLocalStorage store) ->
  rollupFresh
    (Storage.loadFromLocalStorage
       (Storage.updateAircraftStats
          (Calculations.calculateAircraftStats now (aircraftRegistration entry)
             (techlogEntries (Storage.loadFromLocalStorage store) ++ [entry])%list)
          (Storage.addTechlogEntry entry store))).
Proof.
  intros [Hnd [Hfresh Hcover]].
  set (entries := techlogEntries (Storage.loadFromLocalStorage store)) in *.
  set (stats := Calculations.calculateAircraftStats now (aircraftRegistration entry)
                  (entries ++ [entry])%list).
  set (store1 := Storage.addTechlogEntry entry store).
  assert (Hold : aircraftStats (Storage.loadFromLocalStorage store1)
                 = aircraftStats (Storage.loadFromLocalStorage store)) by reflexivity.
  assert (Hentries : techlogEntries (Storage.loadFromLocalStorage
                                       (Storage.updateAircraftStats stats store1))
                     = (entries ++ [entry])%list) by reflexivity.
  assert (Hreg : registration stats = aircraftRegistration entry) by reflexivity.
  destruct (updateAircraftStats_registrations stats store1) as [Hnd' Hregs].
  rewrite Hold in Hnd', Hregs.
  assert (Hkeep : forall st,
             In st (aircraftStats (Storage.loadFromLocalStorage store)) ->
             String.eqb (registration st) (aircraftRegistration entry) = false ->
             totalCycles st
             = totalCycles (Calculations.calculateAircraftStats 0 (registration st)
                                                                (entries ++ [entry])%list)
             /\ totalFlightHours st
                = totalFlightHours (Calculations.calculateAircraftStats 0 (registration st)
                                                                        (entries ++ [entry])%list)).
  { intros st Hst Hne. destruct (Hfresh st Hst) as [Hc Hh].
    unfold Calculations.calculateAircraftStats in *.
    cbn [totalCycles totalFlightHours] in *.
    rewrite (filter_registration_app _ _ _ Hne). split; assumption. }
  unfold rollupFresh. rewrite Hentries. split; [exact (Hnd' Hnd)|]. split.
  - intros st Hst.
    destruct (updateAircraftStats_cases stats store1)
      as [[Hall Hnew] | [pre [x [post [Hsplit [Hpre [Hx Hnew]]]]]]];
      cbv zeta in *; rewrite Hold in *; rewrite Hnew in Hst.
    + apply in_app_or in Hst. destruct Hst as [Hst | [<- | []]].
      * apply (Hkeep st Hst). rewrite <- Hreg. apply Hall, Hst.
      * split; reflexivity.
    + apply in_app_or in Hst. destruct Hst as [Hst | [<- | Hst]].
      * apply Hkeep; [rewrite Hsplit; apply in_or_app; left; exact Hst|].
        rewrite <- Hreg. apply Hpre, Hst.
      * split; reflexivity.
      * apply Hkeep; [rewrite Hsplit; apply in_or_app; right; right; exact Hst|].
        apply String.eqb_neq. intro Heq.
        rewrite Hsplit, map_app in Hnd. cbn [map] in Hnd.
        apply NoDup_remove_2 in Hnd. apply Hnd. apply in_or_app. right.
        rewrite Hx, Hreg, <- Heq. apply in_map, Hst.
  - intros e He. apply Hregs. apply in_app_or in He.
    destruct He as [He | [<- | []]]; [left; apply Hcover, He|right; reflexivity].
Qed.

Section Invariants.
Variable tz : Z.
Variable toUpperCase : string -> string.

Lemma emptySector_ok (id : string) :
  timesEntered (TechlogEntryForm.emptySector id)
  /\ flightTimeConsistent tz (TechlogEntryForm.emptySector id).
Proof.
  split; [split; left; reflexivity|]. intro H. discriminate.
Qed.

Lemma formInvariant_initial : formInvariant tz TechlogEntryForm.initialSectors.
Proof.
  split; [discriminate|]. constructor; [apply emptySector_ok|constructor].
Qed.

Lemma applyUpdate_place_ok (u : TechlogEntryForm.SectorUpdate) (x : Sector) :
  (exists v, u = TechlogEntryForm.SetDeparture v \/ u = TechlogEntryForm.SetArrival v) ->
  timesEntered x /\ flightTimeConsistent tz x ->
  timesEntered (TechlogEntryForm.applyUpdate u x)
  /\ flightTimeConsistent tz (TechlogEntryForm.applyUpdate u x).
Proof.
  intros [v [-> | ->]] H; exact H.
Qed.

Lemma handleSectorChange_place_ok (index : nat) (u : TechlogEntryForm.SectorUpdate)
    (rows : list Sector) :
  (exists v, u = TechlogEntryForm.SetDeparture v \/ u = TechlogEntryForm.SetArrival v) ->
  formInvariant tz rows ->
  formInvariant tz (TechlogEntryForm.handleSectorChange index u rows).
Proof.
  intros Hu [Hne Hall]. split.
  - apply list_nonempty_length. rewrite handleSectorChange_length.
    apply list_nonempty_length, Hne.
  - apply Forall_forall. intros x Hx.
    destruct (handleSectorChange_In _ _ _ _ Hx) as [s [Hs [-> | ->]]];
      rewrite Forall_forall in Hall.
    + apply Hall, Hs.
    + apply applyUpdate_place_ok; [exact Hu|apply Hall, Hs].
Qed.

Lemma handleTimeChange_ok (index : nat) (field : TechlogEntryForm.TimeField)
    (value : string) (rows rows' : list Sector) :
  value = "" \/ timeOfDayMs value <> None ->
  TechlogEntryForm.handleTimeChange tz index field value rows = Some rows' ->
  formInvariant tz rows ->
  formInvariant tz rows'.
Proof.
  intros Hvalue Hrun [Hne Hall].
  destruct (nth_error rows index) as [sector|] eqn:E.
  2:{ unfold TechlogEntryForm.handleTimeChange in Hrun. rewrite E in Hrun. discriminate. }
  destruct (handleTimeChange_Some tz index field value rows sector E)
    as [rows1 [sector' [Hrun' [Hlen [Hother [Hindex [_ [_ [_ [Ht [Hl Hf]]]]]]]]]]].
  rewrite Hrun in Hrun'. injection Hrun' as <-.
  split.
  - apply list_nonempty_length. rewrite Hlen. apply list_nonempty_length, Hne.
  - apply (Forall_nth_update _ rows rows' index sector' Hall Hother Hindex).
    assert (Hold : timesEntered sector /\ flightTimeConsistent tz sector).
    { rewrite Forall_forall in Hall. apply Hall. apply (nth_error_In _ _ E). }
    destruct Hold as [[Hto Hla] _]. split.
    + unfold timesEntered. rewrite Ht, Hl. destruct field; split; assumption.
    + unfold flightTimeConsistent. intro Hboth. rewrite Hf, Hboth. reflexivity.
Qed.

Lemma formInvariant_step (s s' : AppState) (e : Event) :
  browserEvent e ->
  step tz toUpperCase s e = Some s' ->
  formInvariant tz (state_sectors s) ->
  formInvariant tz (state_sectors s').
Proof.
  intros Hev Hstep Hinv. destruct e; cbn [step browserEvent] in Hstep, Hev.
  - injection Hstep as <-. exact Hinv.
  - injection Hstep as <-. cbn [state_sectors].
    unfold TechlogEntryForm.handleAddSector. destruct Hinv as [Hne Hall]. split.
    + intro H. apply app_eq_nil in H. destruct H as [_ H]. discriminate.
    + apply Forall_app. split; [exact Hall|].
      constructor; [apply emptySector_ok|constructor].
  - destruct (index <? List.length (state_sectors s))%nat; [|discriminate].
    injection Hstep as <-. cbn [state_sectors]. destruct Hinv as [Hne Hall]. split.
    + apply handleRemoveSector_nonempty, Hne.
    + apply Forall_forall. intros x Hx. apply handleRemoveSector_In in Hx.
      rewrite Forall_forall in Hall. apply Hall, Hx.
  - destruct (index <? List.length (state_sectors s))%nat; [|discriminate].
    injection Hstep as <-. cbn [state_sectors].
    apply handleSectorChange_place_ok; [|exact Hinv]. exists value. left. reflexivity.
  - destruct (index <? List.length (state_sectors s))%nat; [|discriminate].
    injection Hstep as <-. cbn [state_sectors].
    apply handleSectorChange_place_ok; [|exact Hinv]. exists value. right. reflexivity.
  - destruct (TechlogEntryForm.handleTimeChange tz index field value (state_sectors s))
      as [rows'|] eqn:E; [|discriminate].
    injection Hstep as <-. cbn [state_sectors].
    apply (handleTimeChange_ok index field value _ _ Hev E Hinv).
  - destruct (TechlogEntryForm.handleSubmit toUpperCase id now (state_formData s)
                (state_sectors s) (state_store s)).
    + injection Hstep as <-. exact Hinv.
    + injection Hstep as <-. apply formInvariant_initial.
  - injection Hstep as <-. exact Hinv.
Qed.

Lemma storeInvariant_empty : storeInvariant tz Storage.emptyData.
Proof. split; [constructor|apply rollupFresh_empty]. Qed.

Lemma valid_form_sector_stored (rows : list Sector) (x : Sector) :
  formInvariant tz rows ->
  In x (filter TechlogEntryForm.isValidSector rows) ->
  storedSector tz x.
Proof.
  intros [_ Hall] Hx. apply filter_In in Hx. destruct Hx as [Hx Hvalid].
  rewrite Forall_forall in Hall. destruct (Hall x Hx) as [[Hto Hla] Hcons].
  apply isValidSector_true in Hvalid. destruct Hvalid as [_ [_ [Ht Hl]]].
  split.
  - split; [destruct Hto; [contradiction|assumption]
           |destruct Hla; [contradiction|assumption]].
  - apply Hcons. apply andb_true_iff. split; apply nonEmpty_true; assumption.
Qed.

Lemma storeInvariant_step (s s' : AppState) (e : Event) :
  step tz toUpperCase s e = Some s' ->
  formInvariant tz (state_sectors s) ->
  storeInvariant tz (Storage.loadFromLocalStorage (state_store s)) ->
  storeInvariant tz (Storage.loadFromLocalStorage (state_store s')).
Proof.
  intros Hstep Hform Hinv. destruct e; cbn [step] in Hstep.
  - injection Hstep as <-. exact Hinv.
  - injection Hstep as <-. exact Hinv.
  - destruct (index <? List.length (state_sectors s))%nat; [|discriminate].
    injection Hstep as <-. exact Hinv.
  - destruct (index <? List.length (state_sectors s))%nat; [|discriminate].
    injection Hstep as <-. exact Hinv.
  - destruct (index <? List.length (state_sectors s))%nat; [|discriminate].
    injection Hstep as <-. exact Hinv.
  - destruct (TechlogEntryForm.handleTimeChange tz index field value (state_sectors s));
      [|discriminate].
    injection Hstep as <-. exact Hinv.
  - destruct (TechlogEntryForm.handleSubmit toUpperCase id now (state_formData s)
                (state_sectors s) (state_store s)) as [message|entry store'] eqn:E.
    + injection Hstep as <-. exact Hinv.
    + injection Hstep as <-. cbn [state_store].
      pose proof (submitted_entry_wellFormed toUpperCase _ _ _ _ _ _ _ E) as Hwf.
      pose proof (handleSubmit_Stored toUpperCase _ _ _ _ _ _ _ E)
        as [_ [_ [_ [_ [Hentry Hstore]]]]].
      destruct Hinv as [Hentries Hfresh]. split.
      * rewrite Hstore.
        change (techlogEntries
                  (Storage.loadFromLocalStorage
                     (Storage.updateAircraftStats
                        (Calculations.calculateAircraftStats now (aircraftRegistration entry)
                           (techlogEntries (Storage.loadFromLocalStorage (state_store s))
                            ++ [entry])%list)
                        (Storage.addTechlogEntry entry (state_store s)))))
          with (techlogEntries (Storage.loadFromLocalStorage (state_store s))
                ++ [entry])%list.
        apply Forall_app. split; [exact Hentries|].
        constructor; [|constructor]. split; [exact Hwf|].
        apply Forall_forall. intros x Hx.
        apply (valid_form_sector_stored (state_sectors s) x Hform).
        rewrite Hentry in Hx. exact Hx.
      * rewrite Hstore. apply rollupFresh_submit, Hfresh.
  - injection Hstep as <-. apply storeInvariant_empty.
Qed.

Lemma reachable_invariants (s : AppState) :
  reachable tz toUpperCase s ->
  formInvariant tz (state_sectors s)
  /\ storeInvariant tz (Storage.loadFromLocalStorage (state_store s)).
Proof.
  induction 1 as [today | s today _ [_ IH] | s s' e _ [IHf IHs] Hev Hstep].
  - split; [apply formInvariant_initial|apply storeInvariant_empty].
  - split; [apply formInvariant_initial|exact IH].
  - split.
    + apply (formInvariant_step s s' e Hev Hstep IHf).
    + apply (storeInvariant_step s s' e Hstep IHf IHs).
Qed.

End Invariants.

(** X21. Whatever the user does in the entry tab (typing, adding and
    removing sectors, setting times through the time inputs, submitting,
    clearing the data, reloading), the form always has at least one
    sector, and every sector whose two times are filled in shows the
    flight time computed from them, rounded to hundredths. *)
Theorem form_always_consistent (tz : Z) (toUpperCase : string -> string) (s : AppState) :
  reachable tz toUpperCase s ->
  state_sectors s <> []
  /\ forall x, In x (state_sectors s) ->
       takeoffTime x <> "" -> landingTime x <> "" ->
       timeOfDayMs (takeoffTime x) <> None
       /\ timeOfDayMs (landingTime x) <> None
       /\ flightTime x
          = roundHundredths
              (TechlogEntryForm.calculateFlightTime tz (takeoffTime x) (landingTime x))
       /\ nonNegative (flightTime x).
Proof.
  intro Hreach.
  destruct (reachable_invariants tz toUpperCase s Hreach) as [[Hne Hall] _].
  split; [exact Hne|]. intros x Hx Ht Hl.
  rewrite Forall_forall in Hall. destruct (Hall x Hx) as [[Hto Hla] Hcons].
  assert (Hvt : timeOfDayMs (takeoffTime x) <> None)
    by (destruct Hto; [contradiction|assumption]).
  assert (Hvl : timeOfDayMs (landingTime x) <> None)
    by (destruct Hla; [contradiction|assumption]).
  assert (Hft : flightTime x
                = roundHundredths
                    (TechlogEntryForm.calculateFlightTime tz (takeoffTime x)
                                                          (landingTime x))).
  { apply Hcons. apply andb_true_iff. split; apply nonEmpty_true; assumption. }
  split; [exact Hvt|]. split; [exact Hvl|]. split; [exact Hft|].
  apply storedSector_nonNegative with (tz := tz). split; [split; assumption|exact Hft].
Qed.

(** X22. Every entry the entry tab has stored has a techlog number, a
    pilot name, no empty co-pilot name and at least one sector; each of its
    sectors has a departure, an arrival, two times of day and the flight
    time computed from them, which is a non-negative number; and the
    stored aircraft records have distinct registrations, cover every
    stored entry's aircraft and agree with a recomputation from the stored
    entries. *)
Theorem stored_data_always_well_formed (tz : Z) (toUpperCase : string -> string)
    (s : AppState) :
  reachable tz toUpperCase s ->
  let data := Storage.loadFromLocalStorage (state_store s) in
  (forall e, In e (techlogEntries data) ->
     wellFormedEntry e
     /\ forall x, In x (sectors e) ->
          validTimes x
          /\ flightTime x
             = roundHundredths
                 (TechlogEntryForm.calculateFlightTime tz (takeoffTime x) (landingTime x))
          /\ nonNegative (flightTime x))
  /\ rollupFresh data.
Proof.
  intro Hreach. cbv zeta.
  destruct (reachable_invariants tz toUpperCase s Hreach) as [_ [Hentries Hfresh]].
  split; [|exact Hfresh]. intros e He.
  rewrite Forall_forall in Hentries. destruct (Hentries e He) as [Hwf Hsec].
  split; [exact Hwf|]. intros x Hx.
  rewrite Forall_forall in Hsec. pose proof (Hsec x Hx) as Hst.
  split; [apply Hst|]. split; [apply Hst|].
  apply (storedSector_nonNegative tz x Hst).
Qed.

Lemma runEvents_reachable (tz : Z) (toUpperCase : string -> string)
    (events : list Event) :
  forall s s',
    reachable tz toUpperCase s ->
    Forall browserEvent events ->
    runEvents tz toUpperCase s events = Some s' ->
    reachable tz toUpperCase s'.
Proof.
  unfold runEvents.
  induction events as [|e events IH]; intros s s' Hs Hev Hrun; cbn [fold_left] in Hrun.
  - injection Hrun as <-. exact Hs.
  - apply Forall_cons_iff in Hev. destruct Hev as [He Hev].
    destruct (step tz toUpperCase s e) as [s1|] eqn:E.
    + apply (IH s1 s'); [|exact Hev|exact Hrun].
      apply (reachable_step tz toUpperCase s s1 e Hs He E).
    + exfalso. clear - Hrun. induction events as [|e' events IH']; [discriminate|].
      apply IH'. exact Hrun.
Qed.

Lemma sample_events_browser : Forall browserEvent Sample.submitEvents.
Proof.
  unfold Sample.submitEvents, Sample.formEvents. cbn [app].
  repeat (apply Forall_cons; [cbn [browserEvent]; try exact I; right; discriminate|]).
  apply Forall_nil.
Qed.

Lemma sample_form_events_browser : Forall browserEvent Sample.formEvents.
Proof.
  pose proof sample_events_browser as H. unfold Sample.submitEvents in H.
  apply Forall_app in H. apply H.
Qed.

(** The form filled in with one complete sector and one empty one. *)
Lemma form_always_consistent_witness :
  exists s,
    runEvents 10800000 Sample.toUpperCaseAscii Sample.freshState Sample.formEvents = Some s
    /\ map (fun x => (takeoffTime x, landingTime x)) (state_sectors s)
       = [("07:00", "10:30"); ("", "")]
    /\ state_sectors s <> [].
Proof.
  eexists. split; [vm_compute; reflexivity|]. split; [reflexivity|].
  apply (form_always_consistent 10800000 Sample.toUpperCaseAscii).
  apply (runEvents_reachable 10800000 Sample.toUpperCaseAscii Sample.formEvents
           Sample.freshState).
  - apply reachable_fresh.
  - apply sample_form_events_browser.
  - vm_compute. reflexivity.
Defined.

(** The same form submitted: one entry stored for 5H-AAA with its one
    complete sector. *)
Lemma stored_data_always_well_formed_witness :
  exists s,
    runEvents 10800000 Sample.toUpperCaseAscii Sample.freshState Sample.submitEvents
    = Some s
    /\ map (fun e => (aircraftRegistration e, List.length (sectors e)))
           (techlogEntries (Storage.loadFromLocalStorage (state_store s)))
       = [("5H-AAA", 1%nat)]
    /\ rollupFresh (Storage.loadFromLocalStorage (state_store s)).
Proof.
  eexists. split; [vm_compute; reflexivity|]. split; [reflexivity|].
  apply (stored_data_always_well_formed 10800000 Sample.toUpperCaseAscii).
  apply (runEvents_reachable 10800000 Sample.toUpperCaseAscii Sample.submitEvents
           Sample.freshState).
  - apply reachable_fresh.
  - apply sample_events_browser.
  - vm_compute. reflexivity.
Defined.

(** ** The dashboards over stored data *)

Lemma numLe_from_zero (x : number) : numLe (Num 0) x -> nonNegative x.
Proof. destruct x; cbn [numLe nonNegative]; intro H; exact H. Qed.

(** The totals of a statistic with non-negative values over the three
    windows of a pilot: non-negative numbers, ordered like the windows. *)
Lemma window_totals_ordered (tz now : Z) (pilot : string) (entries : list TechlogEntry)
    (f : TechlogEntry -> number) :
  (forall e, In e entries -> nonNegative (f e)) ->
  let total (w : Z) :=
    fold_left (fun total e => nadd total (f e))
              (Calculations.windowEntries tz now pilot entries w) (Num 0) in
  nonNegative (total (7 * 24 * 60 * 60 * 1000))
  /\ numLe (total (7 * 24 * 60 * 60 * 1000)) (total (28 * 24 * 60 * 60 * 1000))
  /\ numLe (total (28 * 24 * 60 * 60 * 1000)) (total (365 * 24 * 60 * 60 * 1000)).
Proof.
  intro Hnn. cbv zeta.
  unfold Calculations.windowEntries, Calculations.getEntriesInDateRange.
  assert (Hsel : forall e, In e (filter (fliesAs pilot) entries) -> nonNegative (f e)).
  { intros e He. apply filter_In in He. apply Hnn, He. }
  split; [|split].
  - apply numLe_from_zero.
    pose proof (sum_filter_monotone f (fun _ => false)
                  (fun entry =>
                     Date_ge (DateParse tz (date entry))
                             (DatePlusMs (Some now) (- (7 * 24 * 60 * 60 * 1000)))
                     && Date_le (DateParse tz (date entry)) (Some now))
                  (filter (fliesAs pilot) entries) Hsel
                  (fun _ _ (H : false = true) => False_ind _ (diff_false_true H))
                  0%Q 0%Q (Qle_refl 0)) as H.
    rewrite (filter_all_false (fun _ => false)) in H by reflexivity. exact H.
  - apply (sum_filter_monotone f); [exact Hsel | | apply Qle_refl].
    intros e _. apply window_widens. lia.
  - apply (sum_filter_monotone f); [exact Hsel | | apply Qle_refl].
    intros e _. apply window_widens. lia.
Qed.

Lemma sumFlightTime_nonNegative (entries : list TechlogEntry) :
  (forall e, In e entries -> nonNegative (Calculations.calculateFlightTime (sectors e))) ->
  nonNegative (Calculations.sumFlightTime entries).
Proof.
  intro Hnn. unfold Calculations.sumFlightTime. apply numLe_from_zero.
  pose proof (sum_filter_monotone
                (fun e => Calculations.calculateFlightTime (sectors e))
                (fun _ => false) (fun _ => true) entries Hnn
                (fun _ _ _ => eq_refl) 0%Q 0%Q (Qle_refl 0)) as H.
  rewrite (filter_all_false (fun _ => false)) in H by reflexivity.
  rewrite (filter_all_true (fun _ => true)) in H by reflexivity.
  exact H.
Qed.

(** X23. For the data the entry tab has stored, every total the dashboards
    show is a non-negative number (never NaN): for every pilot the flight
    and duty totals of the three windows are numbers ordered
    7 days <= 28 days <= 365 days, and for every registration the total
    flight hours are a non-negative number. *)
Theorem stored_data_totals_are_numbers (tz : Z) (toUpperCase : string -> string)
    (s : AppState) (now : Z) (pilot reg : string) :
  reachable tz toUpperCase s ->
  let entries := techlogEntries (Storage.loadFromLocalStorage (state_store s)) in
  let st := Calculations.calculatePilotStats tz now pilot entries in
  nonNegative (flightTime7Days st)
  /\ numLe (flightTime7Days st) (flightTime28Days st)
  /\ numLe (flightTime28Days st) (flightTime365Days st)
  /\ nonNegative (dutyTime7Days st)
  /\ numLe (dutyTime7Days st) (dutyTime28Days st)
  /\ numLe (dutyTime28Days st) (dutyTime365Days st)
  /\ nonNegative (totalFlightHours (Calculations.calculateAircraftStats now reg entries)).
Proof.
  intro Hreach. cbv zeta.
  destruct (reachable_invariants tz toUpperCase s Hreach) as [_ [Hentries _]].
  rewrite Forall_forall in Hentries.
  set (entries := techlogEntries (Storage.loadFromLocalStorage (state_store s))) in *.
  assert (Hflight : forall e, In e entries ->
                              nonNegative (Calculations.calculateFlightTime (sectors e))).
  { intros e He. apply calculateFlightTime_nonNegative. intros x Hx.
    destruct (Hentries e He) as [_ Hsec]. rewrite Forall_forall in Hsec.
    apply (storedSector_nonNegative tz x (Hsec x Hx)). }
  assert (Hduty : forall e, In e entries ->
                            nonNegative (Calculations.calculateDutyTime tz (sectors e))).
  { intros e He. apply calculateDutyTime_valid_nonNegative.
    destruct (Hentries e He) as [_ Hsec].
    apply Forall_forall. intros x Hx. rewrite Forall_forall in Hsec.
    apply (Hsec x Hx). }
  destruct (window_totals_ordered tz now pilot entries _ Hflight) as [F1 [F2 F3]].
  destruct (window_totals_ordered tz now pilot entries _ Hduty) as [D1 [D2 D3]].
  split; [exact F1|]. split; [exact F2|]. split; [exact F3|].
  split; [exact D1|]. split; [exact D2|]. split; [exact D3|].
  unfold Calculations.calculateAircraftStats. cbn [totalFlightHours].
  apply sumFlightTime_nonNegative. intros e He. apply filter_In in He.
  apply Hflight, He.
Qed.

(** After the sample submission the pilot's 7-day totals are numbers. *)
Lemma stored_data_totals_are_numbers_witness :
  exists s,
    runEvents 10800000 Sample.toUpperCaseAscii Sample.freshState Sample.submitEvents
    = Some s
    /\ nonNegative
         (flightTime7Days
            (Calculations.calculatePilotStats 10800000 Sample.now "A. Smith"
               (techlogEntries (Storage.loadFromLocalStorage (state_store s)))))
    /\ sectors7Days
         (Calculations.calculatePilotStats 10800000 Sample.now "A. Smith"
            (techlogEntries (Storage.loadFromLocalStorage (state_store s)))) = 1%nat.
Proof.
  eexists. split; [vm_compute; reflexivity|]. split; [|reflexivity].
  apply (stored_data_totals_are_numbers 10800000 Sample.toUpperCaseAscii _
           Sample.now "A. Smith" "5H-AAA").
  apply (runEvents_reachable 10800000 Sample.toUpperCaseAscii Sample.submitEvents
           Sample.freshState).
  - apply reachable_fresh.
  - apply sample_events_browser.
  - vm_compute. reflexivity.
Defined.

(** X24. A pilot who flies none of the entries (in particular when there
    are no entries at all) has all totals and sector counts zero and no
    exceedance flag set, has no flying day, and is fully compliant with no
    rest period and no overnight. *)
Theorem pilot_without_entries (tz now : Z) (pilot : string) (entries : list TechlogEntry) :
  (forall e, In e entries -> fliesAs pilot e = false) ->
  Calculations.calculatePilotStats tz now pilot entries
  = mkPilotStats pilot (Num 0) (Num 0) (Num 0) (Num 0) (Num 0) (Num 0) 0 0 0
                 (mkExceedances false false false false false false false)
  /\ getPilotDailyDetails tz pilot entries = Some []
  /\ getPilotRestCompliance tz now pilot entries
     = Some (mkRestCompliance 0 0 0 0 0 0 true []).
Proof.
  intro Hnone.
  assert (Hsel : filter (fliesAs pilot) entries = [])
    by (apply filter_all_false; exact Hnone).
  split; [|split].
  - unfold Calculations.calculatePilotStats, Calculations.windowEntries.
    rewrite Hsel. reflexivity.
  - unfold getPilotDailyDetails. rewrite Hsel. reflexivity.
  - unfold getPilotRestCompliance, getPilotOvernightCount, getPilotDailyDetails.
    rewrite Hsel. reflexivity.
Qed.

Lemma pilot_without_entries_witness :
  sectors365Days (Calculations.calculatePilotStats 10800000 Sample.now "D. White"
                    Sample.entries) = 0%nat
  /\ getPilotDailyDetails 10800000 "D. White" Sample.entries = Some [].
Proof.
  destruct (pilot_without_entries 10800000 Sample.now "D. White" Sample.entries)
    as [H1 [H2 _]].
  - intros e He.
    repeat (destruct He as [<- | He]; [reflexivity|]). destruct He.
  - split; [rewrite H1; reflexivity|exact H2].
Defined.
